(** * Financial data collector: document collection and deduplication

    A shallow embedding of the collection pipeline of the repository
    (app/storage/data_store.py, app/collectors/companies.py,
    app/collectors/sec_fetcher.py, app/collectors/ir_scraper.py,
    app/scheduler/tasks.py, app/api/routes.py), followed by the properties
    of the specification that were checked against it.

    Conventions of the embedding:
    - Python [str] values are [string]s; [upper], [lower] and [strip] act on
      the ASCII range only.
    - A Python [dict] is a [gmap] where only lookups matter, and an
      association list ([JObj]) for decoded JSON payloads.
    - An exception is a value: fallible code returns [py_result].
    - Calls of [print] are omitted. *)

From Stdlib Require Import Ascii.
From stdpp Require Import gmap strings list fin_maps pretty.

Set Warnings "-register-all".

(** ** Python values and string helpers *)

Module Py.

(** The exceptions that the modelled code can raise or catch. *)
Inductive exn :=
| KeyError (key : string)
| IndexError
| TypeError
| AttributeError
| JSONDecodeError
| OSError (path : string)
| RequestException (msg : string).

Inductive py_result (A : Type) :=
| Returned (a : A)
| Raised (e : exn).
Arguments Returned {A} a.
Arguments Raised {A} e.

Definition bind {A B} (r : py_result A) (k : A → py_result B) : py_result B :=
  match r with
  | Returned a => k a
  | Raised e => Raised e
  end.

(** Values of the metadata dictionaries written by the fetchers: every
    field is a [str], or [None] (an absent [source_page]). *)
Inductive pyval :=
| PNone
| PStr (s : string).

#[export] Instance pyval_eq_dec : EqDecision pyval.
Proof. solve_decision. Defined.

(** Truth value of an object: [None] and the empty string are false. *)
Definition truthy (v : pyval) : bool :=
  match v with
  | PNone => false
  | PStr s => negb (String.eqb s "")
  end.

(** [a or b] *)
Definition py_or (a b : pyval) : pyval := if truthy a then a else b.

(** [d.get(k)] on a dictionary of [pyval]s. *)
Definition dict_get (d : gmap string pyval) (k : string) : pyval :=
  default PNone (d !! k).

Definition is_lower (c : ascii) : bool :=
  let n := nat_of_ascii c in (97 <=? n)%nat && (n <=? 122)%nat.
Definition is_upper (c : ascii) : bool :=
  let n := nat_of_ascii c in (65 <=? n)%nat && (n <=? 90)%nat.
Definition ascii_upper (c : ascii) : ascii :=
  if is_lower c then ascii_of_nat (nat_of_ascii c - 32) else c.
Definition ascii_lower (c : ascii) : ascii :=
  if is_upper c then ascii_of_nat (nat_of_ascii c + 32) else c.

Fixpoint map_chars (f : ascii → ascii) (s : string) : string :=
  match s with
  | EmptyString => EmptyString
  | String c r => String (f c) (map_chars f r)
  end.

(** [s.upper()] and [s.lower()] *)
Definition upper : string → string := map_chars ascii_upper.
Definition lower : string → string := map_chars ascii_lower.

(** [needle in hay] for two strings. *)
Fixpoint contains (needle hay : string) : bool :=
  String.prefix needle hay ||
  match hay with
  | EmptyString => false
  | String _ r => contains needle r
  end.

(** [s.startswith(p)] and [s.endswith(p)] *)
Definition startswith (p s : string) : bool := String.prefix p s.
Definition endswith (p s : string) : bool :=
  (String.length p <=? String.length s)%nat &&
  String.eqb (String.substring (String.length s - String.length p) (String.length p) s) p.

(** [s.replace(c, new)] for a one-character [c]. *)
Fixpoint replace_char (c : ascii) (new : string) (s : string) : string :=
  match s with
  | EmptyString => EmptyString
  | String x r =>
      if Ascii.eqb x c then new +:+ replace_char c new r
      else String x (replace_char c new r)
  end.

Definition is_space (c : ascii) : bool :=
  let n := nat_of_ascii c in
  ((9 <=? n)%nat && (n <=? 13)%nat) || ((28 <=? n)%nat && (n <=? 32)%nat).

Fixpoint lstrip (s : string) : string :=
  match s with
  | EmptyString => EmptyString
  | String c r => if is_space c then lstrip r else s
  end.

Fixpoint rstrip (s : string) : string :=
  match s with
  | EmptyString => EmptyString
  | String c r =>
      match rstrip r with
      | EmptyString => if is_space c then EmptyString else String c EmptyString
      | r' => String c r'
      end
  end.

(** [s.strip()] *)
Definition strip (s : string) : string := rstrip (lstrip s).

(** [s.lstrip(c)] for a one-character [c]. *)
Fixpoint lstrip_char (c : ascii) (s : string) : string :=
  match s with
  | EmptyString => EmptyString
  | String x r => if Ascii.eqb x c then lstrip_char c r else s
  end.

Fixpoint zeros (n : nat) : string :=
  match n with
  | O => EmptyString
  | S k => String "0"%char (zeros k)
  end.

(** [s.zfill(width)]: left padding with zeros, after a leading sign. *)
Definition zfill (width : nat) (s : string) : string :=
  let pad := zeros (width - String.length s) in
  match s with
  | String c r =>
      if Ascii.eqb c "+"%char || Ascii.eqb c "-"%char then String c (pad +:+ r)
      else pad +:+ s
  | EmptyString => pad
  end.

(** [s[:n]] *)
Definition str_take (n : nat) (s : string) : string := String.substring 0 n s.

(** [os.path.join(a, b)] on a POSIX system. *)
Definition path_join (a b : string) : string :=
  if startswith "/" b then b
  else if String.eqb a "" || endswith "/" a then a +:+ b
  else a +:+ "/" +:+ b.

(** [x in xs] for a list of strings. *)
Definition str_in (x : string) (xs : list string) : bool :=
  existsb (String.eqb x) xs.

End Py.
Export Py.

(** ** app/storage/data_store.py *)

Module DataStoreModel.

(** The dictionary a fetcher creates for one downloaded document. *)
Abbreviation doc_meta := (gmap string pyval).

(** Decoded JSON, for the values the store keeps without looking inside
    (company details, summary payloads) and for regulator payloads.
    Numbers are integers; an object keeps its members in order. *)
Inductive json :=
| JNull
| JBool (b : bool)
| JNum (n : Z)
| JStr (s : string)
| JArr (items : list json)
| JObj (members : list (string * json)).

(** [self.document_metadata_store]: ticker -> source type -> documents.
    A bucket created by [add_document_metadata] has the two keys "ir" and
    "sec"; one restored from a snapshot has the keys it was saved with. *)
Abbreviation bucket := (gmap string (list doc_meta)).

Record DataStore := {
  companies_info : gmap string json;
  document_metadata_store : gmap string bucket;
  summary_metadata_store : gmap string json;
  storage_file_path : string
}.

Definition with_documents (self : DataStore) (d : gmap string bucket) : DataStore :=
  {| companies_info := companies_info self;
     document_metadata_store := d;
     summary_metadata_store := summary_metadata_store self;
     storage_file_path := storage_file_path self |}.

(** [{"ir": [], "sec": []}] *)
Definition new_bucket : bucket := <["ir" := []]> (<["sec" := []]> ∅).

(** [doc_metadata.get("content_hash_sha256") or doc_metadata.get("url")] *)
Definition doc_key (doc_metadata : doc_meta) : pyval :=
  py_or (dict_get doc_metadata "content_hash_sha256") (dict_get doc_metadata "url").

(** The [for existing_doc in existing_docs] loop: stops at the first
    entry whose key equals [key]. *)
Fixpoint scan_existing (key : pyval) (existing_docs : list doc_meta) : bool :=
  match existing_docs with
  | [] => false
  | existing_doc :: rest =>
      if bool_decide (doc_key existing_doc = key) then true
      else scan_existing key rest
  end.

(** The value of [is_duplicate] after the guarded loop. *)
Definition is_duplicate (existing_docs : list doc_meta) (doc_metadata : doc_meta) : bool :=
  if truthy (doc_key doc_metadata) then scan_existing (doc_key doc_metadata) existing_docs
  else false.

(** [add_document_metadata]: the store after the call, and the exception
    when the call raised. The only raise is the [KeyError] of
    [self.document_metadata_store[ticker_upper][source_type]] on a
    restored bucket that lacks the key; nothing was changed before it. *)
Definition add_document_metadata (ticker source_type : string) (doc_metadata : doc_meta)
    (self : DataStore) : DataStore * option exn :=
  let ticker_upper := upper ticker in
  let self :=
    match document_metadata_store self !! ticker_upper with
    | None => with_documents self (<[ticker_upper := new_bucket]> (document_metadata_store self))
    | Some _ => self
    end in
  if negb (str_in source_type ["ir"; "sec"]) then (self, None)
  else
    match document_metadata_store self !! ticker_upper with
    | None => (self, Some (KeyError ticker_upper))
    | Some b =>
        match (b : bucket) !! source_type with
        | None => (self, Some (KeyError source_type))
        | Some existing_docs =>
            if is_duplicate existing_docs doc_metadata then (self, None)
            else
              (with_documents self
                 (<[ticker_upper := <[source_type := existing_docs ++ [doc_metadata]]> b]>
                    (document_metadata_store self)),
               None)
        end
    end.

(** What [get_document_metadata] can return: a list, the whole bucket of
    a ticker (or [{}]), one document, or [None]. *)
Inductive lookup_result :=
| DocList (docs : list doc_meta)
| DocDict (b : bucket)
| OneDoc (doc : doc_meta)
| NotFound.

(** [document_identifier in (doc_meta.get("filename"),
    doc_meta.get("content_hash_sha256"), doc_meta.get("url"))] *)
Definition identifies (document_identifier : string) (doc : doc_meta) : bool :=
  bool_decide (PStr document_identifier = dict_get doc "filename") ||
  bool_decide (PStr document_identifier = dict_get doc "content_hash_sha256") ||
  bool_decide (PStr document_identifier = dict_get doc "url").

Definition opt_truthy (o : option string) : option string :=
  match o with
  | Some s => if String.eqb s "" then None else Some s
  | None => None
  end.

Definition first_identified (document_identifier : string) (docs : list doc_meta) : option doc_meta :=
  List.find (identifies document_identifier) docs.

Definition get_document_metadata (ticker : string) (source_type document_identifier : option string)
    (self : DataStore) : lookup_result :=
  let ticker_upper := upper ticker in
  match document_metadata_store self !! ticker_upper with
  | None =>
      match opt_truthy source_type with
      | Some _ => DocList []
      | None => DocDict ∅
      end
  | Some b =>
      match opt_truthy source_type with
      | Some st =>
          match (b : bucket) !! st with
          | None => DocList []
          | Some docs_list =>
              match opt_truthy document_identifier with
              | Some ident =>
                  match first_identified ident docs_list with
                  | Some doc => OneDoc doc
                  | None => NotFound
                  end
              | None => DocList docs_list
              end
          end
      | None =>
          match opt_truthy document_identifier with
          | Some ident =>
              match first_identified ident (default [] ((b : bucket) !! "ir")) with
              | Some doc => OneDoc doc
              | None =>
                  match first_identified ident (default [] ((b : bucket) !! "sec")) with
                  | Some doc => OneDoc doc
                  | None => NotFound
                  end
              end
          | None => DocDict b
          end
      end
  end.

(** The documents recorded for a (ticker, category) pair, as
    [get_document_metadata(ticker, source_type)] lists them. *)
Definition documents (ticker source_type : string) (self : DataStore) : list doc_meta :=
  match get_document_metadata ticker (Some source_type) None self with
  | DocList docs => docs
  | _ => []
  end.

Definition document_count (ticker source_type : string) (self : DataStore) : nat :=
  length (documents ticker source_type self).

(** *** Loading and saving the snapshot *)

(** [_initialize_empty_store] *)
Definition _initialize_empty_store (self : DataStore) : DataStore :=
  {| companies_info := ∅;
     document_metadata_store := ∅;
     summary_metadata_store := ∅;
     storage_file_path := storage_file_path self |}.

(** The members of a snapshot object, [None] for a missing member. *)
Record snapshot := {
  snap_companies_info : option (gmap string json);
  snap_document_metadata_store : option (gmap string bucket);
  snap_summary_metadata_store : option (gmap string json);
  snap_last_saved_at : option string
}.

(** A JSON value that is not an object. *)
Inductive non_object :=
| TopNull
| TopBool (b : bool)
| TopNum (n : Z)
| TopStr (s : string)
| TopArr (items : list json).

(** The text of a file, by what [json.load] makes of it: it raises
    [JSONDecodeError], or returns a value that is not a [dict], or returns
    a [dict] whose members, where present, have the types of the store. *)
Inductive file_text :=
| Undecodable (raw : string)
| DecodesToOther (v : non_object)
| DecodesToObject (members : snapshot).

(** The durable storage: the files, and the paths on which [open] raises
    [OSError] for reading and for writing. *)
Record Disk := {
  files : gmap string file_text;
  unreadable : gset string;
  unwritable : gset string
}.

(** The body of the [try] of [_load_from_json]: [open], [json.load] and
    the three [loaded_data.get]. On a value that is not a [dict] the first
    [get] raises [AttributeError], before any field is assigned. *)
Definition read_snapshot (path : string) (text : file_text) (disk : Disk) : py_result snapshot :=
  if bool_decide (path ∈ unreadable disk) then Raised (OSError path)
  else
    match text with
    | Undecodable _ => Raised JSONDecodeError
    | DecodesToOther _ => Raised AttributeError
    | DecodesToObject loaded_data => Returned loaded_data
    end.

(** [_load_from_json]: the handler of [json.JSONDecodeError], the handler
    of [Exception] and the branch of a missing file all end in
    [_initialize_empty_store]. *)
Definition _load_from_json (self : DataStore) (disk : Disk) : DataStore :=
  match files disk !! storage_file_path self with
  | Some text =>
      match read_snapshot (storage_file_path self) text disk with
      | Returned loaded_data =>
          {| companies_info := default ∅ (snap_companies_info loaded_data);
             document_metadata_store := default ∅ (snap_document_metadata_store loaded_data);
             summary_metadata_store := default ∅ (snap_summary_metadata_store loaded_data);
             storage_file_path := storage_file_path self |}
      | Raised JSONDecodeError => _initialize_empty_store self
      | Raised _ => _initialize_empty_store self
      end
  | None => _initialize_empty_store self
  end.

(** [DataStore.__init__] *)
Definition DataStore_init (DATA_DIR storage_file_name : string) (disk : Disk) : DataStore :=
  _load_from_json
    {| companies_info := ∅;
       document_metadata_store := ∅;
       summary_metadata_store := ∅;
       storage_file_path := path_join DATA_DIR storage_file_name |}
    disk.

(** The body of the [try] of [save_to_json]: [os.makedirs], [open] for
    writing and [json.dump]. *)
Definition write_snapshot (path : string) (data_to_save : snapshot) (disk : Disk)
    : py_result Disk :=
  if bool_decide (path ∈ unwritable disk) then Raised (OSError path)
  else
    Returned
      {| files := <[path := DecodesToObject data_to_save]> (files disk);
         unreadable := unreadable disk;
         unwritable := unwritable disk |}.

(** [save_to_json] at time [now]. An exception of the write is caught and
    printed: the call returns and the disk is as it was. *)
Definition save_to_json (now : string) (self : DataStore) (disk : Disk) : Disk :=
  let data_to_save :=
    {| snap_companies_info := Some (companies_info self);
       snap_document_metadata_store := Some (document_metadata_store self);
       snap_summary_metadata_store := Some (summary_metadata_store self);
       snap_last_saved_at := Some now |} in
  match write_snapshot (storage_file_path self) data_to_save disk with
  | Returned disk' => disk'
  | Raised _ => disk
  end.

End DataStoreModel.
Export DataStoreModel.

(** ** app/collectors/ir_scraper.py: link discovery *)

Module IrScraper.

(** An [<a href=...>] element of the rendered page: its text and the value
    of its [href] attribute. *)
Record anchor := {
  a_text : string;
  a_href : string
}.

(** An entry of [links_found]. *)
Record link := {
  link_url : string;
  link_text : string;
  link_type : string;
  link_source_page : string
}.

(** [keywords_doc_type], in the order of the dictionary literal. *)
Definition keywords_doc_type : list (string * list string) :=
  [ ("10-K", ["10-k"; "annual report"]);
    ("10-Q", ["10-q"; "quarterly report"]);
    ("8-K", ["8-k"; "current report"]);
    ("Earnings Release", ["earnings release"; "results announcement"]);
    ("Presentation", ["presentation"; "slide deck"; "investor deck"; "webcast slides"]);
    ("Transcript", ["transcript"; "earnings call transcript"]);
    ("SEC Filings", ["sec filings"; "edgar filings"]) ].

Definition generic_keywords : list string :=
  ["financials"; "report"; "filing"; "investor"; "quarterly"; "annual"].

Definition document_extensions : list string :=
  [".pdf"; ".xls"; ".xlsx"; ".doc"; ".docx"; ".ppt"; ".pptx"].

Definition prompt_tags : list string :=
  ["10-k"; "10-q"; "earnings"; "slide"; "transcript"].

(** [for doc_type, type_keywords in keywords_doc_type.items(): if any(...):
    matched_doc_type = doc_type; break], from [matched_doc_type = "Other"]. *)
Fixpoint first_group (test : string → bool) (groups : list (string * list string)) : string :=
  match groups with
  | [] => "Other"
  | (doc_type, type_keywords) :: rest =>
      if existsb test type_keywords then doc_type else first_group test rest
  end.

(** The value of [matched_doc_type] at the end of one iteration of the loop
    of [grab_ir_links], for an anchor that was not skipped. *)
Definition matched_doc_type (text href : string) : string :=
  let link_text := lower (strip text) in
  let matched := first_group (λ kw, contains kw link_text) keywords_doc_type in
  let matched :=
    if String.eqb matched "Other"
    then first_group (λ kw, contains (replace_char " " "" kw) (lower href)) keywords_doc_type
    else matched in
  if String.eqb matched "Other" &&
     existsb (λ gk, contains gk link_text || contains gk (lower href)) generic_keywords
  then
    if existsb (λ ext, endswith ext (lower href)) document_extensions then
      if existsb (λ tag, contains tag link_text) prompt_tags then
        if contains "10-k" link_text then "10-K"
        else if contains "10-q" link_text then "10-Q"
        else if contains "earnings" link_text then "Earnings Release"
        else if contains "slide" link_text then "Presentation"
        else if contains "transcript" link_text then "Transcript"
        else matched
      else "Financial Document"
    else matched
  else matched.

(** [not href or href.startswith("#") or href.startswith("javascript:")] *)
Definition skipped_href (href : string) : bool :=
  String.eqb href "" || startswith "#" href || startswith "javascript:" href.

(** The loop over the anchors of the page, with [links_found] as it stands;
    [urljoin] is [urllib.parse.urljoin]. *)
Fixpoint collect_links (urljoin : string → string → string) (actual_page_url : string)
    (anchors : list anchor) (links_found : list link) : list link :=
  match anchors with
  | [] => links_found
  | a_tag :: rest =>
      let href := a_href a_tag in
      if skipped_href href then collect_links urljoin actual_page_url rest links_found
      else
        let matched := matched_doc_type (a_text a_tag) href in
        if negb (String.eqb matched "Other") then
          collect_links urljoin actual_page_url rest
            (links_found ++
               [{| link_url := urljoin actual_page_url href;
                   link_text := strip (a_text a_tag);
                   link_type := matched;
                   link_source_page := actual_page_url |}])
        else collect_links urljoin actual_page_url rest links_found
  end.

(** [grab_ir_links] once the page is rendered: [actual_page_url] is the URL
    the browser ended on and [anchors] are the [<a>] elements that have an
    [href], in document order. *)
Definition grab_ir_links (urljoin : string → string → string) (actual_page_url : string)
    (anchors : list anchor) : list link :=
  collect_links urljoin actual_page_url anchors [].

End IrScraper.

(** ** app/collectors/companies.py *)

Module Companies.

(** A cell of the [cik] column as [pandas.read_csv] leaves it: an integer,
    a float with an integral value (the column turns to floats when a cell
    is empty), a string, or NaN for an empty cell. *)
Inductive cik_cell :=
| CikInt (n : Z)
| CikFloat (whole : Z)
| CikStr (s : string)
| CikNaN.

(** A row of the company table. *)
Record row := {
  rank : Z;
  company : option string;
  ticker : string;
  cik : cik_cell
}.

(** [str(x)] of a cell, which [astype(str)] applies to each one:
    NaN becomes the text "nan". *)
Definition cell_str (c : cik_cell) : string :=
  match c with
  | CikInt n => pretty n
  | CikFloat whole => pretty whole +:+ ".0"
  | CikStr s => s
  | CikNaN => "nan"
  end.

(** [get_company_cik], on the table [get_fortune_100()] returned. *)
Definition get_company_cik (df : list row) (ticker_symbol : string) : option string :=
  let cik_column := λ r, zfill 10 (cell_str (cik r)) in
  match List.filter (λ r, String.eqb (upper (ticker r)) (upper ticker_symbol)) df with
  | first :: _ => Some (cik_column first)
  | [] => None
  end.

End Companies.

(** ** app/collectors/sec_fetcher.py: the filing resolver *)

Module SecFetcher.

Import Companies.

(** *** Python operations on decoded JSON *)

(** [d[k]] on the members of an object. *)
Definition member (k : string) (members : list (string * json)) : option json :=
  snd <$> List.find (λ kv, String.eqb kv.1 k) members.

(** [k in j] for a string [k]. *)
Definition py_in (k : string) (j : json) : py_result bool :=
  match j with
  | JObj members => Returned (bool_decide (is_Some (member k members)))
  | JArr items =>
      Returned (existsb (λ x, match x with JStr s => String.eqb s k | _ => false end) items)
  | JStr s => Returned (contains k s)
  | _ => Raised TypeError
  end.

(** [j[k]] for a string [k]. *)
Definition getitem (j : json) (k : string) : py_result json :=
  match j with
  | JObj members =>
      match member k members with
      | Some v => Returned v
      | None => Raised (KeyError k)
      end
  | _ => Raised TypeError
  end.

(** [j[i]] for an index [i] of [range(n)]. *)
Definition getindex (j : json) (i : nat) : py_result json :=
  match j with
  | JArr items =>
      match items !! i with
      | Some v => Returned v
      | None => Raised IndexError
      end
  | JStr s =>
      match String.get i s with
      | Some c => Returned (JStr (String c EmptyString))
      | None => Raised IndexError
      end
  | JObj _ => Raised (KeyError (pretty i))
  | _ => Raised TypeError
  end.

(** [j.get(k, default)] *)
Definition py_get (j : json) (k : string) (fallback : json) : py_result json :=
  match j with
  | JObj members => Returned (default fallback (member k members))
  | _ => Raised AttributeError
  end.

(** [len(j)] *)
Definition py_len (j : json) : py_result nat :=
  match j with
  | JArr items => Returned (length items)
  | JStr s => Returned (String.length s)
  | JObj members => Returned (length members)
  | _ => Raised TypeError
  end.

(** [form in form_types], for a list of strings. *)
Definition json_in (x : json) (xs : list string) : bool :=
  match x with
  | JStr s => str_in s xs
  | _ => false
  end.

(** *** Requests *)

(** What the regulator's API does with a request: a JSON body, or one of
    the failures [_make_request] tells apart. *)
Inductive api_reply :=
| ApiJson (body : json)
| ApiHttpError (http_err : string) (status_code : Z) (response_text : string)
| ApiConnectionError (conn_err : string)
| ApiTimeout (timeout_err : string)
| ApiRequestException (req_err : string)
| ApiNotJson (json_err : string) (response_text : string).

(** [_make_request]: every failure becomes a dictionary with an "error"
    member. *)
Definition _make_request (api : string → api_reply) (url : string) : json :=
  match api url with
  | ApiJson body => body
  | ApiHttpError http_err status_code response_text =>
      JObj [("error", JStr http_err); ("status_code", JNum status_code);
            ("response_text", JStr (str_take 200 response_text))]
  | ApiConnectionError conn_err => JObj [("error", JStr ("Connection error: " +:+ conn_err))]
  | ApiTimeout timeout_err => JObj [("error", JStr ("Timeout error: " +:+ timeout_err))]
  | ApiRequestException req_err => JObj [("error", JStr ("Request exception: " +:+ req_err))]
  | ApiNotJson json_err response_text =>
      JObj [("error", JStr ("JSON decode error: " +:+ json_err));
            ("response_text", JStr (str_take 200 response_text))]
  end.

(** [not cik_str] *)
Definition cik_missing (cik_str : option string) : bool :=
  match cik_str with
  | None => true
  | Some s => String.eqb s ""
  end.

(** [get_company_submissions]: the dictionary returned, and the URLs that
    were requested. *)
Definition get_company_submissions (df : list row) (api : string → api_reply)
    (ticker_symbol : string) : json * list string :=
  let cik_str := get_company_cik df ticker_symbol in
  if cik_missing cik_str
  then (JObj [("error", JStr ("CIK not found for ticker " +:+ ticker_symbol))], [])
  else
    let url := "https://data.sec.gov/submissions/CIK" +:+ default "" cik_str +:+ ".json" in
    (_make_request api url, [url]).

(** An entry of [recent_filings_list]. *)
Record filing_info := {
  accessionNumber : json;
  filingDate : json;
  reportDate : json;
  form : json;
  primaryDocument : json;
  primaryDocDescription : json;
  size : json
}.

(** The body of the [try] of one iteration: [None] when the form is not
    one of [form_types], else the dictionary built for index [i]. *)
Definition filing_at (recent : json) (form_types : list string) (i : nat)
    : py_result (option filing_info) :=
  bind (bind (getitem recent "form") (λ a, getindex a i)) (λ form_i,
  if json_in form_i form_types then
    bind (bind (getitem recent "accessionNumber") (λ a, getindex a i)) (λ acc_i,
    bind (bind (getitem recent "filingDate") (λ a, getindex a i)) (λ date_i,
    bind (bind (py_get recent "reportDate" (JArr [JStr ""])) (λ a, getindex a i)) (λ report_i,
    bind (bind (getitem recent "primaryDocument") (λ a, getindex a i)) (λ doc_i,
    bind (bind (py_get recent "primaryDocDescription" (JArr [JStr ""])) (λ a, getindex a i)) (λ desc_i,
    bind (bind (py_get recent "size" (JArr [JNull])) (λ a, getindex a i)) (λ size_i,
    Returned (Some
      {| accessionNumber := acc_i;
         filingDate := date_i;
         reportDate := report_i;
         form := form_i;
         primaryDocument := doc_i;
         primaryDocDescription := desc_i;
         size := size_i |})))))))
  else Returned None).

(** [for i in range(num_filings)], over the indices still to visit:
    [IndexError] is caught and ends the loop, any other exception leaves
    the function. *)
Fixpoint filings_loop (recent : json) (form_types : list string) (count : Z)
    (indices : list nat) (recent_filings_list : list filing_info)
    : py_result (list filing_info) :=
  match indices with
  | [] => Returned recent_filings_list
  | i :: rest =>
      match filing_at recent form_types i with
      | Raised IndexError => Returned recent_filings_list
      | Raised e => Raised e
      | Returned None => filings_loop recent form_types count rest recent_filings_list
      | Returned (Some info) =>
          let recent_filings_list := recent_filings_list ++ [info] in
          if (count <=? Z.of_nat (length recent_filings_list))%Z
          then Returned recent_filings_list
          else filings_loop recent form_types count rest recent_filings_list
      end
  end.

Definition default_form_types : list string := ["10-K"; "10-Q"; "8-K"].

(** The part of [get_recent_filings_metadata] after the submissions were
    fetched. *)
Definition recent_filings_of (submissions_data : json) (form_types : list string) (count : Z)
    : py_result (list filing_info) :=
  bind (py_in "error" submissions_data) (λ has_error,
  if has_error then Returned []
  else
    bind (py_in "filings" submissions_data) (λ has_filings,
    if has_filings then
      bind (getitem submissions_data "filings") (λ filings,
      bind (py_in "recent" filings) (λ has_recent,
      if has_recent then
        bind (getitem filings "recent") (λ recent,
        bind (py_get recent "accessionNumber" (JArr [])) (λ numbers,
        bind (py_len numbers) (λ num_filings,
        filings_loop recent form_types count (seq 0 num_filings) [])))
      else Returned []))
    else Returned [])).

(** [get_recent_filings_metadata]: what the call returns or raises, and the
    URLs requested on the way. *)
Definition get_recent_filings_metadata (df : list row) (api : string → api_reply)
    (ticker_symbol : string) (form_types : option (list string)) (count : Z)
    : py_result (list filing_info) * list string :=
  let form_types := default default_form_types form_types in
  let '(submissions_data, requested) := get_company_submissions df api ticker_symbol in
  (recent_filings_of submissions_data form_types count, requested).

End SecFetcher.

(** ** Fetch outcomes, artifact storage and the network *)

Module Fetch.

(** The dictionary a download returns, by its "success" and "status"
    members: [download_document] and [download_filing_document] build
    exactly these five shapes. *)
Inductive fetch_result :=
| Downloaded (filepath : string) (metadata : doc_meta)
| SkippedExists (filepath : string) (metadata : doc_meta)
| FailedDownload (error url : string)
| FailedUnexpected (error url : string)
| CikNotFound (error : string).

(** [res.get("success")] *)
Definition res_success (res : fetch_result) : bool :=
  match res with
  | Downloaded _ _ | SkippedExists _ _ => true
  | _ => false
  end.

(** [res.get("status")] *)
Definition res_status (res : fetch_result) : option string :=
  match res with
  | Downloaded _ _ => Some "downloaded"
  | SkippedExists _ _ => Some "skipped_exists"
  | FailedDownload _ _ => Some "failed_download"
  | FailedUnexpected _ _ => Some "failed_unexpected"
  | CikNotFound _ => None
  end.

(** [res.get("metadata")] *)
Definition res_metadata (res : fetch_result) : option doc_meta :=
  match res with
  | Downloaded _ metadata | SkippedExists _ metadata => Some metadata
  | _ => None
  end.

(** A stored file: the bytes of a document, or the text [json.dump] wrote
    for a metadata dictionary. [json.load] raises on the first. *)
Inductive artifact :=
| Blob (bytes : string)
| MetaJson (metadata : doc_meta).

(** The artifact storage: the files, and the paths on which [open] and
    [os.makedirs] raise [OSError]. *)
Record FileSystem := {
  fs_files : gmap string artifact;
  fs_denied : gset string
}.

(** What the remote host does with a download request: no response (a
    connection error or a timeout), an error status that
    [raise_for_status] turns into an exception, or a body that arrives in
    chunks, possibly cut by a transport error after them. *)
Inductive http_reply :=
| NoResponse (err : string)
| ErrorStatus (status_code : Z) (err : string)
| Body (content_type : option string) (chunks : list string) (cut : option string).

(** Configuration, library functions, clock and network of one pass. *)
Record Env := {
  RAW_DATA_DIR : string;
  BASE_DIR : string;
  md5_hexdigest : string → string;
  sha256_hexdigest : string → string;
  relpath : string → string → string;
  json_dumps : doc_meta → string;
  today : string;
  now_isoformat : string;
  http_get : string → http_reply
}.

(** Code that reads and writes the storage and may raise: the storage
    after the call, with what the call returned or raised. *)
Definition FsM (A : Type) : Type := FileSystem → FileSystem * py_result A.

Definition ret {A} (a : A) : FsM A := λ fs, (fs, Returned a).
Definition raise {A} (e : exn) : FsM A := λ fs, (fs, Raised e).
Definition fs_bind {A B} (c : FsM A) (k : A → FsM B) : FsM B :=
  λ fs, match c fs with
        | (fs', Returned a) => k a fs'
        | (fs', Raised e) => (fs', Raised e)
        end.

(** [try: body except ...: handler] *)
Definition try_except {A} (body : FsM A) (handler : exn → FsM A) : FsM A :=
  λ fs, match body fs with
        | (fs', Raised e) => handler e fs'
        | done => done
        end.

Notation "'let!' x := c 'in' k" := (fs_bind c (λ x, k))
  (at level 10, x name, c at level 100, k at level 200, only parsing).

(** [os.path.exists(path)] *)
Definition path_exists (path : string) : FsM bool :=
  λ fs, (fs, Returned (bool_decide (is_Some (fs_files fs !! path)))).

(** [os.makedirs(path, exist_ok=True)] *)
Definition makedirs (path : string) : FsM unit :=
  λ fs, if bool_decide (path ∈ fs_denied fs) then (fs, Raised (OSError path))
        else (fs, Returned tt).

(** [with open(path, "r") as f: json.load(f)] *)
Definition read_json (path : string) : FsM doc_meta :=
  λ fs, if bool_decide (path ∈ fs_denied fs) then (fs, Raised (OSError path))
        else match fs_files fs !! path with
             | Some (MetaJson metadata) => (fs, Returned metadata)
             | Some (Blob _) => (fs, Raised JSONDecodeError)
             | None => (fs, Raised (OSError path))
             end.

Definition put_file (path : string) (a : artifact) (fs : FileSystem) : FileSystem :=
  {| fs_files := <[path := a]> (fs_files fs); fs_denied := fs_denied fs |}.

(** [with open(path, "wb") as f: for chunk in response.iter_content(...):
    f.write(chunk)]: the chunks received are in the file even when the
    stream is cut. *)
Definition write_chunks (path : string) (chunks : list string) (cut : option string) : FsM unit :=
  λ fs, if bool_decide (path ∈ fs_denied fs) then (fs, Raised (OSError path))
        else
          let fs' := put_file path (Blob (fold_right String.append "" chunks)) fs in
          match cut with
          | Some err => (fs', Raised (RequestException err))
          | None => (fs', Returned tt)
          end.

(** [with open(path, "rb") as f: f.read()] *)
Definition read_bytes (json_text : doc_meta → string) (path : string) : FsM string :=
  λ fs, if bool_decide (path ∈ fs_denied fs) then (fs, Raised (OSError path))
        else match fs_files fs !! path with
             | Some (Blob bytes) => (fs, Returned bytes)
             | Some (MetaJson metadata) => (fs, Returned (json_text metadata))
             | None => (fs, Raised (OSError path))
             end.

(** [with open(path, "w") as f: json.dump(metadata, f, indent=4)] *)
Definition write_json (path : string) (metadata : doc_meta) : FsM unit :=
  λ fs, if bool_decide (path ∈ fs_denied fs) then (fs, Raised (OSError path))
        else (put_file path (MetaJson metadata) fs, Returned tt).

(** [requests.get(url, ..., stream=True)] and [response.raise_for_status()] *)
Definition request (env : Env) (url : string) : FsM (option string * list string * option string) :=
  match http_get env url with
  | NoResponse err => raise (RequestException err)
  | ErrorStatus _ err => raise (RequestException err)
  | Body content_type chunks cut => ret (content_type, chunks, cut)
  end.

(** [str(e)] *)
Definition exn_str (e : exn) : string :=
  match e with
  | KeyError key => "'" +:+ key +:+ "'"
  | IndexError => "list index out of range"
  | TypeError => "TypeError"
  | AttributeError => "AttributeError"
  | JSONDecodeError => "Expecting value: line 1 column 1 (char 0)"
  | OSError path => "[Errno 13] Permission denied: '" +:+ path +:+ "'"
  | RequestException msg => msg
  end.

(** The two handlers of the downloads: [except requests.RequestException]
    and then [except Exception]. *)
Definition download_failed (url : string) (e : exn) : FsM fetch_result :=
  match e with
  | RequestException msg => ret (FailedDownload msg url)
  | _ => ret (FailedUnexpected (exn_str e) url)
  end.

(** The "skip re-download" block at the head of both downloads: the
    sidecar read back when the file and its sidecar exist. *)
Definition existing_metadata (filepath : string) : FsM (option doc_meta) :=
  let! file_there := path_exists filepath in
  if file_there then
    let metadata_filepath := filepath +:+ ".meta.json" in
    let! sidecar_there := path_exists metadata_filepath in
    if sidecar_there then
      let! existing := read_json metadata_filepath in
      ret (Some existing)
    else ret None
  else ret None.

End Fetch.

(** ** app/collectors/ir_scraper.py: downloads *)

Module IrDownload.

Import IrScraper Fetch.

(** [s.rfind(c)]: the last index of [c], from position [pos] on. *)
Fixpoint rfind_from (c : ascii) (s : string) (pos : nat) (last : option nat) : option nat :=
  match s with
  | EmptyString => last
  | String x r => rfind_from c r (S pos) (if Ascii.eqb x c then Some pos else last)
  end.

Fixpoint all_dots (s : string) : bool :=
  match s with
  | EmptyString => true
  | String x r => Ascii.eqb x "." && all_dots r
  end.

(** [os.path.splitext(p)[-1]]: the text from the last dot of the last
    path component, unless only dots precede it there. *)
Definition splitext_ext (p : string) : string :=
  let start := match rfind_from "/" p 0 None with Some k => S k | None => 0 end in
  match rfind_from "." p 0 None with
  | Some dot =>
      if (start <=? dot)%nat && negb (all_dots (String.substring start (dot - start) p))
      then String.substring dot (String.length p - dot) p
      else ""
  | None => ""
  end.

(** [url.split('?')[0]] *)
Fixpoint before_query (url : string) : string :=
  match url with
  | EmptyString => EmptyString
  | String x r => if Ascii.eqb x "?" then EmptyString else String x (before_query r)
  end.

(** The extension the target name starts with. *)
Definition initial_extension (url : string) : string :=
  let file_extension := lower (splitext_ext (before_query url)) in
  if String.eqb file_extension "" || (5 <? String.length file_extension)%nat
  then ".html" else file_extension.

(** The extension after the response came, by its content type. *)
Definition refined_extension (file_extension content_type : string) : string :=
  if String.eqb file_extension ".html" then
    if contains "pdf" content_type then ".pdf"
    else if contains "excel" content_type || contains "spreadsheetml" content_type then ".xlsx"
    else if contains "powerpoint" content_type || contains "presentationml" content_type
         then ".pptx"
    else if contains "msword" content_type || contains "wordprocessingml" content_type
         then ".docx"
    else if contains "text/plain" content_type then ".txt"
    else file_extension
  else file_extension.

Definition company_dir (env : Env) (ticker_symbol : string) (doc_info : link) : string :=
  let safe_doc_type_dir := replace_char " " "_" (link_type doc_info) in
  path_join (path_join (path_join (RAW_DATA_DIR env) (upper ticker_symbol)) "ir")
            safe_doc_type_dir.

Definition filename_base (env : Env) (doc_info : link) : string :=
  today env +:+ "_" +:+ md5_hexdigest env (link_url doc_info).

(** [filepath] as [download_document] first builds it, before any
    response: directory, date, digest of the URL, initial extension. *)
Definition target_path (env : Env) (ticker_symbol : string) (doc_info : link) : string :=
  path_join (company_dir env ticker_symbol doc_info)
            (filename_base env doc_info +:+ initial_extension (link_url doc_info)).

(** The body of the [try] of [download_document]. *)
Definition attempt_download (env : Env) (ticker_symbol : string) (doc_info : link)
    : FsM fetch_result :=
  let url := link_url doc_info in
  let dir := company_dir env ticker_symbol doc_info in
  let file_extension := initial_extension url in
  let! response := request env url in
  let '(content_type_header, chunks, cut) := response in
  let content_type := lower (default "" content_type_header) in
  let filename := filename_base env doc_info +:+ refined_extension file_extension content_type in
  let filepath := path_join dir filename in
  let! _ := write_chunks filepath chunks cut in
  let! content := read_bytes (json_dumps env) filepath in
  let metadata : doc_meta :=
    <["url" := PStr url]> (
    <["original_link_text" := PStr (link_text doc_info)]> (
    <["detected_document_type" := PStr (link_type doc_info)]> (
    <["content_type_header" := PStr content_type]> (
    <["downloaded_at" := PStr (now_isoformat env)]> (
    <["source_page" := PStr (link_source_page doc_info)]> (
    <["content_hash_sha256" := PStr (sha256_hexdigest env content)]> (
    <["filename" := PStr filename]> (
    <["filepath_relative" := PStr (relpath env filepath (BASE_DIR env))]> ∅)))))))) in
  let! _ := write_json (filepath +:+ ".meta.json") metadata in
  ret (Downloaded filepath metadata).

(** [download_document]. The directory creation and the read of an
    existing sidecar come before the [try]. *)
Definition download_document (env : Env) (ticker_symbol : string) (doc_info : link)
    : FsM fetch_result :=
  let url := link_url doc_info in
  let dir := company_dir env ticker_symbol doc_info in
  let! _ := makedirs dir in
  let filepath := target_path env ticker_symbol doc_info in
  let! existing := existing_metadata filepath in
  match existing with
  | Some metadata => ret (SkippedExists filepath metadata)
  | None => try_except (attempt_download env ticker_symbol doc_info) (download_failed url)
  end.

(** The loop of [process_company] over the links [grab_ir_links] found. *)
Fixpoint process_links (env : Env) (ticker_symbol : string) (ir_links : list link)
    (download_results : list fetch_result) : FsM (list fetch_result) :=
  match ir_links with
  | [] => ret download_results
  | link_info :: rest =>
      if String.eqb (link_type link_info) "SEC Filings Page" &&
         negb (contains "sec.gov" (link_url link_info))
      then process_links env ticker_symbol rest download_results
      else
        let! result := download_document env ticker_symbol link_info in
        process_links env ticker_symbol rest (download_results ++ [result])
  end.

(** [process_company], from the links [grab_ir_links] returned. *)
Definition process_company (env : Env) (ticker_symbol : string) (ir_links : list link)
    : FsM (list fetch_result) :=
  process_links env ticker_symbol ir_links [].

End IrDownload.

(** ** app/collectors/sec_fetcher.py: downloads *)

Module SecDownload.

Import Companies SecFetcher Fetch.

Definition accession_clean (accession_number : string) : string :=
  replace_char "-" "" accession_number.

Definition archive_url (cik_str accession_number document_filename : string) : string :=
  "https://www.sec.gov/Archives/edgar/data/" +:+ lstrip_char "0" cik_str +:+ "/" +:+
  accession_clean accession_number +:+ "/" +:+ document_filename.

Definition filing_dir (env : Env) (ticker_symbol accession_number form_type : string) : string :=
  let safe_form_type := replace_char "/" "_" form_type in
  path_join (path_join (path_join (path_join (RAW_DATA_DIR env) (upper ticker_symbol)) "sec")
                       safe_form_type)
            (accession_clean accession_number).

(** [filepath] of [download_filing_document] *)
Definition filing_path (env : Env) (ticker_symbol accession_number form_type
    document_filename : string) : string :=
  path_join (filing_dir env ticker_symbol accession_number form_type) document_filename.

(** The body of the [try] of [download_filing_document]. *)
Definition attempt_filing_download (env : Env) (ticker_symbol cik_str accession_number
    document_filename form_type : string) : FsM fetch_result :=
  let doc_url := archive_url cik_str accession_number document_filename in
  let filepath := filing_path env ticker_symbol accession_number form_type document_filename in
  let! response := request env doc_url in
  let '(_, chunks, cut) := response in
  let! _ := write_chunks filepath chunks cut in
  let! content := read_bytes (json_dumps env) filepath in
  let metadata : doc_meta :=
    <["url" := PStr doc_url]> (
    <["ticker" := PStr ticker_symbol]> (
    <["cik" := PStr cik_str]> (
    <["accession_number" := PStr accession_number]> (
    <["document_filename" := PStr document_filename]> (
    <["form_type" := PStr form_type]> (
    <["downloaded_at" := PStr (now_isoformat env)]> (
    <["content_hash_sha256" := PStr (sha256_hexdigest env content)]> (
    <["filepath_relative" := PStr (relpath env filepath (BASE_DIR env))]> ∅)))))))) in
  let! _ := write_json (filepath +:+ ".meta.json") metadata in
  ret (Downloaded filepath metadata).

(** [download_filing_document] *)
Definition download_filing_document (env : Env) (df : list row) (ticker_symbol accession_number
    document_filename form_type : string) : FsM fetch_result :=
  let cik_str := get_company_cik df ticker_symbol in
  if cik_missing cik_str
  then ret (CikNotFound ("CIK not found for ticker " +:+ ticker_symbol))
  else
    let cik_str := default "" cik_str in
    let doc_url := archive_url cik_str accession_number document_filename in
    let dir := filing_dir env ticker_symbol accession_number form_type in
    let! _ := makedirs dir in
    let filepath := filing_path env ticker_symbol accession_number form_type document_filename in
    let! existing := existing_metadata filepath in
    match existing with
    | Some metadata => ret (SkippedExists filepath metadata)
    | None =>
        try_except
          (attempt_filing_download env ticker_symbol cik_str accession_number
             document_filename form_type)
          (download_failed doc_url)
    end.

End SecDownload.

(** ** app/scheduler/tasks.py and app/api/routes.py: storing the outcomes *)

Module Tasks.

Import Fetch.

(** [res.get("success") and res.get("status") == "downloaded"] *)
Definition stored_by_caller (res : fetch_result) : bool :=
  res_success res && bool_decide (res_status res = Some "downloaded").

(** The loop [for res in results] shared by [_collect_ir_for_company],
    [_collect_sec_for_company], [collect_ir_route] and [collect_sec_route]:
    the store after the loop, with [successful_downloads] or the exception
    that left it. *)
Fixpoint store_results (ticker_symbol source_type : string) (results : list fetch_result)
    (successful_downloads : nat) (data_store : DataStore) : DataStore * py_result nat :=
  match results with
  | [] => (data_store, Returned successful_downloads)
  | res :: rest =>
      if stored_by_caller res then
        match res_metadata res with
        | Some metadata =>
            match add_document_metadata ticker_symbol source_type metadata data_store with
            | (data_store', None) =>
                store_results ticker_symbol source_type rest (S successful_downloads) data_store'
            | (data_store', Some e) => (data_store', Raised e)
            end
        | None => (data_store, Raised (KeyError "metadata"))
        end
      else store_results ticker_symbol source_type rest successful_downloads data_store
  end.

(** [_collect_ir_for_company], from the links [grab_ir_links] found: the
    storage and the store after the call. *)
Definition _collect_ir_for_company (env : Env) (ticker_symbol : string)
    (ir_links : list IrScraper.link) (fs : FileSystem) (data_store : DataStore)
    : FileSystem * DataStore * py_result nat :=
  match IrDownload.process_company env ticker_symbol ir_links fs with
  | (fs', Returned results) =>
      let '(data_store', outcome) := store_results ticker_symbol "ir" results 0 data_store in
      (fs', data_store', outcome)
  | (fs', Raised e) => (fs', data_store, Raised e)
  end.

(** [_collect_sec_for_company], from the outcomes
    [download_recent_filings_documents] returned. *)
Definition _collect_sec_for_company (ticker_symbol : string) (results : list fetch_result)
    (data_store : DataStore) : DataStore * py_result nat :=
  store_results ticker_symbol "sec" results 0 data_store.

(** The part of [collect_ir_route] and [collect_sec_route] after the
    outcomes came: the loop on [ticker.upper()], then the save; an
    exception is answered with status 500, without a save. *)
Definition collect_route (source_type now ticker_symbol : string) (results : list fetch_result)
    (data_store : DataStore) (disk : Disk) : DataStore * Disk * Z :=
  match store_results (upper ticker_symbol) source_type results 0 data_store with
  | (data_store', Returned _) => (data_store', save_to_json now data_store' disk, 200%Z)
  | (data_store', Raised _) => (data_store', disk, 500%Z)
  end.

Definition collect_ir_route := collect_route "ir".
Definition collect_sec_route := collect_route "sec".

End Tasks.

(** ** app/storage/data_store.py: company records *)

Module CompanyRecords.

Definition with_companies (self : DataStore) (c : gmap string json) : DataStore :=
  {| companies_info := c;
     document_metadata_store := document_metadata_store self;
     summary_metadata_store := summary_metadata_store self;
     storage_file_path := storage_file_path self |}.

(** [add_company_info] *)
Definition add_company_info (ticker : string) (company_data : json) (self : DataStore)
    : DataStore :=
  with_companies self (<[upper ticker := company_data]> (companies_info self)).

(** [get_company_info] *)
Definition get_company_info (ticker : string) (self : DataStore) : option json :=
  companies_info self !! upper ticker.

(** [get_all_companies_info] *)
Definition get_all_companies_info (self : DataStore) : gmap string json :=
  companies_info self.

End CompanyRecords.

(** ** app/collectors/companies.py: the company row *)

Module CompanyLookup.

Import Companies.

(** [get_company_by_ticker]: the first row of the table whose ticker is
    the given one up to case, with its cells as they are. *)
Definition get_company_by_ticker (df : list row) (ticker_symbol : string) : option row :=
  match List.filter (λ r, String.eqb (upper (ticker r)) (upper ticker_symbol)) df with
  | first :: _ => Some first
  | [] => None
  end.

End CompanyLookup.

(** ** app/collectors/sec_fetcher.py: the pass over the recent filings *)

Module SecPass.

Import Companies SecFetcher Fetch SecDownload.

(** Truth value of a decoded JSON value. *)
Definition json_truthy (j : json) : bool :=
  match j with
  | JNull => false
  | JBool b => b
  | JNum n => negb (n =? 0)%Z
  | JStr s => negb (String.eqb s "")
  | JArr items => negb (bool_decide (items = []))
  | JObj members => negb (bool_decide (members = []))
  end.

(** [for x in j]: the elements of a list, the characters of a string, the
    keys of a dictionary. *)
Definition py_iter (j : json) : py_result (list json) :=
  match j with
  | JArr items => Returned items
  | JStr s => Returned ((λ c, JStr (String c EmptyString)) <$> String.list_ascii_of_string s)
  | JObj members => Returned ((λ kv, JStr kv.1) <$> members)
  | _ => Raised TypeError
  end.

(** [get_filing_index]: the dictionary returned and the URLs requested. *)
Definition get_filing_index (df : list row) (api : string → api_reply)
    (ticker_symbol accession_number : string) : json * list string :=
  let cik_str := get_company_cik df ticker_symbol in
  if cik_missing cik_str
  then (JObj [("error", JStr ("CIK not found for ticker " +:+ ticker_symbol))], [])
  else
    let url := "https://www.sec.gov/Archives/edgar/data/" +:+
               lstrip_char "0" (default "" cik_str) +:+ "/" +:+
               accession_clean accession_number +:+ "/index.json" in
    (_make_request api url, [url]).

(** [download_filing_document] on values taken from a payload: the
    accession number and the form must be strings for their [replace]
    ([AttributeError] otherwise), the filename for [os.path.join]
    ([TypeError] otherwise, after the directory was made); all three raise
    before the [try]. *)
Definition download_filing_document_of (env : Env) (df : list row) (ticker_symbol : string)
    (accession_number document_filename form_type : json) : FsM fetch_result :=
  if cik_missing (get_company_cik df ticker_symbol)
  then ret (CikNotFound ("CIK not found for ticker " +:+ ticker_symbol))
  else
    match accession_number, form_type with
    | JStr acc_no, JStr form_name =>
        match document_filename with
        | JStr doc_name =>
            download_filing_document env df ticker_symbol acc_no doc_name form_name
        | _ =>
            let! _ := makedirs (filing_dir env ticker_symbol acc_no form_name) in
            raise TypeError
        end
    | _, _ => raise AttributeError
    end.

(** [j == s] for a string [s]. *)
Definition json_is_str (s : string) (j : json) : bool :=
  match j with
  | JStr t => String.eqb t s
  | _ => false
  end.

(** [not doc_name.endswith((".xml", ".xsd", ".jpg", ".gif"))] *)
Definition downloadable_name (doc_name : string) : bool :=
  negb (existsb (λ ext, endswith ext doc_name) [".xml"; ".xsd"; ".jpg"; ".gif"]).

(** The loop over the items of a filing index: every named item that is
    not the primary document and has a downloadable name is fetched as an
    exhibit. *)
Fixpoint exhibits_loop (env : Env) (df : list row) (ticker_symbol : string)
    (acc_no : json) (primary_doc_name form_name : string) (items : list json)
    (download_results : list fetch_result) : FsM (list fetch_result) :=
  match items with
  | [] => ret download_results
  | item :: rest =>
      match py_get item "name" JNull with
      | Raised e => raise e
      | Returned doc_name_in_index =>
          if json_truthy doc_name_in_index &&
             negb (json_is_str primary_doc_name doc_name_in_index)
          then
            match doc_name_in_index with
            | JStr name =>
                if downloadable_name name then
                  let! exhibit_result :=
                    download_filing_document_of env df ticker_symbol acc_no doc_name_in_index
                      (JStr (form_name +:+ "_Exhibit")) in
                  exhibits_loop env df ticker_symbol acc_no primary_doc_name form_name rest
                    (download_results ++ [exhibit_result])
                else
                  exhibits_loop env df ticker_symbol acc_no primary_doc_name form_name rest
                    download_results
            | _ => raise AttributeError
            end
          else
            exhibits_loop env df ticker_symbol acc_no primary_doc_name form_name rest
              download_results
      end
  end.

(** The items to visit, from the dictionary [get_filing_index] returned:
    none when it has an "error" member or no "directory". *)
Definition index_items (filing_index_data : json) : py_result (list json) :=
  bind (py_in "error" filing_index_data) (λ has_error,
  if has_error then Returned []
  else
    bind (py_in "directory" filing_index_data) (λ has_directory,
    if has_directory then
      bind (getitem filing_index_data "directory") (λ directory,
      bind (py_get directory "item" (JArr [])) py_iter)
    else Returned [])).

(** The loop of [download_recent_filings_documents] over the filings:
    the outcomes so far and the URLs requested from the API so far. A
    successful outcome was built from three strings, which the exhibits
    reuse. *)
Fixpoint filings_pass (env : Env) (df : list row) (api : string → api_reply)
    (ticker_symbol : string) (download_all_docs_in_filing : bool)
    (filings_metadata : list filing_info) (download_results : list fetch_result)
    (requested : list string) : FsM (list fetch_result * list string) :=
  match filings_metadata with
  | [] => ret (download_results, requested)
  | filing_meta :: rest =>
      let acc_no := accessionNumber filing_meta in
      let primary_doc_name := primaryDocument filing_meta in
      let form_value := form filing_meta in
      let! result :=
        download_filing_document_of env df ticker_symbol acc_no primary_doc_name form_value in
      let download_results := download_results ++ [result] in
      if download_all_docs_in_filing && res_success result then
        match acc_no, form_value, primary_doc_name with
        | JStr acc_text, JStr form_name, JStr primary_name =>
            let '(filing_index_data, index_requests) :=
              get_filing_index df api ticker_symbol acc_text in
            match index_items filing_index_data with
            | Raised e => raise e
            | Returned items =>
                let! download_results :=
                  exhibits_loop env df ticker_symbol acc_no primary_name form_name items
                    download_results in
                filings_pass env df api ticker_symbol download_all_docs_in_filing rest
                  download_results (requested ++ index_requests)
            end
        | _, _, _ => raise AttributeError
        end
      else
        filings_pass env df api ticker_symbol download_all_docs_in_filing rest
          download_results requested
  end.

(** [download_recent_filings_documents]: the outcomes and the URLs
    requested from the API, or the exception that left the function. *)
Definition download_recent_filings_documents (env : Env) (df : list row)
    (api : string → api_reply) (ticker_symbol : string) (form_types : option (list string))
    (count : Z) (download_all_docs_in_filing : bool)
    : FsM (list fetch_result * list string) :=
  let form_types := Some (default default_form_types form_types) in
  match get_recent_filings_metadata df api ticker_symbol form_types count with
  | (Raised e, _) => raise e
  | (Returned filings_metadata, requested) =>
      match filings_metadata with
      | [] => ret ([], requested)
      | _ =>
          filings_pass env df api ticker_symbol download_all_docs_in_filing filings_metadata
            [] requested
      end
  end.

End SecPass.

(** ** app/collectors/ir_scraper.py: the address of the page *)

Module IrPage.

Import Companies CompanyLookup.

(** [company_name_raw.lower().replace('&', 'and').replace(' ', '')
    .replace('.', '').replace(',', '')] *)
Definition url_company_name (company_name_raw : string) : string :=
  replace_char "," "" (replace_char "." "" (replace_char " " ""
    (replace_char "&" "and" (lower company_name_raw)))).

(** [potential_urls], in the order of the list literal. *)
Definition potential_urls (company_name ticker_symbol : string) : list string :=
  [ "https://ir." +:+ company_name +:+ ".com";
    "https://investor." +:+ company_name +:+ ".com";
    "https://investors." +:+ company_name +:+ ".com";
    "https://" +:+ company_name +:+ ".com/investor-relations";
    "https://" +:+ company_name +:+ ".com/investors";
    "https://www." +:+ company_name +:+ ".com/investor-relations";
    "https://www." +:+ company_name +:+ ".com/investors";
    "https://ir." +:+ lower ticker_symbol +:+ ".com";
    "https://investor." +:+ lower ticker_symbol +:+ ".com";
    "https://investors." +:+ lower ticker_symbol +:+ ".com";
    "https://www." +:+ lower ticker_symbol +:+ ".com/investor-relations";
    "https://www." +:+ lower ticker_symbol +:+ ".com/investors" ].

(** The loop over the candidates: [head url] is the status code of
    [requests.head(url, ...)], or [None] when it raises
    [requests.RequestException]; the first candidate that answers 200 is
    returned. *)
Fixpoint first_found (head : string → option Z) (urls : list string) : option string :=
  match urls with
  | [] => None
  | url :: rest =>
      match head url with
      | Some status_code =>
          if (status_code =? 200)%Z then Some url else first_found head rest
      | None => first_found head rest
      end
  end.

(** [urls[-2]] *)
Definition second_to_last (urls : list string) : string :=
  default "" (urls !! (length urls - 2)).

(** [get_ir_page_url] *)
Definition get_ir_page_url (df : list row) (head : string → option Z) (ticker_symbol : string)
    : string :=
  match get_company_by_ticker df ticker_symbol with
  | None => "https://www." +:+ lower ticker_symbol +:+ ".com"
  | Some company_details =>
      match company company_details with
      | None => "https://www." +:+ lower ticker_symbol +:+ ".com"
      | Some company_name_raw =>
          let company_name := url_company_name company_name_raw in
          let potential_urls := potential_urls company_name ticker_symbol in
          match first_found head potential_urls with
          | Some url => url
          | None => second_to_last potential_urls
          end
      end
  end.

End IrPage.

(** ** app/scheduler/tasks.py: the schedule and the daily job *)

Module Scheduler.

Import Companies SecFetcher Fetch IrScraper IrDownload SecPass Tasks.

(** [s.split(c)] for a one-character [c]. *)
Fixpoint split_on (c : ascii) (s : string) : list string :=
  match s with
  | EmptyString => [EmptyString]
  | String x r =>
      if Ascii.eqb x c then EmptyString :: split_on c r
      else
        match split_on c r with
        | piece :: pieces => String x piece :: pieces
        | [] => [String x EmptyString]
        end
  end.

(** [_parse_daily_time]; [py_int] is [int] on a string, [None] standing
    for its [ValueError]. The unpacking of a split that has not exactly
    two pieces raises [ValueError] as well. *)
Definition _parse_daily_time (py_int : string → option Z) (daily_time_str : string) : Z * Z :=
  if String.eqb daily_time_str "" || negb (contains ":" daily_time_str) then (2, 0)%Z
  else
    match split_on ":" daily_time_str with
    | [hour; minute] =>
        match py_int hour with
        | None => (2, 0)%Z
        | Some hour =>
            match py_int minute with
            | None => (2, 0)%Z
            | Some minute =>
                if (hour <? 0)%Z || (23 <? hour)%Z || (minute <? 0)%Z || (59 <? minute)%Z
                then (2, 0)%Z
                else (hour, minute)
            end
        end
    | _ => (2, 0)%Z
    end.

(** [_collect_sec_for_company] with its download: the two most recent
    filings of the default forms, primary documents only. *)
Definition collect_sec_for_company (env : Env) (df : list row) (api : string → api_reply)
    (ticker_symbol : string) (fs : FileSystem) (data_store : DataStore)
    : FileSystem * DataStore * py_result nat :=
  match download_recent_filings_documents env df api ticker_symbol
          (Some ["10-K"; "10-Q"; "8-K"]) 2 false fs with
  | (fs', Returned (results, _)) =>
      let '(data_store', outcome) := _collect_sec_for_company ticker_symbol results data_store in
      (fs', data_store', outcome)
  | (fs', Raised e) => (fs', data_store, Raised e)
  end.

(** The loop of [daily_collection_job] over the rows of the table.
    [env_at ticker] is the configuration, clock and network while that
    company is processed; [discover ticker] are the links [grab_ir_links]
    returns for it (an exception of the discovery is caught like the
    others, and leaves storage and store as an empty list does). Both
    collections run inside a [try] whose handler only prints: what they
    changed before raising stays, and the loop goes on. *)
Fixpoint companies_loop (env_at : string → Env) (df : list row) (api : string → api_reply)
    (discover : string → list link) (companies : list row) (fs : FileSystem)
    (data_store : DataStore) (processed_count : nat) : FileSystem * DataStore * nat :=
  match companies with
  | [] => (fs, data_store, processed_count)
  | company :: rest =>
      let ticker_symbol := ticker company in
      let env := env_at ticker_symbol in
      let '(fs, data_store, _) :=
        _collect_ir_for_company env ticker_symbol (discover ticker_symbol) fs data_store in
      let '(fs, data_store, _) :=
        collect_sec_for_company env df api ticker_symbol fs data_store in
      companies_loop env_at df api discover rest fs data_store (S processed_count)
  end.

(** [daily_collection_job]: the artifact storage, the store, the disk of
    the snapshot and [processed_count] when the job ends at time [now]. *)
Definition daily_collection_job (env_at : string → Env) (df : list row)
    (api : string → api_reply) (discover : string → list link) (now : string)
    (fs : FileSystem) (data_store : DataStore) (disk : Disk)
    : FileSystem * DataStore * Disk * nat :=
  let '(fs, data_store, processed_count) :=
    companies_loop env_at df api discover df fs data_store 0 in
  (fs, data_store, save_to_json now data_store disk, processed_count).

End Scheduler.

(** ** app/api/routes.py: the status *)

Module StatusRoute.

(** The "data_store_info" of the reply. *)
Record status_info := {
  tracked_companies_count : nat;
  total_document_metadata_count : nat;
  total_summary_metadata_count : nat;
  data_store_file : string
}.

(** [get_status_route]: the loop adds, for every ticker, the lengths of
    [ticker_data.get("ir", [])] and [ticker_data.get("sec", [])]. *)
Definition get_status_route (data_store : DataStore) : status_info :=
  {| tracked_companies_count := size (companies_info data_store);
     total_document_metadata_count :=
       map_fold (λ (_ : string) (ticker_data : bucket) total_doc_metadata_count,
                   total_doc_metadata_count
                   + length (default [] (ticker_data !! "ir"))
                   + length (default [] (ticker_data !! "sec")))
                0 (document_metadata_store data_store);
     total_summary_metadata_count := size (summary_metadata_store data_store);
     data_store_file := storage_file_path data_store |}.

End StatusRoute.

(** ** app/processors/summarizer.py: chunking *)

Module Summarizer.

(** [text.split()]: the maximal runs of characters that are not white
    space, in order; [current] is the run being read. *)
Fixpoint words_from (s : string) (current : string) : list string :=
  match s with
  | EmptyString => if String.eqb current "" then [] else [current]
  | String c r =>
      if is_space c
      then (if String.eqb current "" then [] else [current]) ++ words_from r ""
      else words_from r (current +:+ String c EmptyString)
  end.

Definition py_split (text : string) : list string := words_from text "".

(** [sep.join(words)] *)
Fixpoint join (sep : string) (words : list string) : string :=
  match words with
  | [] => ""
  | [word] => word
  | word :: rest => word +:+ sep +:+ join sep rest
  end.

(** [if xs:] for a list. *)
Definition nonempty {A} (xs : list A) : bool :=
  match xs with
  | [] => false
  | _ => true
  end.

(** The loop of [_chunk_text] over the words still to place: [chunks],
    [current_chunk_words] and [current_char_count] as they stand. *)
Fixpoint chunk_loop (max_chars_per_chunk : Z) (words : list string) (chunks : list string)
    (current_chunk_words : list string) (current_char_count : Z)
    : list string * list string :=
  match words with
  | [] => (chunks, current_chunk_words)
  | word :: rest =>
      let word_len := Z.of_nat (String.length word) in
      if (max_chars_per_chunk <?
          current_char_count + word_len + (if nonempty current_chunk_words then 1 else 0))%Z
      then
        let chunks :=
          if nonempty current_chunk_words
          then chunks ++ [join " " current_chunk_words]
          else chunks in
        chunk_loop max_chars_per_chunk rest chunks [word] word_len
      else
        let current_chunk_words := current_chunk_words ++ [word] in
        chunk_loop max_chars_per_chunk rest chunks current_chunk_words
          (current_char_count + word_len +
           (if (1 <? length current_chunk_words)%nat then 1 else 0))%Z
  end.

(** [_chunk_text] *)
Definition _chunk_text (text : string) (max_tokens_per_chunk : Z) : list string :=
  let words := py_split text in
  let max_chars_per_chunk := (max_tokens_per_chunk * 3)%Z in
  let '(chunks, current_chunk_words) := chunk_loop max_chars_per_chunk words [] [] 0 in
  let chunks :=
    if nonempty current_chunk_words
    then chunks ++ [join " " current_chunk_words]
    else chunks in
  if negb (nonempty chunks) && negb (String.eqb text "")
  then chunks ++ [text]
  else chunks.

End Summarizer.

(** * Vocabulary of the properties

    The predicates and measures the properties are stated with, and the
    sample values of their closed instances. *)

Section Vocabulary.

Import IrScraper Companies SecFetcher Fetch IrDownload SecDownload Tasks.

(** The content fingerprint and the source URL of a metadata value. *)
Definition fingerprint (m : doc_meta) : pyval := dict_get m "content_hash_sha256".
Definition source_url (m : doc_meta) : pyval := dict_get m "url".

(** Two metadata values share a dedup key: both carry the same
    fingerprint, or neither carries one and both carry the same URL. *)
Definition same_dedup_key (m1 m2 : doc_meta) : Prop :=
  (truthy (fingerprint m1) = true ∧ fingerprint m1 = fingerprint m2) ∨
  (truthy (fingerprint m1) = false ∧ truthy (fingerprint m2) = false ∧
   truthy (source_url m1) = true ∧ source_url m1 = source_url m2).

(** Neither a fingerprint nor a URL. *)
Definition keyless (m : doc_meta) : Prop :=
  truthy (fingerprint m) = false ∧ truthy (source_url m) = false.

(** Every bucket of the store has its two lists. Holds of the empty
    store and is kept by [add_document_metadata]. *)
Definition buckets_complete (self : DataStore) : Prop :=
  ∀ T (b : bucket), document_metadata_store self !! T = Some b →
    is_Some (b !! "ir") ∧ is_Some (b !! "sec").

Definition valid_source_type (source_type : string) : Prop :=
  source_type = "ir" ∨ source_type = "sec".

(** Sample values for the closed instances below. *)
Definition sample_store : DataStore :=
  {| companies_info := ∅;
     document_metadata_store := ∅;
     summary_metadata_store := ∅;
     storage_file_path := "/srv/data/data_store.json" |}.

Definition sample_meta (hash url : pyval) : doc_meta :=
  <["content_hash_sha256" := hash]> (<["url" := url]> ∅).

(** The snapshot file at [path] is missing, or is not JSON, or is JSON that
    is not an object: it cannot be decoded as a snapshot. *)
Definition snapshot_unusable (disk : Disk) (path : string) : Prop :=
  files disk !! path = None ∨
  (∃ raw, files disk !! path = Some (Undecodable raw)) ∨
  (∃ v, files disk !! path = Some (DecodesToOther v)).

(** A snapshot file is well formed when it decodes to an object with the
    three record families and the time of the save. *)
Definition well_formed_snapshot (text : file_text) : Prop :=
  ∃ c d s t, text = DecodesToObject
    {| snap_companies_info := Some c;
       snap_document_metadata_store := Some d;
       snap_summary_metadata_store := Some s;
       snap_last_saved_at := Some t |}.

(** The tag the loop of [grab_ir_links] gives to an anchor with this text
    and this [href]: [None] when the anchor is skipped or stays "Other". *)
Definition classify (text href : string) : option string :=
  if skipped_href href then None
  else
    let matched := matched_doc_type text href in
    if String.eqb matched "Other" then None else Some matched.

(** The tags of the classification. *)
Definition document_type_tags : list string :=
  ["10-K"; "10-Q"; "8-K"; "Earnings Release"; "Presentation"; "Transcript";
   "SEC Filings"; "Financial Document"].

(** The parallel arrays of the "recent" object: the three the code reads
    with [recent[...]] and the one it sizes the loop with, and the three it
    reads with [recent.get(..., default)], which may be missing. *)
Record parallel_arrays := {
  pa_form : list json;
  pa_accessionNumber : list json;
  pa_filingDate : list json;
  pa_primaryDocument : list json;
  pa_reportDate : option (list json);
  pa_primaryDocDescription : option (list json);
  pa_size : option (list json)
}.

(** The members of "recent" hold these arrays, of whatever lengths. *)
Definition holds_arrays (members : list (string * json)) (pa : parallel_arrays) : Prop :=
  member "form" members = Some (JArr (pa_form pa)) ∧
  member "accessionNumber" members = Some (JArr (pa_accessionNumber pa)) ∧
  member "filingDate" members = Some (JArr (pa_filingDate pa)) ∧
  member "primaryDocument" members = Some (JArr (pa_primaryDocument pa)) ∧
  member "reportDate" members = JArr <$> pa_reportDate pa ∧
  member "primaryDocDescription" members = JArr <$> pa_primaryDocDescription pa ∧
  member "size" members = JArr <$> pa_size pa.

(** The arrays consumed for a filing of a requested form; a missing
    optional array stands as its one-element default. *)
Definition consumed_entry (pa : parallel_arrays) (form_i : json) (i : nat) : option filing_info :=
  acc_i ← pa_accessionNumber pa !! i;
  date_i ← pa_filingDate pa !! i;
  report_i ← default [JStr ""] (pa_reportDate pa) !! i;
  doc_i ← pa_primaryDocument pa !! i;
  desc_i ← default [JStr ""] (pa_primaryDocDescription pa) !! i;
  size_i ← default [JNull] (pa_size pa) !! i;
  Some {| accessionNumber := acc_i; filingDate := date_i; reportDate := report_i;
          form := form_i; primaryDocument := doc_i; primaryDocDescription := desc_i;
          size := size_i |}.

(** Index [i] is in range of every array consumed at [i]: the form array,
    and for a requested form the other six. *)
Definition in_range (pa : parallel_arrays) (form_types : list string) (i : nat) : bool :=
  match pa_form pa !! i with
  | None => false
  | Some form_i =>
      if json_in form_i form_types then bool_decide (is_Some (consumed_entry pa form_i i))
      else true
  end.

(** The filing selected at index [i], when its form is requested. *)
Definition selected (pa : parallel_arrays) (form_types : list string) (i : nat)
    : option filing_info :=
  form_i ← pa_form pa !! i;
  if json_in form_i form_types then consumed_entry pa form_i i else None.

Fixpoint take_while {A} (p : A → bool) (l : list A) : list A :=
  match l with
  | [] => []
  | x :: r => if p x then x :: take_while p r else []
  end.

(** The filtered prefix: the requested filings at the indices before the
    first one that falls out of range of an array consumed there. *)
Definition filtered_prefix (pa : parallel_arrays) (form_types : list string) : list filing_info :=
  omap (selected pa form_types)
       (take_while (in_range pa form_types) (seq 0 (length (pa_accessionNumber pa)))).

(** The number of filings the loop collects at most: it tests [count] only
    after an append. *)
Definition collected_at_most (count : Z) : nat := Z.to_nat (Z.max 1 count).

(** A universe of one company and a payload whose arrays disagree: four
    accession numbers and forms, two filing dates. *)
Definition sample_universe : list Companies.row :=
  [ {| Companies.rank := 1; Companies.company := Some "Walmart";
       Companies.ticker := "WMT"; Companies.cik := Companies.CikInt 104169 |} ].

Definition sample_recent : list (string * json) :=
  [ ("accessionNumber", JArr [JStr "0000104169-24-000056"; JStr "0000104169-24-000041";
                              JStr "0000104169-23-000180"; JStr "0000104169-23-000177"]);
    ("form", JArr [JStr "10-K"; JStr "4"; JStr "10-Q"; JStr "8-K"]);
    ("filingDate", JArr [JStr "2024-03-15"; JStr "2024-02-20"]);
    ("reportDate", JArr [JStr "2024-01-31"; JStr ""; JStr "2023-10-31"; JStr "2023-11-16"]);
    ("primaryDocument", JArr [JStr "wmt-20240131.htm"; JStr "form4.xml";
                              JStr "wmt-20231031.htm"; JStr "wmt-20231116.htm"]);
    ("primaryDocDescription", JArr [JStr "10-K"; JStr "4"; JStr "10-Q"; JStr "8-K"]);
    ("size", JArr [JNum 9150221; JNum 5120; JNum 7021334; JNum 310022]) ].

Definition sample_arrays : parallel_arrays :=
  {| pa_form := [JStr "10-K"; JStr "4"; JStr "10-Q"; JStr "8-K"];
     pa_accessionNumber := [JStr "0000104169-24-000056"; JStr "0000104169-24-000041";
                            JStr "0000104169-23-000180"; JStr "0000104169-23-000177"];
     pa_filingDate := [JStr "2024-03-15"; JStr "2024-02-20"];
     pa_primaryDocument := [JStr "wmt-20240131.htm"; JStr "form4.xml";
                            JStr "wmt-20231031.htm"; JStr "wmt-20231116.htm"];
     pa_reportDate := Some [JStr "2024-01-31"; JStr ""; JStr "2023-10-31"; JStr "2023-11-16"];
     pa_primaryDocDescription := Some [JStr "10-K"; JStr "4"; JStr "10-Q"; JStr "8-K"];
     pa_size := Some [JNum 9150221; JNum 5120; JNum 7021334; JNum 310022] |}.

Definition sample_api (recent : list (string * json)) (url : string) : SecFetcher.api_reply :=
  if String.eqb url "https://data.sec.gov/submissions/CIK0000104169.json"
  then SecFetcher.ApiJson (JObj [("cik", JStr "104169");
                                 ("filings", JObj [("recent", JObj recent)])])
  else SecFetcher.ApiHttpError "404 Client Error: Not Found" 404 "<html>Not Found</html>".

(** A universe whose only company has an empty [cik] cell. *)
Definition universe_without_identifier : list Companies.row :=
  [ {| Companies.rank := 1; Companies.company := Some "Zeta Holdings";
       Companies.ticker := "ZZZ"; Companies.cik := Companies.CikNaN |} ].

(** A stand-in environment: the digests are placeholders, the network
    answers every request with [reply]. *)
Definition sample_env (reply : Fetch.http_reply) : Fetch.Env :=
  {| Fetch.RAW_DATA_DIR := "/srv/data/raw";
     Fetch.BASE_DIR := "/srv";
     Fetch.md5_hexdigest := λ url, "md5x" +:+ pretty (String.length url);
     Fetch.sha256_hexdigest := λ bytes, "sha256x" +:+ pretty (String.length bytes);
     Fetch.relpath := λ path start, String.substring (S (String.length start))
                                      (String.length path) path;
     Fetch.json_dumps := λ _, "{}";
     Fetch.today := "20240102";
     Fetch.now_isoformat := "2024-01-02T03:04:05";
     Fetch.http_get := λ _, reply |}.

Definition annual_report_link : IrScraper.link :=
  {| IrScraper.link_url := "https://example.com/10k.pdf";
     IrScraper.link_text := "Annual Report (10-K)";
     IrScraper.link_type := "10-K";
     IrScraper.link_source_page := "https://ir.example.com/" |}.

Definition slides_link : IrScraper.link :=
  {| IrScraper.link_url := "https://example.com/q4-slides.pdf";
     IrScraper.link_text := "Q4 Presentation";
     IrScraper.link_type := "Presentation";
     IrScraper.link_source_page := "https://ir.example.com/" |}.

(** Storage after an interrupted earlier run: the document is at
    [filepath], its sidecar was opened for writing and holds nothing. *)
Definition interrupted_storage (filepath document : string) : Fetch.FileSystem :=
  {| Fetch.fs_files :=
       <[filepath := Fetch.Blob document]> (
       <[filepath +:+ ".meta.json" := Fetch.Blob ""]> ∅);
     Fetch.fs_denied := ∅ |}.

(** Empty storage on which the directory [dir] cannot be created. *)
Definition denied_storage (dir : string) : Fetch.FileSystem :=
  {| Fetch.fs_files := ∅;
     Fetch.fs_denied := {[ dir ]} |}.

(** The metadata of the outcomes with status "downloaded". *)
Definition downloaded_metadata (results : list fetch_result) : list doc_meta :=
  omap (λ res, match res with Downloaded _ metadata => Some metadata | _ => None end) results.

(** [add_document_metadata] called on each value in turn. *)
Definition add_all (ticker_symbol source_type : string) (ms : list doc_meta)
    (data_store : DataStore) : DataStore :=
  foldl (λ s m, (add_document_metadata ticker_symbol source_type m s).1) data_store ms.

(** The recorded entries that share the dedup key of [m]. *)
Definition entries_for (m : doc_meta) (docs : list doc_meta) : nat :=
  length (filter (λ e, doc_key e = doc_key m) docs).

(** Every outcome that carries metadata went through
    [add_document_metadata]: the store after the loop of the caller is the
    store after a call on each of them. *)
Definition every_outcome_reaches_add_document (ticker_symbol source_type : string)
    (results : list fetch_result) (data_store : DataStore) : Prop :=
  (store_results ticker_symbol source_type results 0 data_store).1 =
  add_all ticker_symbol source_type (omap res_metadata results) data_store.

(** The sidecar of the annual report, as the first fetch of the witness
    below writes it. *)
Definition annual_report_meta : doc_meta :=
  <["url" := PStr "https://example.com/10k.pdf"]> (
  <["original_link_text" := PStr "Annual Report (10-K)"]> (
  <["detected_document_type" := PStr "10-K"]> (
  <["content_type_header" := PStr "application/pdf"]> (
  <["downloaded_at" := PStr "2024-01-02T03:04:05"]> (
  <["source_page" := PStr "https://ir.example.com/"]> (
  <["content_hash_sha256" := PStr "sha256x22"]> (
  <["filename" := PStr "20240102_md5x27.pdf"]> (
  <["filepath_relative" := PStr "data/raw/AAPL/ir/10-K/20240102_md5x27.pdf"]> ∅)))))))).

End Vocabulary.

(** * Vocabulary of the further properties *)

Section FurtherVocabulary.

Import Fetch.

(** The dedup keys of the entries that have one. *)
Definition present_keys (docs : list doc_meta) : list pyval :=
  filter (λ k, truthy k = true) (doc_key <$> docs).

(** No two entries of a (ticker, category) list share a dedup key. *)
Definition no_duplicate_keys (self : DataStore) : Prop :=
  ∀ T (b : bucket) st docs,
    document_metadata_store self !! T = Some b → b !! st = Some docs →
    NoDup (present_keys docs).

End FurtherVocabulary.

(** * Vocabulary of the download properties *)

Section DownloadVocabulary.

Import Companies SecFetcher Fetch.

(** What an outcome says about where it went: a successful outcome names
    the file [filepath], a failed one the address [url]; the outcome for an
    unknown company names neither. *)
Definition outcome_at (filepath url : string) (res : fetch_result) : Prop :=
  match res with
  | Downloaded p _ | SkippedExists p _ => p = filepath
  | FailedDownload _ u | FailedUnexpected _ u => u = url
  | CikNotFound _ => False
  end.

(** The outcome [res] is the one of the primary document of the filing
    [filing], fetched for [ticker_symbol] with the identifier [cik_str]. *)
Definition outcome_of_filing (env : Env) (cik_str ticker_symbol : string)
    (filing : filing_info) (res : fetch_result) : Prop :=
  ∃ acc_no doc_name form_name,
    accessionNumber filing = JStr acc_no ∧
    primaryDocument filing = JStr doc_name ∧
    form filing = JStr form_name ∧
    outcome_at (SecDownload.filing_path env ticker_symbol acc_no form_name doc_name)
               (SecDownload.archive_url cik_str acc_no doc_name) res.

(** Storage on which nothing is denied and that holds no file. *)
Definition empty_storage : FileSystem := {| fs_files := ∅; fs_denied := ∅ |}.

End DownloadVocabulary.

(** * Vocabulary of the investor-relations downloads *)

Section IrDownloadVocabulary.

Import IrScraper Fetch IrDownload.

(** The name and the path under which [download_document] stores a body
    that came with the header [content_type]: the extension is the one the
    response refines it to. *)
Definition stored_name (env : Env) (doc_info : link) (content_type : option string) : string :=
  filename_base env doc_info +:+
  refined_extension (initial_extension (link_url doc_info)) (lower (default "" content_type)).

Definition stored_path (env : Env) (ticker_symbol : string) (doc_info : link)
    (content_type : option string) : string :=
  path_join (company_dir env ticker_symbol doc_info) (stored_name env doc_info content_type).

(** The host cannot be reached, or answers with an error status. *)
Definition request_fails (reply : http_reply) : Prop :=
  match reply with
  | NoResponse _ | ErrorStatus _ _ => True
  | Body _ _ _ => False
  end.

(** Every sidecar on the storage is one that [json.load] accepts. *)
Definition sidecars_decodable (fs : FileSystem) : Prop :=
  ∀ filepath junk, fs_files fs !! (filepath +:+ ".meta.json") ≠ Some (Blob junk).

(** The links [process_company] passes to [download_document]. *)
Definition fetched_links (ir_links : list link) : list link :=
  filter (λ l, (String.eqb (link_type l) "SEC Filings Page" &&
                negb (contains "sec.gov" (link_url l))) = false) ir_links.

End IrDownloadVocabulary.

(** * Vocabulary of the investor-relations pass *)

Section IrPassVocabulary.

Import IrScraper Fetch IrDownload.

(** What an outcome of [download_document] says about the link [l] it was
    made for: a stored file stands at a name of [l], a skipped one at the
    name the skip test looks at, a failed one names the URL of [l]. *)
Definition ir_outcome_of (env : Env) (ticker_symbol : string) (l : link) (res : fetch_result)
    : Prop :=
  match res with
  | Downloaded p _ => ∃ content_type, p = stored_path env ticker_symbol l content_type
  | SkippedExists p _ => p = target_path env ticker_symbol l
  | FailedDownload _ u | FailedUnexpected _ u => u = link_url l
  | CikNotFound _ => False
  end.

(** The outcome wrote nothing: the document was there, or the request
    failed. *)
Definition nothing_fetched (res : fetch_result) : Prop :=
  match res with
  | SkippedExists _ _ | FailedDownload _ _ => True
  | _ => False
  end.

End IrPassVocabulary.

(** * Vocabulary of the scheduler properties *)

Section SchedulerVocabulary.

(** Nothing recorded was lost or changed: every list of [before] is a
    prefix of the list at the same place in [after], and the company
    records, the summaries and the path of the snapshot are the same. *)
Definition entries_kept (before after : DataStore) : Prop :=
  (∀ T (b : bucket) st docs,
     document_metadata_store before !! T = Some b → b !! st = Some docs →
     ∃ (b' : bucket) docs',
       document_metadata_store after !! T = Some b' ∧ b' !! st = Some docs' ∧
       docs `prefix_of` docs') ∧
  companies_info after = companies_info before ∧
  summary_metadata_store after = summary_metadata_store before ∧
  storage_file_path after = storage_file_path before.

(** What the store keeps through a step of the job: its two invariants,
    when it had them, and its entries. *)
Definition store_kept (before after : DataStore) : Prop :=
  (buckets_complete before → buckets_complete after) ∧
  (no_duplicate_keys before → no_duplicate_keys after) ∧
  entries_kept before after.

End SchedulerVocabulary.

(** * Vocabulary of the route properties *)

Section RouteVocabulary.

(** The entries of one bucket that the status counts. *)
Definition counted (ticker_data : bucket) : nat :=
  length (default [] (ticker_data !! "ir")) + length (default [] (ticker_data !! "sec")).

End RouteVocabulary.

(** * Vocabulary of the chunking property *)

Section ChunkVocabulary.

Import Summarizer.


End ChunkVocabulary.

(** * Vocabulary of the exhibits property *)

Section ExhibitVocabulary.

Import SecFetcher SecPass.

(** The name under which an item of a filing index is fetched as an
    exhibit: the item is an object whose "name" is a non-empty text other
    than the primary document's and without one of the left-out endings. *)
Definition exhibit_name (primary_doc_name : string) (item : json) : option string :=
  match item with
  | JObj members =>
      match member "name" members with
      | Some (JStr name) =>
          if bool_decide (name ≠ "" ∧ name ≠ primary_doc_name) && downloadable_name name
          then Some name
          else None
      | _ => None
      end
  | _ => None
  end.

End ExhibitVocabulary.

(** * Properties *)

(** ** The helpers on concrete inputs *)

Example upper_ticker : upper "aapl" = "AAPL" ∧ upper "Brk.b" = "BRK.B".
Proof. split; reflexivity. Qed.

Example strip_lower_link_text : lower (strip "  Q3 Earnings Release.pdf
 ") = "q3 earnings release.pdf".
Proof. reflexivity. Qed.

Example contains_keyword :
  contains "10-k" "form 10-k (pdf)" = true ∧ contains "" "x" = true ∧
  contains "10-k" "10k" = false.
Proof. repeat split; reflexivity. Qed.

Example endswith_extension :
  endswith ".pdf" "/files/q3.pdf" = true ∧ endswith ".pdf" "pdf" = false.
Proof. split; reflexivity. Qed.

Example zfill_cik :
  zfill 10 "104169" = "0000104169" ∧ zfill 10 "nan" = "0000000nan" ∧
  zfill 10 "104169.0" = "00104169.0" ∧ zfill 4 "-5" = "-005" ∧
  zfill 3 "12345" = "12345".
Proof. repeat split; reflexivity. Qed.

Example cell_str_float : Companies.cell_str (Companies.CikFloat 104169) = "104169.0".
Proof. vm_compute. reflexivity. Qed.

Example path_join_cases :
  path_join "/srv/data" "raw" = "/srv/data/raw" ∧ path_join "/srv/data/" "raw" = "/srv/data/raw" ∧
  path_join "/srv/data" "/etc/passwd" = "/etc/passwd" ∧ path_join "" "raw" = "raw".
Proof. repeat split; reflexivity. Qed.

Example splitext_cases :
  IrDownload.splitext_ext "https://example.com/10k.pdf" = ".pdf" ∧
  IrDownload.splitext_ext "https://example.com" = ".com" ∧
  IrDownload.splitext_ext "/home/user/.bashrc" = "" ∧
  IrDownload.splitext_ext "/a.b/report" = "".
Proof. repeat split; reflexivity. Qed.

Example initial_extension_cases :
  IrDownload.initial_extension "https://example.com/10k.PDF?download=1" = ".pdf" ∧
  IrDownload.initial_extension "https://example.com/reports/annual" = ".html" ∧
  IrDownload.initial_extension "https://example.com/deck.presentation" = ".html".
Proof. repeat split; reflexivity. Qed.

Example refined_extension_cases :
  IrDownload.refined_extension ".html" "application/pdf" = ".pdf" ∧
  IrDownload.refined_extension ".html" "text/html; charset=utf-8" = ".html" ∧
  IrDownload.refined_extension ".pdf" "text/plain" = ".pdf".
Proof. repeat split; reflexivity. Qed.

Example archive_url_sample :
  SecDownload.archive_url "0000104169" "0000104169-24-000056" "wmt-20240131.htm" =
  "https://www.sec.gov/Archives/edgar/data/104169/000010416924000056/wmt-20240131.htm".
Proof. reflexivity. Qed.

(** A link with the text "Q3 Earnings Release.pdf" and no keyword in its
    [href] is tagged "Earnings Release". *)
Example classify_earnings_release :
  classify "Q3 Earnings Release.pdf" "/download/1234" = Some "Earnings Release" ∧
  classify "Download" "/files/annualreport2023.pdf" = Some "10-K" ∧
  classify "Financials" "/files/fy23.xlsx" = Some "Financial Document" ∧
  classify "Careers" "/careers" = None ∧
  classify "10-K" "#top" = None.
Proof. repeat split; vm_compute; reflexivity. Qed.

Example get_document_metadata_cases :
  let m := sample_meta (PStr "9f2c") (PStr "https://example.com/10k.pdf") in
  let self := (add_document_metadata "aapl" "ir" m sample_store).1 in
  get_document_metadata "AAPL" (Some "ir") None self = DocList [m] ∧
  get_document_metadata "AAPL" (Some "sec") None self = DocList [] ∧
  get_document_metadata "AAPL" (Some "press") None self = DocList [] ∧
  get_document_metadata "MSFT" (Some "ir") None self = DocList [] ∧
  get_document_metadata "MSFT" None None self = DocDict ∅ ∧
  get_document_metadata "aapl" None (Some "9f2c") self = OneDoc m ∧
  get_document_metadata "aapl" (Some "ir") (Some "unknown") self = NotFound.
Proof. repeat split; reflexivity. Qed.

(** ** The metadata store: deduplication on insert *)

Section StoreFacts.

Implicit Types (self : DataStore) (m : doc_meta) (docs : list doc_meta).

Lemma same_dedup_key_doc_key m1 m2 :
  same_dedup_key m1 m2 → doc_key m1 = doc_key m2 ∧ truthy (doc_key m1) = true.
Proof.
  unfold same_dedup_key, doc_key, py_or, fingerprint, source_url.
  intros [[Ht Heq] | (Hf1 & Hf2 & Hu & Heq)].
  - rewrite <- Heq, Ht. done.
  - rewrite Hf1, Hf2, Heq. split; [done | by rewrite <- Heq].
Qed.

Lemma keyless_doc_key m : keyless m → truthy (doc_key m) = false.
Proof.
  unfold keyless, doc_key, py_or, fingerprint, source_url.
  intros [-> ->]. done.
Qed.

Lemma scan_existing_true key docs :
  scan_existing key docs = true ↔ ∃ e, e ∈ docs ∧ doc_key e = key.
Proof.
  induction docs as [| d docs IH]; simpl.
  - split; [done | intros (e & He & _); by apply elem_of_nil in He].
  - case_bool_decide as Hd.
    + split; [intros _; exists d; split; [left | done] | done].
    + rewrite IH. split.
      * intros (e & He & Hk). exists e. split; [by right | done].
      * intros (e & He & Hk). apply elem_of_cons in He as [-> | He]; [done |].
        by exists e.
Qed.

Lemma is_duplicate_true docs m :
  is_duplicate docs m = true ↔
  truthy (doc_key m) = true ∧ ∃ e, e ∈ docs ∧ doc_key e = doc_key m.
Proof.
  unfold is_duplicate. destruct (truthy (doc_key m)) eqn:Ht.
  - rewrite scan_existing_true. split; [by intros ? | by intros [_ ?]].
  - split; [done | by intros [? _]].
Qed.

Lemma is_duplicate_keyless docs m : truthy (doc_key m) = false → is_duplicate docs m = false.
Proof. unfold is_duplicate. by intros ->. Qed.

Lemma str_in_valid source_type :
  valid_source_type source_type → str_in source_type ["ir"; "sec"] = true.
Proof. by intros [-> | ->]. Qed.

Lemma str_in_invalid source_type :
  source_type ≠ "ir" → source_type ≠ "sec" → str_in source_type ["ir"; "sec"] = false.
Proof.
  intros H1 H2. unfold str_in. simpl.
  apply String.eqb_neq in H1, H2. by rewrite H1, H2.
Qed.

(** The call on a ticker that already has a bucket. *)
Lemma add_document_known_ticker self ticker source_type m (b : bucket) :
  valid_source_type source_type →
  document_metadata_store self !! upper ticker = Some b →
  add_document_metadata ticker source_type m self =
    match b !! source_type with
    | None => (self, Some (KeyError source_type))
    | Some docs =>
        if is_duplicate docs m then (self, None)
        else (with_documents self
                (<[upper ticker := <[source_type := docs ++ [m]]> b]>
                   (document_metadata_store self)), None)
    end.
Proof.
  intros Hv Hb. unfold add_document_metadata.
  rewrite Hb, (str_in_valid _ Hv). simpl. by rewrite Hb.
Qed.

(** The call on a ticker without a bucket: the bucket is created and the
    document is its first entry. *)
Lemma add_document_new_ticker self ticker source_type m :
  valid_source_type source_type →
  document_metadata_store self !! upper ticker = None →
  add_document_metadata ticker source_type m self =
    (with_documents self
       (<[upper ticker := <[source_type := [m]]> new_bucket]>
          (document_metadata_store self)), None).
Proof.
  intros Hv Hb. unfold add_document_metadata.
  rewrite Hb, (str_in_valid _ Hv). simpl. rewrite lookup_insert_eq.
  assert (new_bucket !! source_type = Some []) as ->.
  { by destruct Hv as [-> | ->]. }
  unfold is_duplicate; simpl. destruct (truthy (doc_key m)); simpl;
    by rewrite insert_insert_eq.
Qed.

Lemma documents_unfold self ticker source_type :
  valid_source_type source_type →
  documents ticker source_type self =
    match document_metadata_store self !! upper ticker with
    | None => []
    | Some b => default [] (b !! source_type)
    end.
Proof.
  intros Hv. unfold documents, get_document_metadata.
  assert (opt_truthy (Some source_type) = Some source_type) as ->.
  { by destruct Hv as [-> | ->]. }
  simpl. destruct (document_metadata_store self !! upper ticker) as [b |]; [| done].
  by destruct (b !! source_type).
Qed.

(** The documents of the pair after a call that did not raise. *)
Lemma documents_add_document self ticker source_type m :
  valid_source_type source_type →
  (add_document_metadata ticker source_type m self).2 = None →
  documents ticker source_type (add_document_metadata ticker source_type m self).1 =
    if is_duplicate (documents ticker source_type self) m
    then documents ticker source_type self
    else documents ticker source_type self ++ [m].
Proof.
  intros Hv. rewrite !documents_unfold by done.
  destruct (document_metadata_store self !! upper ticker) as [b |] eqn:Hb.
  - rewrite (add_document_known_ticker _ _ _ _ b) by done.
    destruct (b !! source_type) as [docs |] eqn:Hd; [| done]. simpl.
    destruct (is_duplicate docs m) eqn:Hdup; simpl; intros _.
    + by rewrite Hb, Hd.
    + by rewrite !lookup_insert_eq.
  - rewrite add_document_new_ticker by done. simpl. intros _.
    rewrite !lookup_insert_eq. simpl.
    unfold is_duplicate. simpl. by destruct (truthy (doc_key m)).
Qed.

Lemma add_document_no_raise self ticker source_type m :
  valid_source_type source_type →
  buckets_complete self →
  (add_document_metadata ticker source_type m self).2 = None.
Proof.
  intros Hv Hc.
  destruct (document_metadata_store self !! upper ticker) as [b |] eqn:Hb.
  - rewrite (add_document_known_ticker _ _ _ _ b) by done.
    destruct (Hc _ _ Hb) as [[d1 H1] [d2 H2]].
    assert (is_Some (b !! source_type)) as [docs ->].
    { destruct Hv as [-> | ->]; eauto. }
    by destruct (is_duplicate docs m).
  - by rewrite add_document_new_ticker.
Qed.

Lemma buckets_complete_empty self :
  document_metadata_store self = ∅ → buckets_complete self.
Proof. intros He T b Hb. by rewrite He, lookup_empty in Hb. Qed.

Lemma buckets_complete_add_document self ticker source_type m :
  buckets_complete self →
  buckets_complete (add_document_metadata ticker source_type m self).1.
Proof.
  intros Hc. unfold add_document_metadata.
  set (self' := match document_metadata_store self !! upper ticker with
                | Some _ => self | None => _ end).
  assert (buckets_complete self') as Hc'.
  { subst self'. destruct (document_metadata_store self !! upper ticker) eqn:Hb; [done |].
    intros T b. simpl. rewrite lookup_insert. case_decide.
    - intros [= <-]. split; by eexists.
    - apply Hc. }
  destruct (negb _); [done |].
  destruct (document_metadata_store self' !! upper ticker) as [b |] eqn:Hb; [| done].
  destruct (b !! source_type) as [docs |] eqn:Hd; [| done].
  destruct (is_duplicate docs m); [done |].
  intros T b'. simpl. rewrite lookup_insert. case_decide.
  - intros [= <-]. destruct (Hc' _ _ Hb) as [[d1 H1] [d2 H2]].
    rewrite !lookup_insert. split; case_decide; eauto.
  - apply Hc'.
Qed.

Lemma buckets_complete_reload self now disk :
  buckets_complete self →
  storage_file_path self ∉ unwritable disk →
  storage_file_path self ∉ unreadable disk →
  buckets_complete (_load_from_json self (save_to_json now self disk)).
Proof.
  intros Hc Hw Hr. unfold _load_from_json, save_to_json, write_snapshot, read_snapshot.
  rewrite (bool_decide_eq_false_2 _ Hw). simpl.
  rewrite lookup_insert_eq, (bool_decide_eq_false_2 _ Hr). exact Hc.
Qed.

End StoreFacts.

(** C4. Idempotent insert: for every store, ticker and category "ir" or
    "sec", after [add_document_metadata] was called with a metadata value,
    a second call with a value that shares its dedup key (same fingerprint,
    or no fingerprints and the same URL) leaves the store as the first call
    left it: the document count of the pair is the count after the first
    call, and the second call raises nothing when the first did not. *)
Theorem add_document_same_key_dropped (self : DataStore) (ticker source_type : string)
    (m1 m2 : doc_meta) :
  valid_source_type source_type →
  same_dedup_key m1 m2 →
  let first := add_document_metadata ticker source_type m1 self in
  let second := add_document_metadata ticker source_type m2 first.1 in
  second.1 = first.1 ∧
  document_count ticker source_type second.1 = document_count ticker source_type first.1 ∧
  (first.2 = None → second.2 = None).
Proof.
  intros Hv Hk. apply same_dedup_key_doc_key in Hk as [Hk Ht].
  assert (∀ docs : list doc_meta, m1 ∈ docs → is_duplicate docs m2 = true) as Hdup.
  { intros docs Hin. apply is_duplicate_true. split; [by rewrite <- Hk |]. by exists m1. }
  cbv zeta.
  cut ((add_document_metadata ticker source_type m2
          (add_document_metadata ticker source_type m1 self).1).1 =
       (add_document_metadata ticker source_type m1 self).1 ∧
       ((add_document_metadata ticker source_type m1 self).2 = None →
        (add_document_metadata ticker source_type m2
          (add_document_metadata ticker source_type m1 self).1).2 = None)).
  { intros [He Hn]. unfold document_count. split; [exact He | split; [by rewrite He | exact Hn]]. }
  destruct (document_metadata_store self !! upper ticker) as [b |] eqn:Hb.
  - rewrite (add_document_known_ticker self _ _ m1 b) by done.
    destruct (b !! source_type) as [docs |] eqn:Hd.
    + destruct (is_duplicate docs m1) eqn:Hd1; simpl.
      * rewrite (add_document_known_ticker self _ _ m2 b), Hd by done.
        apply is_duplicate_true in Hd1 as [_ (e & He & Hek)].
        assert (is_duplicate docs m2 = true) as ->; [| done].
        apply is_duplicate_true. split; [by rewrite <- Hk |].
        exists e. by rewrite <- Hk.
      * erewrite add_document_known_ticker; [| done | simpl; apply lookup_insert_eq].
        rewrite lookup_insert_eq, Hdup; [done |].
        apply elem_of_app. right. by left.
    + simpl. rewrite (add_document_known_ticker self _ _ m2 b), Hd by done. done.
  - rewrite (add_document_new_ticker self _ _ m1) by done. simpl.
    erewrite add_document_known_ticker; [| done | simpl; apply lookup_insert_eq].
    rewrite lookup_insert_eq, Hdup; [done | by left].
Qed.

Lemma add_document_same_key_dropped_witness :
  let m1 := sample_meta (PStr "9f2c") (PStr "https://example.com/10k.pdf") in
  let m2 := sample_meta (PStr "9f2c") (PStr "https://mirror.example.com/annual.pdf") in
  let first := add_document_metadata "aapl" "sec" m1 sample_store in
  let second := add_document_metadata "AAPL" "sec" m2 first.1 in
  (valid_source_type "sec" ∧ same_dedup_key m1 m2) ∧
  second.1 = first.1 ∧
  document_count "AAPL" "sec" second.1 = document_count "AAPL" "sec" first.1 ∧
  (first.2 = None → second.2 = None).
Proof.
  split.
  - split; [by right | left; split; reflexivity].
  - apply (add_document_same_key_dropped sample_store "aapl" "sec").
    + by right.
    + left; split; reflexivity.
Defined.

(** C5. Dedup key precedence. The key of a metadata value is its
    fingerprint when it has one, else its URL. A new value is a duplicate
    exactly when some recorded entry is one on its own; an entry with the
    same fingerprint is a duplicate whatever the two URLs are; and between
    two values without fingerprint (the new one with a URL), equality of the
    URLs alone decides. [add_document_metadata] appends exactly when the
    value is no duplicate. *)
Theorem dedup_key_precedence (self : DataStore) (ticker source_type : string) (m : doc_meta) :
  valid_source_type source_type →
  buckets_complete self →
  let docs := documents ticker source_type self in
  doc_key m = (if truthy (fingerprint m) then fingerprint m else source_url m) ∧
  documents ticker source_type (add_document_metadata ticker source_type m self).1 =
    (if is_duplicate docs m then docs else docs ++ [m]) ∧
  (is_duplicate docs m = true ↔ ∃ e, e ∈ docs ∧ is_duplicate [e] m = true) ∧
  ∀ e : doc_meta,
    (truthy (fingerprint e) = true → fingerprint e = fingerprint m →
     is_duplicate [e] m = true) ∧
    (truthy (fingerprint e) = false → truthy (fingerprint m) = false →
     truthy (source_url m) = true →
     (is_duplicate [e] m = true ↔ source_url e = source_url m)).
Proof.
  intros Hv Hc docs. split; [done |]. split.
  { apply documents_add_document; [done |]. by apply add_document_no_raise. }
  split.
  { rewrite is_duplicate_true. split.
    - intros (Ht & e & He & Hk). exists e. split; [done |].
      apply is_duplicate_true. split; [done |]. exists e. split; [by left | done].
    - intros (e & He & Hd). apply is_duplicate_true in Hd as (Ht & e' & He' & Hk).
      apply list_elem_of_singleton in He' as ->. split; [done |]. by exists e. }
  intros e. split.
  - intros Ht Heq. apply is_duplicate_true.
    unfold doc_key, py_or, fingerprint in *. rewrite <- Heq, Ht.
    split; [done |]. exists e. split; [by left |]. rewrite Ht. by rewrite Heq.
  - intros Hfe Hfm Hu. rewrite is_duplicate_true.
    unfold doc_key, py_or, fingerprint, source_url in *. rewrite Hfm. split.
    + intros (_ & e' & He' & Hk). apply list_elem_of_singleton in He' as ->.
      by rewrite Hfe in Hk.
    + intros Heq. split; [done |]. exists e. split; [by left |]. by rewrite Hfe.
Qed.

Lemma dedup_key_precedence_witness :
  let m1 := sample_meta (PStr "9f2c") (PStr "https://example.com/10k.pdf") in
  let m2 := sample_meta (PStr "9f2c") (PStr "https://mirror.example.com/annual.pdf") in
  let self := (add_document_metadata "AAPL" "ir" m1 sample_store).1 in
  (valid_source_type "ir" ∧ buckets_complete self) ∧
  documents "AAPL" "ir" self = [m1] ∧
  is_duplicate [m1] m2 = true ∧
  documents "AAPL" "ir" (add_document_metadata "AAPL" "ir" m2 self).1 = [m1].
Proof.
  intros m1 m2 self.
  assert (valid_source_type "ir") as Hv by (by left).
  assert (buckets_complete self) as Hc.
  { by apply buckets_complete_add_document, buckets_complete_empty. }
  destruct (dedup_key_precedence self "AAPL" "ir" m2 Hv Hc) as (_ & Hadd & _ & Hpair).
  assert (documents "AAPL" "ir" self = [m1]) as Hdocs by reflexivity.
  assert (is_duplicate [m1] m2 = true) as Hdup.
  { apply (proj1 (Hpair m1)); reflexivity. }
  split; [done |]. split; [done |]. split; [done |].
  rewrite Hadd, Hdocs, Hdup. reflexivity.
Defined.

(** C9. Frame of a call with an invalid source type: when [source_type] is
    neither "ir" nor "sec", the call returns without raising, the documents
    of every (ticker, category) pair are what they were, and the only change
    to the store is the empty bucket created for a ticker that had none. *)
Theorem add_document_invalid_source_type_frame (self : DataStore) (ticker source_type : string)
    (m : doc_meta) :
  source_type ≠ "ir" →
  source_type ≠ "sec" →
  let after := add_document_metadata ticker source_type m self in
  after.2 = None ∧
  (∀ t' st', documents t' st' after.1 = documents t' st' self) ∧
  document_metadata_store after.1 =
    match document_metadata_store self !! upper ticker with
    | Some _ => document_metadata_store self
    | None => <[upper ticker := new_bucket]> (document_metadata_store self)
    end ∧
  companies_info after.1 = companies_info self ∧
  summary_metadata_store after.1 = summary_metadata_store self.
Proof.
  intros H1 H2. cbv zeta. unfold add_document_metadata.
  rewrite (str_in_invalid _ H1 H2). simpl.
  destruct (document_metadata_store self !! upper ticker) as [b |] eqn:Hb; simpl.
  - done.
  - split; [done |]. split; [| done].
    intros t' st'. unfold documents, get_document_metadata. simpl.
    rewrite lookup_insert. case_decide as Ht.
    + rewrite <- Ht, Hb.
      destruct (String.eqb st' ""); [done |].
      destruct (new_bucket !! st') as [docs |] eqn:Hd; [| done].
      unfold new_bucket in Hd.
      rewrite lookup_insert in Hd. case_decide; [by injection Hd as <- |].
      rewrite lookup_insert in Hd. case_decide; [by injection Hd as <- |].
      by rewrite lookup_empty in Hd.
    + done.
Qed.

Lemma add_document_invalid_source_type_frame_witness :
  let m := sample_meta (PStr "9f2c") (PStr "https://example.com/10k.pdf") in
  let after := add_document_metadata "msft" "press" m sample_store in
  ("press" ≠ "ir" ∧ "press" ≠ "sec") ∧
  after.2 = None ∧
  (∀ t' st', documents t' st' after.1 = documents t' st' sample_store) ∧
  document_metadata_store after.1 = <["MSFT" := new_bucket]> ∅.
Proof.
  intros m after.
  assert ("press" ≠ "ir") as H1 by discriminate.
  assert ("press" ≠ "sec") as H2 by discriminate.
  destruct (add_document_invalid_source_type_frame sample_store "msft" "press" m H1 H2)
    as (Hn & Hdocs & Hstore & _).
  split; [done |]. split; [exact Hn |]. split; [exact Hdocs |]. exact Hstore.
Defined.

(** C10. Key-less metadata is never deduplicated: for a category "ir" or
    "sec", a metadata value with neither fingerprint nor URL is appended by
    every call, so two successive calls with the same value add two entries
    to the documents of the pair. *)
Theorem add_document_keyless_appends (self : DataStore) (ticker source_type : string)
    (m : doc_meta) :
  valid_source_type source_type →
  buckets_complete self →
  keyless m →
  let first := add_document_metadata ticker source_type m self in
  let second := add_document_metadata ticker source_type m first.1 in
  first.2 = None ∧ second.2 = None ∧
  documents ticker source_type first.1 = documents ticker source_type self ++ [m] ∧
  documents ticker source_type second.1 = documents ticker source_type self ++ [m; m] ∧
  document_count ticker source_type second.1 = document_count ticker source_type self + 2.
Proof.
  intros Hv Hc Hk. cbv zeta. apply keyless_doc_key in Hk.
  pose proof (add_document_no_raise self ticker source_type m Hv Hc) as Hn1.
  pose proof (buckets_complete_add_document self ticker source_type m Hc) as Hc1.
  pose proof (add_document_no_raise _ ticker source_type m Hv Hc1) as Hn2.
  pose proof (documents_add_document self ticker source_type m Hv Hn1) as Hd1.
  pose proof (documents_add_document _ ticker source_type m Hv Hn2) as Hd2.
  rewrite is_duplicate_keyless in Hd1, Hd2 by done.
  rewrite Hd1 in Hd2. rewrite <- app_assoc in Hd2. simpl in Hd2.
  split; [done |]. split; [done |]. split; [done |]. split; [done |].
  unfold document_count. rewrite Hd2, length_app. simpl. lia.
Qed.

Lemma add_document_keyless_appends_witness :
  let m : doc_meta := <["filename" := PStr "20240102_ab12.pdf"]> ∅ in
  let first := add_document_metadata "wmt" "ir" m sample_store in
  let second := add_document_metadata "wmt" "ir" m first.1 in
  (valid_source_type "ir" ∧ buckets_complete sample_store ∧ keyless m) ∧
  documents "WMT" "ir" second.1 = [m; m] ∧
  document_count "wmt" "ir" second.1 = 2.
Proof.
  intros m first second.
  assert (valid_source_type "ir") as Hv by (by left).
  assert (buckets_complete sample_store) as Hc by (by apply buckets_complete_empty).
  assert (keyless m) as Hk by (split; reflexivity).
  destruct (add_document_keyless_appends sample_store "wmt" "ir" m Hv Hc Hk)
    as (_ & _ & _ & Hd & Hn).
  split; [done |]. split; [exact Hd | exact Hn].
Defined.

(** ** The snapshot file *)

(** C7. When the snapshot file is missing or cannot be decoded, the
    constructor returns a store whose three record families are empty (the
    model has no raising path); on storage that accepts the write, a save
    of that store then leaves a well-formed snapshot at the path, and a
    store constructed from it is the same empty store. *)
Theorem unusable_snapshot_loads_empty (disk : Disk) (DATA_DIR storage_file_name now : string) :
  snapshot_unusable disk (path_join DATA_DIR storage_file_name) →
  path_join DATA_DIR storage_file_name ∉ unwritable disk →
  let self := DataStore_init DATA_DIR storage_file_name disk in
  let disk' := save_to_json now self disk in
  storage_file_path self = path_join DATA_DIR storage_file_name ∧
  companies_info self = ∅ ∧
  document_metadata_store self = ∅ ∧
  summary_metadata_store self = ∅ ∧
  (∃ text, files disk' !! storage_file_path self = Some text ∧ well_formed_snapshot text) ∧
  (storage_file_path self ∉ unreadable disk →
   DataStore_init DATA_DIR storage_file_name disk' = self).
Proof.
  intros Hu Hw. cbv zeta.
  assert (DataStore_init DATA_DIR storage_file_name disk =
          {| companies_info := ∅; document_metadata_store := ∅;
             summary_metadata_store := ∅;
             storage_file_path := path_join DATA_DIR storage_file_name |}) as ->.
  { unfold DataStore_init, _load_from_json, read_snapshot. simpl.
    destruct Hu as [-> | [[raw ->] | [v ->]]]; [done | |]; by case_bool_decide. }
  unfold save_to_json, write_snapshot. simpl. rewrite bool_decide_eq_false_2 by done.
  simpl. rewrite lookup_insert_eq.
  split; [done |]. split; [done |]. split; [done |]. split; [done |]. split.
  - eexists. split; [done |]. by eexists _, _, _, _.
  - intros Hr. unfold DataStore_init, _load_from_json, read_snapshot. simpl.
    rewrite lookup_insert_eq. by rewrite bool_decide_eq_false_2.
Qed.

Lemma unusable_snapshot_loads_empty_witness :
  let disk :=
    {| files := {[ "/srv/data/data_store.json" := Undecodable "{companies_info: " ]};
       unreadable := ∅;
       unwritable := ∅ |} in
  let self := DataStore_init "/srv/data" "data_store.json" disk in
  let disk' := save_to_json "2024-01-02T03:04:05" self disk in
  (snapshot_unusable disk (path_join "/srv/data" "data_store.json") ∧
   path_join "/srv/data" "data_store.json" ∉ unwritable disk) ∧
  document_metadata_store self = ∅ ∧
  (∃ text, files disk' !! storage_file_path self = Some text ∧ well_formed_snapshot text).
Proof.
  intros disk self disk'.
  assert (snapshot_unusable disk (path_join "/srv/data" "data_store.json")) as Hu.
  { right; left. by eexists. }
  assert (path_join "/srv/data" "data_store.json" ∉ unwritable disk) as Hw.
  { simpl. apply not_elem_of_empty. }
  destruct (unusable_snapshot_loads_empty disk "/srv/data" "data_store.json"
              "2024-01-02T03:04:05" Hu Hw) as (_ & _ & Hd & _ & Hs & _).
  split; [done |]. split; [exact Hd | exact Hs].
Defined.

(** ** Link classification *)

Section Classification.

Import IrScraper.

Variable urljoin : string → string → string.

Ltac in_list := repeat first [by left | right].

Lemma first_group_range (test : string → bool) (groups : list (string * list string)) :
  first_group test groups = "Other" ∨ first_group test groups ∈ map fst groups.
Proof.
  induction groups as [| [doc_type kws] rest IH]; simpl.
  - by left.
  - destruct (existsb test kws).
    + right. by left.
    + destruct IH as [IH | IH]; [by left | right; by right].
Qed.

Lemma matched_doc_type_range (text href : string) :
  matched_doc_type text href = "Other" ∨ matched_doc_type text href ∈ document_type_tags.
Proof.
  assert (∀ test, first_group test keywords_doc_type = "Other" ∨
                  first_group test keywords_doc_type ∈ document_type_tags) as Hg.
  { intros test. destruct (first_group_range test keywords_doc_type) as [H | H]; [by left |].
    right. remember (first_group test keywords_doc_type) as g eqn:Hg. clear Hg.
    simpl in H. unfold document_type_tags.
    repeat (apply elem_of_cons in H as [-> | H]; [in_list |]).
    by apply elem_of_nil in H. }
  unfold matched_doc_type.
  set (link_text := lower (strip text)).
  set (by_text := first_group _ keywords_doc_type).
  set (by_href := first_group _ keywords_doc_type).
  assert (by_text = "Other" ∨ by_text ∈ document_type_tags) as Ht by apply Hg.
  assert (by_href = "Other" ∨ by_href ∈ document_type_tags) as Hh by apply Hg.
  set (matched := if String.eqb by_text "Other" then by_href else by_text).
  assert (matched = "Other" ∨ matched ∈ document_type_tags) as Hm.
  { subst matched. by destruct (String.eqb by_text "Other"). }
  clearbody matched by_text by_href.
  repeat match goal with
         | |- context [if ?c then _ else _] => destruct c
         end;
    first [exact Hm | right; unfold document_type_tags; in_list].
Qed.

Lemma collect_links_acc (page : string) (anchors : list anchor) (links_found : list link) :
  collect_links urljoin page anchors links_found =
  links_found ++ collect_links urljoin page anchors [].
Proof.
  revert links_found. induction anchors as [| a rest IH]; intros links_found; simpl.
  - by rewrite app_nil_r.
  - destruct (skipped_href (a_href a)); [apply IH |].
    destruct (negb _); [| apply IH].
    rewrite IH. rewrite (IH [_]). by rewrite app_assoc.
Qed.

Lemma collect_links_app (page : string) (before after : list anchor) (links_found : list link) :
  collect_links urljoin page (before ++ after) links_found =
  collect_links urljoin page after (collect_links urljoin page before links_found).
Proof.
  revert links_found. induction before as [| a rest IH]; intros links_found; simpl; [done |].
  destruct (skipped_href (a_href a)); [apply IH |].
  destruct (negb _); apply IH.
Qed.

(** One anchor contributes the tag [classify] gives it, and nothing else
    of the run enters. *)
Lemma collect_links_one (page : string) (a : anchor) :
  map link_type (collect_links urljoin page [a] []) =
  option_list (classify (a_text a) (a_href a)).
Proof.
  unfold classify. simpl.
  destruct (skipped_href (a_href a)); [done |].
  by destruct (String.eqb (matched_doc_type (a_text a) (a_href a)) "Other").
Qed.

Lemma collect_links_types (page : string) (anchors : list anchor) :
  map link_type (collect_links urljoin page anchors []) =
  omap (λ a, classify (a_text a) (a_href a)) anchors.
Proof.
  induction anchors as [| a rest IH]; [done |].
  change (a :: rest) with ([a] ++ rest).
  rewrite collect_links_app, collect_links_acc, map_app, collect_links_one, IH.
  simpl. by destruct (classify (a_text a) (a_href a)).
Qed.

Lemma grab_ir_links_types (page : string) (anchors : list anchor) :
  map link_type (grab_ir_links urljoin page anchors) =
  omap (λ a, classify (a_text a) (a_href a)) anchors.
Proof. apply collect_links_types. Qed.

(** The tags found on a page do not depend on the order of discovery. *)
Lemma collect_links_types_permutation (page page' : string) (anchors anchors' : list anchor) :
  anchors ≡ₚ anchors' →
  map link_type (collect_links urljoin page anchors []) ≡ₚ
  map link_type (collect_links urljoin page' anchors' []).
Proof. intros Hp. rewrite !collect_links_types. by rewrite Hp. Qed.

End Classification.

(** C8. Link classification is a total function of (link text, href) into
    the tag set: two anchors with the same text and the same href, met at
    any position of any two runs of the loop of [grab_ir_links] (other
    pages, other anchors before and after, other links found so far), are
    given the same tag, the one [classify] computes from the pair. *)
Theorem link_classification_deterministic (urljoin : string → string → string)
    (page1 page2 : string) (before1 after1 before2 after2 : list IrScraper.anchor)
    (found1 found2 : list IrScraper.link) (a1 a2 : IrScraper.anchor) :
  IrScraper.a_text a1 = IrScraper.a_text a2 →
  IrScraper.a_href a1 = IrScraper.a_href a2 →
  ∃ tag : option string,
    tag = classify (IrScraper.a_text a1) (IrScraper.a_href a1) ∧
    (∀ t, tag = Some t → t ∈ document_type_tags) ∧
    map IrScraper.link_type
      (IrScraper.collect_links urljoin page1 (before1 ++ a1 :: after1) found1) =
      map IrScraper.link_type (IrScraper.collect_links urljoin page1 before1 found1) ++
      option_list tag ++
      map IrScraper.link_type (IrScraper.collect_links urljoin page1 after1 []) ∧
    map IrScraper.link_type
      (IrScraper.collect_links urljoin page2 (before2 ++ a2 :: after2) found2) =
      map IrScraper.link_type (IrScraper.collect_links urljoin page2 before2 found2) ++
      option_list tag ++
      map IrScraper.link_type (IrScraper.collect_links urljoin page2 after2 []).
Proof.
  intros Htext Hhref.
  assert (∀ page before after found a,
    map IrScraper.link_type
      (IrScraper.collect_links urljoin page (before ++ a :: after) found) =
    map IrScraper.link_type (IrScraper.collect_links urljoin page before found) ++
    option_list (classify (IrScraper.a_text a) (IrScraper.a_href a)) ++
    map IrScraper.link_type (IrScraper.collect_links urljoin page after [])) as Hrun.
  { intros page before after found a.
    change (a :: after) with ([a] ++ after).
    rewrite !collect_links_app.
    rewrite (collect_links_acc _ _ after), (collect_links_acc _ _ [a]).
    by rewrite !map_app, collect_links_one, <- app_assoc. }
  exists (classify (IrScraper.a_text a1) (IrScraper.a_href a1)).
  split; [done |]. split.
  - intros t. unfold classify.
    destruct (IrScraper.skipped_href _); [done |].
    destruct (String.eqb _ "Other") eqn:Ho; [done |]. intros [= <-].
    destruct (matched_doc_type_range (IrScraper.a_text a1) (IrScraper.a_href a1)) as [H | H];
      [| done].
    rewrite H in Ho. discriminate.
  - split; [apply Hrun |]. rewrite Htext, Hhref. apply Hrun.
Qed.

Lemma link_classification_deterministic_witness :
  let a1 := {| IrScraper.a_text := "  Q3 Earnings Release.pdf ";
               IrScraper.a_href := "/files/doc_financials/q3.pdf" |} in
  let other := {| IrScraper.a_text := "Annual Report"; IrScraper.a_href := "/ar.pdf" |} in
  let join := λ base href : string, base +:+ href in
  (IrScraper.a_text a1 = IrScraper.a_text a1 ∧ IrScraper.a_href a1 = IrScraper.a_href a1) ∧
  classify (IrScraper.a_text a1) (IrScraper.a_href a1) = Some "Earnings Release" ∧
  map IrScraper.link_type
    (IrScraper.collect_links join "https://ir.example.com" ([other] ++ a1 :: []) []) =
    ["10-K"; "Earnings Release"] ∧
  map IrScraper.link_type
    (IrScraper.collect_links join "https://www.example.com/investors" ([] ++ a1 :: [other]) []) =
    ["Earnings Release"; "10-K"].
Proof.
  intros a1 other join.
  destruct (link_classification_deterministic join
              "https://ir.example.com" "https://www.example.com/investors"
              [other] [] [] [other] [] [] a1 a1 eq_refl eq_refl)
    as (tag & Htag & _ & H1 & H2).
  assert (classify (IrScraper.a_text a1) (IrScraper.a_href a1) = Some "Earnings Release")
    as Hc by (vm_compute; reflexivity).
  rewrite Hc in Htag. subst tag.
  split; [done |]. split; [exact Hc |]. split; [exact H1 | exact H2].
Defined.

(** ** The filing resolver on inconsistent parallel arrays *)

Section ResolverTruncation.

Import Companies SecFetcher.

Lemma default_array (fallback : list json) (o : option (list json)) :
  default (JArr fallback) (JArr <$> o) = JArr (default fallback o).
Proof. by destruct o. Qed.

Lemma filing_at_arrays members pa form_types i :
  holds_arrays members pa →
  filing_at (JObj members) form_types i =
    match pa_form pa !! i with
    | None => Raised IndexError
    | Some form_i =>
        if json_in form_i form_types then
          match consumed_entry pa form_i i with
          | Some info => Returned (Some info)
          | None => Raised IndexError
          end
        else Returned None
    end.
Proof.
  intros (Hf & Ha & Hd & Hp & Hr & Hs & Hz).
  unfold filing_at, getitem, py_get, consumed_entry.
  rewrite Hf, Ha, Hd, Hp, Hr, Hs, Hz, !default_array. simpl.
  destruct (pa_form pa !! i) as [form_i |]; simpl; [| done].
  destruct (json_in form_i form_types); [| done].
  destruct (pa_accessionNumber pa !! i); simpl; [| done].
  destruct (pa_filingDate pa !! i); simpl; [| done].
  destruct (default [JStr ""] (pa_reportDate pa) !! i); simpl; [| done].
  destruct (pa_primaryDocument pa !! i); simpl; [| done].
  destruct (default [JStr ""] (pa_primaryDocDescription pa) !! i); simpl; [| done].
  by destruct (default [JNull] (pa_size pa) !! i).
Qed.

Lemma in_range_selected pa form_types i :
  match pa_form pa !! i with
  | None => in_range pa form_types i = false
  | Some form_i =>
      if json_in form_i form_types then
        match consumed_entry pa form_i i with
        | Some info =>
            in_range pa form_types i = true ∧ selected pa form_types i = Some info
        | None => in_range pa form_types i = false
        end
      else in_range pa form_types i = true ∧ selected pa form_types i = None
  end.
Proof.
  unfold in_range, selected.
  destruct (pa_form pa !! i) as [form_i |]; simpl; [| done].
  destruct (json_in form_i form_types); [| done].
  by destruct (consumed_entry pa form_i i).
Qed.

(** The loop from any point: it returns, with what it had plus the
    selected filings of the in-range prefix of the remaining indices, cut
    where the list reaches [count]. *)
Lemma filings_loop_arrays members pa form_types count indices collected :
  holds_arrays members pa →
  filings_loop (JObj members) form_types count indices collected =
    Returned (collected ++
      take (Z.to_nat (Z.max 1 (count - Z.of_nat (length collected))))
           (omap (selected pa form_types) (take_while (in_range pa form_types) indices))).
Proof.
  intros Hh. revert collected.
  induction indices as [| i rest IH]; intros collected; simpl.
  - by rewrite take_nil, app_nil_r.
  - rewrite (filing_at_arrays _ _ _ _ Hh).
    pose proof (in_range_selected pa form_types i) as Hi.
    destruct (pa_form pa !! i) as [form_i |].
    2: { rewrite Hi. simpl. by rewrite take_nil, app_nil_r. }
    destruct (json_in form_i form_types).
    + destruct (consumed_entry pa form_i i) as [info |].
      2: { rewrite Hi. simpl. by rewrite take_nil, app_nil_r. }
      destruct Hi as [-> Hs]. simpl. rewrite Hs, length_app. simpl.
      destruct (Z.to_nat (Z.max 1 (count - Z.of_nat (length collected)))) as [| n] eqn:Hn;
        [lia |].
      simpl. case_match eqn:Hc.
      * apply Z.leb_le in Hc. assert (n = 0) as -> by lia.
        by rewrite take_0.
      * apply Z.leb_gt in Hc. rewrite IH, length_app. simpl.
        rewrite <- app_assoc. simpl.
        assert (Z.to_nat (Z.max 1 (count - Z.of_nat (length collected + 1))) = n) as -> by lia.
        done.
    + destruct Hi as [-> Hs]. simpl. rewrite Hs. apply IH.
Qed.

Lemma zfill_nonempty (s : string) : zfill 10 s ≠ "".
Proof.
  unfold zfill. destruct s as [| c r]; [done |].
  destruct (_ || _); [done |].
  destruct (zeros (10 - String.length (String c r))); done.
Qed.

Lemma get_company_cik_nonempty df ticker_symbol cik_str :
  get_company_cik df ticker_symbol = Some cik_str → cik_missing (Some cik_str) = false.
Proof.
  unfold get_company_cik. destruct (List.filter _ df); [done |].
  intros [= <-]. simpl. apply String.eqb_neq, zfill_nonempty.
Qed.

End ResolverTruncation.

(** C3. Resolver truncation. When the submissions payload holds the
    parallel arrays of "recent" with lengths that need not agree,
    [get_recent_filings_metadata] returns (it does not raise) exactly the
    filtered prefix: the filings of the requested forms at the indices
    before the first one that is out of range of an array consumed there,
    cut to the number of filings asked for. *)
Theorem resolver_truncation (df : list Companies.row) (api : string → SecFetcher.api_reply)
    (ticker_symbol cik_str : string) (form_types : option (list string)) (count : Z)
    (submissions filings recent : list (string * json)) (pa : parallel_arrays) :
  Companies.get_company_cik df ticker_symbol = Some cik_str →
  api ("https://data.sec.gov/submissions/CIK" +:+ cik_str +:+ ".json") =
    SecFetcher.ApiJson (JObj submissions) →
  SecFetcher.member "error" submissions = None →
  SecFetcher.member "filings" submissions = Some (JObj filings) →
  SecFetcher.member "recent" filings = Some (JObj recent) →
  holds_arrays recent pa →
  SecFetcher.get_recent_filings_metadata df api ticker_symbol form_types count =
    (Returned (take (collected_at_most count)
                 (filtered_prefix pa (default SecFetcher.default_form_types form_types))),
     ["https://data.sec.gov/submissions/CIK" +:+ cik_str +:+ ".json"]).
Proof.
  intros Hcik Hapi Herr Hfil Hrec Hh.
  unfold SecFetcher.get_recent_filings_metadata, SecFetcher.get_company_submissions.
  rewrite Hcik, (get_company_cik_nonempty _ _ _ Hcik). simpl.
  unfold SecFetcher._make_request. rewrite Hapi.
  unfold SecFetcher.recent_filings_of. simpl.
  rewrite Herr, Hfil. simpl.
  rewrite Hrec. simpl.
  destruct Hh as (Hf & Ha & Hrest). rewrite Ha. simpl.
  rewrite (filings_loop_arrays recent pa) by (by split).
  simpl. unfold filtered_prefix, collected_at_most. do 4 f_equal. lia.
Qed.

Lemma resolver_truncation_witness :
  (Companies.get_company_cik sample_universe "wmt" = Some "0000104169" ∧
   holds_arrays sample_recent sample_arrays) ∧
  SecFetcher.get_recent_filings_metadata sample_universe (sample_api sample_recent) "wmt"
    None 10 =
    (Returned
       [ {| SecFetcher.accessionNumber := JStr "0000104169-24-000056";
            SecFetcher.filingDate := JStr "2024-03-15";
            SecFetcher.reportDate := JStr "2024-01-31";
            SecFetcher.form := JStr "10-K";
            SecFetcher.primaryDocument := JStr "wmt-20240131.htm";
            SecFetcher.primaryDocDescription := JStr "10-K";
            SecFetcher.size := JNum 9150221 |} ],
     ["https://data.sec.gov/submissions/CIK0000104169.json"]).
Proof.
  assert (Companies.get_company_cik sample_universe "wmt" = Some "0000104169") as Hcik
    by (vm_compute; reflexivity).
  assert (holds_arrays sample_recent sample_arrays) as Hh
    by (repeat split; reflexivity).
  split; [done |].
  rewrite (resolver_truncation sample_universe (sample_api sample_recent) "wmt" "0000104169"
             None 10
             [("cik", JStr "104169"); ("filings", JObj [("recent", JObj sample_recent)])]
             [("recent", JObj sample_recent)] sample_recent sample_arrays
             Hcik eq_refl eq_refl eq_refl eq_refl Hh).
  vm_compute. reflexivity.
Defined.

(** Outside the arrays-with-lengths case: a "recent" object without the
    "form" member makes [recent["form"]] raise [KeyError], which the
    handler for [IndexError] does not catch. *)
Lemma missing_form_array_raises :
  SecFetcher.get_recent_filings_metadata sample_universe
    (sample_api [("accessionNumber", JArr [JStr "0000104169-24-000056"])]) "WMT" None 10 =
    (Raised (KeyError "form"), ["https://data.sec.gov/submissions/CIK0000104169.json"]).
Proof. vm_compute. reflexivity. Qed.

(** The loop tests [count] after the append: a [count] of zero still
    yields the first requested filing. *)
Lemma count_zero_yields_one :
  length (match (SecFetcher.get_recent_filings_metadata sample_universe
                   (sample_api sample_recent) "WMT" None 0).1 with
          | Returned l => l
          | Raised _ => []
          end) = 1.
Proof. vm_compute. reflexivity. Qed.

(** ** Resolving the regulator identifier *)

Section ResolveIdentifier.

Import Companies SecFetcher.

(** A ticker that is absent from the universe has no identifier, no
    request is issued for it and the list of filings is empty. *)
Lemma absent_ticker_not_found (df : list row) (api : string → api_reply)
    (ticker_symbol : string) (form_types : option (list string)) (count : Z) :
  (∀ r, r ∈ df → upper (ticker r) ≠ upper ticker_symbol) →
  get_company_cik df ticker_symbol = None ∧
  get_recent_filings_metadata df api ticker_symbol form_types count = (Returned [], []).
Proof.
  intros Habsent.
  assert (get_company_cik df ticker_symbol = None) as Hnone.
  { unfold get_company_cik.
    assert (List.filter (λ r, String.eqb (upper (ticker r)) (upper ticker_symbol)) df = [])
      as ->; [| done].
    induction df as [| r df IH]; [done |]. simpl.
    assert (String.eqb (upper (ticker r)) (upper ticker_symbol) = false) as ->.
    { apply String.eqb_neq, Habsent. by left. }
    apply IH. intros r' Hr'. apply Habsent. by right. }
  split; [done |].
  unfold get_recent_filings_metadata, get_company_submissions. by rewrite Hnone.
Qed.

(** A company on record always resolves to some text, whatever its cell
    of the [cik] column holds. *)
Lemma listed_ticker_resolves (df : list row) (r : row) (ticker_symbol : string) :
  r ∈ df → upper (ticker r) = upper ticker_symbol →
  ∃ cik_str, get_company_cik df ticker_symbol = Some cik_str ∧
             cik_missing (Some cik_str) = false.
Proof.
  intros Hin Heq. unfold get_company_cik.
  destruct (List.filter _ df) as [| first rest] eqn:Hf.
  - exfalso. assert (In r []) as [].
    rewrite <- Hf. apply filter_In. split.
    + by apply list_elem_of_In.
    + by apply String.eqb_eq.
  - eexists. split; [done |]. simpl. apply String.eqb_neq, zfill_nonempty.
Qed.

End ResolveIdentifier.

(** C2, the code on a company without identifier on record: for the
    ticker "ZZZ" whose [cik] cell is empty, [get_company_cik] returns the
    text "0000000nan" instead of [None], and
    [get_recent_filings_metadata] issues the submissions request for it. *)
Theorem missing_identifier_is_requested (api : string → SecFetcher.api_reply)
    (form_types : option (list string)) (count : Z) :
  Companies.get_company_cik universe_without_identifier "ZZZ" = Some "0000000nan" ∧
  (SecFetcher.get_recent_filings_metadata universe_without_identifier api "ZZZ"
     form_types count).2 =
    ["https://data.sec.gov/submissions/CIK0000000nan.json"].
Proof.
  split; [vm_compute; reflexivity |].
  unfold SecFetcher.get_recent_filings_metadata, SecFetcher.get_company_submissions.
  assert (Companies.get_company_cik universe_without_identifier "ZZZ" = Some "0000000nan")
    as -> by (vm_compute; reflexivity).
  reflexivity.
Qed.

(** ** Downloads: what is caught and what escapes *)

Section DownloadFailures.

Import IrScraper Fetch IrDownload SecDownload.

Lemma length_append (s t : string) :
  String.length (s +:+ t) = String.length s + String.length t.
Proof. induction s as [| c s IH]; simpl; [done | by rewrite IH]. Qed.

Lemma sidecar_path_differs (filepath : string) : filepath +:+ ".meta.json" ≠ filepath.
Proof.
  intros Heq. apply (f_equal String.length) in Heq.
  rewrite length_append in Heq. simpl in Heq. lia.
Qed.

(** Both handlers return a failed outcome. *)
Lemma download_failed_returns (url : string) (e : exn) (fs : FileSystem) :
  ∃ error, download_failed url e fs = (fs, Returned (FailedDownload error url)) ∨
           download_failed url e fs = (fs, Returned (FailedUnexpected error url)).
Proof. destruct e; eexists; by (left + right). Qed.

(** Whatever happens inside the [try], the guarded attempt returns: a
    raise of the body is turned into a failed outcome. *)
Lemma guarded_attempt_returns (body : FsM fetch_result) (url : string) (fs : FileSystem) :
  ∃ fs' res, try_except body (download_failed url) fs = (fs', Returned res) ∧
    (∀ e, body fs = (fs', Raised e) → res_success res = false).
Proof.
  unfold try_except. destruct (body fs) as [fs' [res | e]] eqn:Hb.
  - exists fs', res. split; [done |]. intros e [=].
  - destruct (download_failed_returns url e fs') as [error [-> | ->]];
      eexists _, _; (split; [done |]); done.
Qed.

(** [download_document] raises only from the two steps that precede the
    [try]: the creation of the directory and the read of the sidecar. *)
Lemma download_document_raises_before_try (env : Env) (ticker_symbol : string) (doc_info : link)
    (fs fs' : FileSystem) (e : exn) :
  download_document env ticker_symbol doc_info fs = (fs', Raised e) →
  fs' = fs ∧
  (e = OSError (company_dir env ticker_symbol doc_info) ∨
   e = JSONDecodeError ∨
   ∃ sidecar, e = OSError sidecar).
Proof.
  unfold download_document, fs_bind, makedirs, existing_metadata, fs_bind, path_exists,
    read_json, ret.
  case_bool_decide; [intros [= <- <-]; eauto |].
  case_bool_decide; simpl.
  2: { destruct (guarded_attempt_returns (attempt_download env ticker_symbol doc_info)
                   (link_url doc_info) fs) as (fs1 & res & -> & _). intros [=]. }
  case_bool_decide; simpl.
  2: { destruct (guarded_attempt_returns (attempt_download env ticker_symbol doc_info)
                   (link_url doc_info) fs) as (fs1 & res & -> & _). intros [=]. }
  case_bool_decide; [intros [= <- <-]; eauto |].
  destruct (fs_files fs !! (target_path env ticker_symbol doc_info +:+ ".meta.json"))
    as [[bytes | metadata] |];
    simpl; intros ?; simplify_eq; eauto.
Qed.

(** An outcome of any kind, failed ones included, is recorded and the loop
    goes on with the remaining links. *)
Lemma process_links_goes_on (env : Env) (ticker_symbol : string) (link_info : link)
    (rest : list link) (download_results : list fetch_result) (fs fs' : FileSystem)
    (result : fetch_result) :
  (String.eqb (link_type link_info) "SEC Filings Page" &&
   negb (contains "sec.gov" (link_url link_info))) = false →
  download_document env ticker_symbol link_info fs = (fs', Returned result) →
  process_links env ticker_symbol (link_info :: rest) download_results fs =
  process_links env ticker_symbol rest (download_results ++ [result]) fs'.
Proof. intros Hs Hd. simpl. rewrite Hs. unfold fs_bind. by rewrite Hd. Qed.

(** A raise of one download leaves the loop: no list of outcomes is
    returned and the remaining links are not visited. *)
Lemma process_links_aborted (env : Env) (ticker_symbol : string) (link_info : link)
    (rest : list link) (download_results : list fetch_result) (fs fs' : FileSystem) (e : exn) :
  (String.eqb (link_type link_info) "SEC Filings Page" &&
   negb (contains "sec.gov" (link_url link_info))) = false →
  download_document env ticker_symbol link_info fs = (fs', Raised e) →
  process_links env ticker_symbol (link_info :: rest) download_results fs = (fs', Raised e).
Proof. intros Hs Hd. simpl. rewrite Hs. unfold fs_bind. by rewrite Hd. Qed.

(** The same for [download_filing_document]. *)
Lemma download_filing_document_raises_before_try (env : Env) (df : list Companies.row)
    (ticker_symbol accession_number document_filename form_type : string)
    (fs fs' : FileSystem) (e : exn) :
  download_filing_document env df ticker_symbol accession_number document_filename form_type fs =
    (fs', Raised e) →
  fs' = fs ∧
  (e = OSError (filing_dir env ticker_symbol accession_number form_type) ∨
   e = JSONDecodeError ∨
   ∃ sidecar, e = OSError sidecar).
Proof.
  unfold download_filing_document.
  destruct (SecFetcher.cik_missing _); [intros [=] |].
  unfold fs_bind, makedirs, existing_metadata, fs_bind, path_exists, read_json, ret.
  case_bool_decide; [intros [= <- <-]; eauto |].
  case_bool_decide; simpl.
  2: { match goal with
       | |- try_except ?body (download_failed ?url) fs = _ → _ =>
           destruct (guarded_attempt_returns body url fs) as (fs1 & res & -> & _)
       end. intros [=]. }
  case_bool_decide; simpl.
  2: { match goal with
       | |- try_except ?body (download_failed ?url) fs = _ → _ =>
           destruct (guarded_attempt_returns body url fs) as (fs1 & res & -> & _)
       end. intros [=]. }
  case_bool_decide; [intros [= <- <-]; eauto |].
  destruct (fs_files fs !! (filing_path env ticker_symbol accession_number form_type
                              document_filename +:+ ".meta.json"))
    as [[bytes | metadata] |];
    simpl; intros ?; simplify_eq; eauto.
Qed.

(** When the directory can be created and no sidecar stands at the target,
    [download_document] returns an outcome, whatever the network and the
    storage do during the attempt. *)
Lemma download_document_returns (env : Env) (ticker_symbol : string) (doc_info : link)
    (fs : FileSystem) :
  company_dir env ticker_symbol doc_info ∉ fs_denied fs →
  fs_files fs !! (target_path env ticker_symbol doc_info +:+ ".meta.json") = None →
  ∃ fs' res, download_document env ticker_symbol doc_info fs = (fs', Returned res).
Proof.
  intros Hdir Hside.
  destruct (download_document env ticker_symbol doc_info fs) as [fs' [res | e]] eqn:Hd;
    [by eexists _, _ |].
  exfalso. revert Hd.
  unfold download_document, fs_bind, makedirs, existing_metadata, fs_bind, path_exists,
    read_json, ret.
  rewrite bool_decide_eq_false_2 by done.
  destruct (guarded_attempt_returns (attempt_download env ticker_symbol doc_info)
              (link_url doc_info) fs) as (fs1 & res & Hg & _).
  case_bool_decide; simpl.
  - rewrite Hside. rewrite (bool_decide_eq_false_2 (is_Some None)) by (by intros [? ?]).
    simpl. rewrite Hg. intros [=].
  - rewrite Hg. intros [=].
Qed.

(** A sidecar that [json.load] rejects: the read raises before the [try]. *)
Lemma download_document_sidecar_undecodable (env : Env) (ticker_symbol : string)
    (doc_info : link) (fs : FileSystem) (document : artifact) (junk : string) :
  company_dir env ticker_symbol doc_info ∉ fs_denied fs →
  target_path env ticker_symbol doc_info +:+ ".meta.json" ∉ fs_denied fs →
  fs_files fs !! target_path env ticker_symbol doc_info = Some document →
  fs_files fs !! (target_path env ticker_symbol doc_info +:+ ".meta.json") = Some (Blob junk) →
  download_document env ticker_symbol doc_info fs = (fs, Raised JSONDecodeError).
Proof.
  intros Hdir Hside Hdoc Hmeta.
  unfold download_document, fs_bind, makedirs, existing_metadata, fs_bind, path_exists,
    read_json.
  rewrite (bool_decide_eq_false_2 _ Hdir), Hdoc.
  rewrite (bool_decide_eq_true_2 (is_Some (Some _))) by eauto. simpl.
  rewrite Hmeta. rewrite (bool_decide_eq_true_2 (is_Some (Some _))) by eauto. simpl.
  by rewrite (bool_decide_eq_false_2 _ Hside), Hmeta.
Qed.

(** A directory that cannot be created: [os.makedirs] raises before the
    [try]. *)
Lemma download_document_directory_denied (env : Env) (ticker_symbol : string)
    (doc_info : link) (fs : FileSystem) :
  company_dir env ticker_symbol doc_info ∈ fs_denied fs →
  download_document env ticker_symbol doc_info fs =
    (fs, Raised (OSError (company_dir env ticker_symbol doc_info))).
Proof.
  intros Hdir. unfold download_document, fs_bind, makedirs.
  by rewrite (bool_decide_eq_true_2 _ Hdir).
Qed.

Lemma download_filing_document_sidecar_undecodable (env : Env) (df : list Companies.row)
    (ticker_symbol accession_number document_filename form_type : string)
    (fs : FileSystem) (document : artifact) (junk : string) :
  SecFetcher.cik_missing (Companies.get_company_cik df ticker_symbol) = false →
  filing_dir env ticker_symbol accession_number form_type ∉ fs_denied fs →
  filing_path env ticker_symbol accession_number form_type document_filename +:+ ".meta.json"
    ∉ fs_denied fs →
  fs_files fs !! filing_path env ticker_symbol accession_number form_type document_filename =
    Some document →
  fs_files fs !! (filing_path env ticker_symbol accession_number form_type document_filename +:+
                  ".meta.json") = Some (Blob junk) →
  download_filing_document env df ticker_symbol accession_number document_filename form_type fs =
    (fs, Raised JSONDecodeError).
Proof.
  intros Hcik Hdir Hside Hdoc Hmeta.
  unfold download_filing_document. rewrite Hcik.
  unfold fs_bind, makedirs, existing_metadata, fs_bind, path_exists, read_json.
  rewrite (bool_decide_eq_false_2 _ Hdir), Hdoc.
  rewrite (bool_decide_eq_true_2 (is_Some (Some _))) by eauto. simpl.
  rewrite Hmeta. rewrite (bool_decide_eq_true_2 (is_Some (Some _))) by eauto. simpl.
  by rewrite (bool_decide_eq_false_2 _ Hside), Hmeta.
Qed.

Lemma denied_storage_denies (dir : string) : dir ∈ fs_denied (denied_storage dir).
Proof. unfold denied_storage. simpl. by apply elem_of_singleton. Qed.

Lemma interrupted_storage_document (filepath document : string) :
  fs_files (interrupted_storage filepath document) !! filepath = Some (Blob document).
Proof. unfold interrupted_storage. simpl. apply lookup_insert_eq. Qed.

Lemma interrupted_storage_sidecar (filepath document : string) :
  fs_files (interrupted_storage filepath document) !! (filepath +:+ ".meta.json") =
    Some (Blob "").
Proof.
  unfold interrupted_storage. simpl. rewrite lookup_insert_ne.
  - apply lookup_insert_eq.
  - intros Heq. symmetry in Heq. revert Heq. apply sidecar_path_differs.
Qed.

End DownloadFailures.

(** C6, the code on a reference whose sidecar cannot be read back, or
    whose target directory cannot be created: both steps precede the
    [try], so [download_document] and [download_filing_document] raise
    ([JSONDecodeError], [OSError]) instead of returning a failed outcome,
    and the pass over the links of the company ends there, before the
    sibling link is fetched. This holds in every environment (any
    network, clock and digests). *)
Theorem unreadable_sidecar_escapes (env : Fetch.Env) :
  let ir_storage :=
    interrupted_storage (IrDownload.target_path env "AAPL" annual_report_link) "%PDF-1.7" in
  let sec_storage :=
    interrupted_storage
      (SecDownload.filing_path env "WMT" "0000104169-24-000056" "10-K" "wmt-20240131.htm")
      "<html>" in
  let no_directory := denied_storage (IrDownload.company_dir env "AAPL" annual_report_link) in
  IrDownload.download_document env "AAPL" annual_report_link ir_storage =
    (ir_storage, Raised JSONDecodeError) ∧
  IrDownload.process_company env "AAPL" [annual_report_link; slides_link] ir_storage =
    (ir_storage, Raised JSONDecodeError) ∧
  SecDownload.download_filing_document env sample_universe "WMT" "0000104169-24-000056"
    "wmt-20240131.htm" "10-K" sec_storage = (sec_storage, Raised JSONDecodeError) ∧
  IrDownload.download_document env "AAPL" annual_report_link no_directory =
    (no_directory, Raised (OSError (IrDownload.company_dir env "AAPL" annual_report_link))) ∧
  IrDownload.process_company env "AAPL" [annual_report_link; slides_link] no_directory =
    (no_directory, Raised (OSError (IrDownload.company_dir env "AAPL" annual_report_link))).
Proof.
  intros ir_storage sec_storage no_directory.
  assert (IrDownload.download_document env "AAPL" annual_report_link ir_storage =
          (ir_storage, Raised JSONDecodeError)) as Hd.
  { eapply download_document_sidecar_undecodable.
    - apply not_elem_of_empty.
    - apply not_elem_of_empty.
    - apply interrupted_storage_document.
    - apply interrupted_storage_sidecar. }
  assert (IrDownload.download_document env "AAPL" annual_report_link no_directory =
          (no_directory,
           Raised (OSError (IrDownload.company_dir env "AAPL" annual_report_link)))) as Hm.
  { apply download_document_directory_denied. apply denied_storage_denies. }
  split; [exact Hd |]. split.
  { apply process_links_aborted; [reflexivity | exact Hd]. }
  split.
  { eapply download_filing_document_sidecar_undecodable.
    - vm_compute. reflexivity.
    - apply not_elem_of_empty.
    - apply not_elem_of_empty.
    - apply interrupted_storage_document.
    - apply interrupted_storage_sidecar. }
  split; [exact Hm |].
  apply process_links_aborted; [reflexivity | exact Hm].
Qed.

(** ** Storing the outcomes of a pass *)

Section StoringOutcomes.

Import IrScraper Fetch IrDownload Tasks.

Lemma store_results_downloaded ticker_symbol source_type results n data_store :
  valid_source_type source_type →
  buckets_complete data_store →
  store_results ticker_symbol source_type results n data_store =
    (add_all ticker_symbol source_type (downloaded_metadata results) data_store,
     Returned (n + length (downloaded_metadata results))).
Proof.
  intros Hv. revert n data_store.
  induction results as [| res rest IH]; intros n data_store Hc; simpl.
  - by rewrite Nat.add_0_r.
  - destruct res as [p m | p m | err url | err url | err]; simpl;
      try (by apply IH).
    pose proof (add_document_no_raise data_store ticker_symbol source_type m Hv Hc) as Hn.
    pose proof (buckets_complete_add_document data_store ticker_symbol source_type m Hc) as Hc'.
    destruct (add_document_metadata ticker_symbol source_type m data_store) as [s' o].
    simpl in Hn, Hc'. subst o. rewrite (IH _ _ Hc'). simpl. do 2 f_equal. lia.
Qed.

(** The four callers store through the same loop. *)
Lemma callers_store_results env now ticker_symbol ir_links results fs data_store disk
    fs' ir_results :
  process_company env ticker_symbol ir_links fs = (fs', Returned ir_results) →
  (_collect_ir_for_company env ticker_symbol ir_links fs data_store).1.2 =
    (store_results ticker_symbol "ir" ir_results 0 data_store).1 ∧
  (_collect_sec_for_company ticker_symbol results data_store).1 =
    (store_results ticker_symbol "sec" results 0 data_store).1 ∧
  (collect_ir_route now ticker_symbol results data_store disk).1.1 =
    (store_results (upper ticker_symbol) "ir" results 0 data_store).1 ∧
  (collect_sec_route now ticker_symbol results data_store disk).1.1 =
    (store_results (upper ticker_symbol) "sec" results 0 data_store).1.
Proof.
  intros Hp. unfold _collect_ir_for_company, _collect_sec_for_company, collect_ir_route,
    collect_sec_route, collect_route. rewrite Hp.
  split; [by destruct (store_results ticker_symbol "ir" ir_results 0 data_store) |].
  split; [done |].
  split.
  - by destruct (store_results (upper ticker_symbol) "ir" results 0 data_store) as [? []].
  - by destruct (store_results (upper ticker_symbol) "sec" results 0 data_store) as [? []].
Qed.

Lemma entries_for_zero m docs :
  entries_for m docs = 0 ↔ ∀ e, e ∈ docs → doc_key e ≠ doc_key m.
Proof.
  unfold entries_for. rewrite length_zero_iff_nil. split.
  - intros Hnil e He Hk.
    assert (e ∈ filter (λ e, doc_key e = doc_key m) docs) as Hin
      by (by apply list_elem_of_filter).
    rewrite Hnil in Hin. by apply elem_of_nil in Hin.
  - intros Hne. induction docs as [| d docs IH]; [done |].
    rewrite filter_cons. case_decide as Hd.
    + exfalso. by apply (Hne d); [left |].
    + apply IH. intros e He. apply Hne. by right.
Qed.

(** After a call with a keyed value, the pair holds the entries it held
    for that key, and one when it held none. *)
Lemma entries_for_add_document data_store ticker_symbol source_type m :
  valid_source_type source_type →
  buckets_complete data_store →
  truthy (doc_key m) = true →
  entries_for m (documents ticker_symbol source_type
                   (add_document_metadata ticker_symbol source_type m data_store).1) =
  Nat.max 1 (entries_for m (documents ticker_symbol source_type data_store)).
Proof.
  intros Hv Hc Ht.
  rewrite documents_add_document by (done || by apply add_document_no_raise).
  destruct (is_duplicate _ m) eqn:Hd.
  - apply is_duplicate_true in Hd as (_ & e & He & Hk).
    destruct (entries_for m (documents ticker_symbol source_type data_store)) eqn:Hz; [| lia].
    pose proof (proj1 (entries_for_zero _ _) Hz e He) as Hne. by destruct Hne.
  - assert (entries_for m (documents ticker_symbol source_type data_store) = 0) as Hz.
    { apply entries_for_zero. intros e He Hk.
      assert (is_duplicate (documents ticker_symbol source_type data_store) m = true) as Hd'.
      { apply is_duplicate_true. split; [done |]. by exists e. }
      congruence. }
    rewrite Hz. unfold entries_for in *. rewrite filter_app, length_app, Hz.
    rewrite filter_cons. by case_decide.
Qed.

Lemma nothing_denied (fs : FileSystem) (path : string) :
  fs_denied fs = ∅ → bool_decide (path ∈ fs_denied fs) = false.
Proof. intros ->. apply bool_decide_eq_false_2. apply not_elem_of_empty. Qed.

(** Fetching a link twice with the same date, configuration and digest of
    the URL: when the first attempt gets the whole body and the content
    type does not change the extension, it stores the document with its
    sidecar, and the second call finds both and returns the sidecar
    without a request. *)
Lemma same_day_refetch_skipped (env env' : Env) (ticker_symbol : string) (doc_info : link)
    (fs : FileSystem) (content_type : option string) (chunks : list string) :
  RAW_DATA_DIR env' = RAW_DATA_DIR env →
  today env' = today env →
  md5_hexdigest env' (link_url doc_info) = md5_hexdigest env (link_url doc_info) →
  fs_denied fs = ∅ →
  fs_files fs !! target_path env ticker_symbol doc_info = None →
  http_get env (link_url doc_info) = Body content_type chunks None →
  refined_extension (initial_extension (link_url doc_info)) (lower (default "" content_type)) =
    initial_extension (link_url doc_info) →
  ∃ metadata fs1,
    download_document env ticker_symbol doc_info fs =
      (fs1, Returned (Downloaded (target_path env ticker_symbol doc_info) metadata)) ∧
    fingerprint metadata =
      PStr (sha256_hexdigest env (fold_right String.append "" chunks)) ∧
    download_document env' ticker_symbol doc_info fs1 =
      (fs1, Returned (SkippedExists (target_path env ticker_symbol doc_info) metadata)).
Proof.
  intros Hraw Hday Hmd5 Hden Hnew Hget Hext.
  assert (company_dir env' ticker_symbol doc_info = company_dir env ticker_symbol doc_info)
    as Hdir by (unfold company_dir; by rewrite Hraw).
  assert (target_path env' ticker_symbol doc_info = target_path env ticker_symbol doc_info)
    as Hpath by (unfold target_path, filename_base; by rewrite Hdir, Hday, Hmd5).
  eexists _, _. split; [| split].
  - unfold download_document, fs_bind, makedirs, existing_metadata, fs_bind, path_exists.
    rewrite nothing_denied by done.
    rewrite Hnew.
    rewrite (bool_decide_eq_false_2 (is_Some None)) by (by intros [? ?]).
    simpl. unfold try_except, attempt_download, fs_bind, request.
    rewrite Hget. simpl. rewrite Hext.
    fold (target_path env ticker_symbol doc_info).
    unfold write_chunks, read_bytes, write_json.
    rewrite nothing_denied by done.
    simpl. rewrite nothing_denied by done.
    rewrite lookup_insert_eq.
    rewrite nothing_denied by done.
    reflexivity.
  - reflexivity.
  - unfold download_document, fs_bind, makedirs, existing_metadata, fs_bind, path_exists.
    simpl. rewrite Hdir, Hpath.
    rewrite nothing_denied by done.
    unfold put_file. cbn [fs_files fs_denied].
    rewrite lookup_insert_ne by apply sidecar_path_differs.
    rewrite lookup_insert_eq.
    rewrite (bool_decide_eq_true_2 (is_Some (Some _))) by eauto.
    cbn [fs_files fs_denied]. rewrite lookup_insert_eq.
    rewrite (bool_decide_eq_true_2 (is_Some (Some _))) by eauto.
    unfold read_json. cbn [fs_files fs_denied].
    rewrite nothing_denied by done.
    by rewrite lookup_insert_eq.
Qed.

End StoringOutcomes.

(** C1, as stated, fails: an outcome with status "skipped_exists" is not
    passed to [add_document_metadata]. With an empty store (the artifact
    and its sidecar are on disk from an earlier process), the store after
    the loop of the caller has no entry, where a call on the metadata of
    the outcome would have recorded one. *)
Lemma already_present_outcome_not_stored :
  ¬ every_outcome_reaches_add_document "AAPL" "ir"
      [Fetch.SkippedExists "/srv/data/raw/AAPL/ir/10-K/20240102_md5x27.pdf"
         (sample_meta (PStr "9f2c") (PStr "https://example.com/10k.pdf"))]
      sample_store.
Proof.
  unfold every_outcome_reaches_add_document. simpl. intros Heq.
  apply (f_equal (documents "AAPL" "ir")) in Heq.
  vm_compute in Heq. discriminate Heq.
Qed.

(** C1, amended. The callers pass to [add_document_metadata] the metadata
    of the outcomes with status "downloaded", in order, and count them;
    outcomes with another status are not passed. After two same-day
    fetches of a document that is new to the store, the first stored and
    the second already present with the same metadata, only the first
    went through [add_document_metadata], the second left the store as it
    was, and the store holds exactly one entry for the document. *)
Theorem downloaded_outcomes_reach_store (ticker_symbol source_type : string)
    (results : list Fetch.fetch_result) (data_store : DataStore)
    (path1 path2 : string) (m : doc_meta) :
  valid_source_type source_type →
  buckets_complete data_store →
  truthy (doc_key m) = true →
  entries_for m (documents ticker_symbol source_type data_store) = 0 →
  Tasks.store_results ticker_symbol source_type results 0 data_store =
    (add_all ticker_symbol source_type (downloaded_metadata results) data_store,
     Returned (length (downloaded_metadata results))) ∧
  let first :=
    (Tasks.store_results ticker_symbol source_type [Fetch.Downloaded path1 m] 0 data_store).1 in
  let second :=
    (Tasks.store_results ticker_symbol source_type [Fetch.SkippedExists path2 m] 0 first).1 in
  first = (add_document_metadata ticker_symbol source_type m data_store).1 ∧
  second = first ∧
  entries_for m (documents ticker_symbol source_type second) = 1.
Proof.
  intros Hv Hc Ht Hz. split.
  - by rewrite store_results_downloaded.
  - cbv zeta. rewrite (store_results_downloaded _ _ [_]) by done. simpl.
    split; [done |]. split; [done |].
    rewrite entries_for_add_document, Hz by done. done.
Qed.

Lemma downloaded_outcomes_reach_store_witness :
  let env := sample_env (Fetch.Body (Some "application/pdf") ["%PDF-1.7 "; "annual report"] None) in
  let path := "/srv/data/raw/AAPL/ir/10-K/20240102_md5x27.pdf" in
  let empty_storage := {| Fetch.fs_files := ∅; Fetch.fs_denied := ∅ |} in
  let fetch1 := IrDownload.download_document env "AAPL" annual_report_link empty_storage in
  let fetch2 := IrDownload.download_document env "AAPL" annual_report_link fetch1.1 in
  let first :=
    (Tasks.store_results "AAPL" "ir" [Fetch.Downloaded path annual_report_meta] 0
       sample_store).1 in
  let second :=
    (Tasks.store_results "AAPL" "ir" [Fetch.SkippedExists path annual_report_meta] 0 first).1 in
  (fetch1.2 = Returned (Fetch.Downloaded path annual_report_meta) ∧
   fetch2.2 = Returned (Fetch.SkippedExists path annual_report_meta)) ∧
  (valid_source_type "ir" ∧ buckets_complete sample_store ∧
   truthy (doc_key annual_report_meta) = true ∧
   entries_for annual_report_meta (documents "AAPL" "ir" sample_store) = 0) ∧
  second = first ∧
  documents "AAPL" "ir" second = [annual_report_meta] ∧
  entries_for annual_report_meta (documents "AAPL" "ir" second) = 1.
Proof.
  intros env path empty_storage fetch1 fetch2 first second.
  assert (valid_source_type "ir") as Hv by (by left).
  assert (buckets_complete sample_store) as Hc by (by apply buckets_complete_empty).
  assert (truthy (doc_key annual_report_meta) = true) as Ht by reflexivity.
  assert (entries_for annual_report_meta (documents "AAPL" "ir" sample_store) = 0) as Hz
    by reflexivity.
  destruct (downloaded_outcomes_reach_store "AAPL" "ir" [] sample_store path path
              annual_report_meta Hv Hc Ht Hz) as (_ & Hfirst & Hsecond & Hone).
  split; [split; vm_compute; reflexivity |].
  split; [done |].
  split; [exact Hsecond |].
  split; [vm_compute; reflexivity | exact Hone].
Defined.

(** * Further properties of the code *)

(** ** Company records *)

Section CompanyRecordFacts.

Import CompanyRecords.

Lemma ascii_upper_idempotent (c : ascii) : ascii_upper (ascii_upper c) = ascii_upper c.
Proof. destruct c as [[] [] [] [] [] [] [] []]; reflexivity. Qed.

Lemma ascii_upper_lower (c : ascii) : ascii_upper (ascii_lower c) = ascii_upper c.
Proof. destruct c as [[] [] [] [] [] [] [] []]; reflexivity. Qed.

Lemma upper_idempotent (s : string) : upper (upper s) = upper s.
Proof.
  induction s as [| c s IH]; [done |]. unfold upper in *. simpl.
  by rewrite ascii_upper_idempotent, IH.
Qed.

Lemma upper_lower (s : string) : upper (lower s) = upper s.
Proof.
  induction s as [| c s IH]; [done |]. unfold upper, lower in *. simpl.
  by rewrite ascii_upper_lower, IH.
Qed.

End CompanyRecordFacts.

(** X1. Company records are keyed by the upper-cased ticker: after
    [add_company_info] under a ticker, [get_company_info] under any casing of
    it (as given, upper, lower) returns the data just stored, a ticker that
    differs beyond case sees what it saw before, and the documents and
    summaries are untouched. *)
Theorem company_info_round_trip (self : DataStore) (ticker other : string) (data : json) :
  let after := CompanyRecords.add_company_info ticker data self in
  CompanyRecords.get_company_info ticker after = Some data ∧
  CompanyRecords.get_company_info (upper ticker) after = Some data ∧
  CompanyRecords.get_company_info (lower ticker) after = Some data ∧
  CompanyRecords.get_company_info other after =
    (if bool_decide (upper other = upper ticker) then Some data
     else CompanyRecords.get_company_info other self) ∧
  document_metadata_store after = document_metadata_store self ∧
  summary_metadata_store after = summary_metadata_store self.
Proof.
  cbv zeta. unfold CompanyRecords.get_company_info, CompanyRecords.add_company_info. simpl.
  rewrite upper_idempotent, upper_lower, lookup_insert_eq.
  repeat split. case_bool_decide as He.
  - by rewrite He, lookup_insert_eq.
  - by rewrite lookup_insert_ne.
Qed.


(** ** The dedup invariant and lookup after insert *)

Section DedupInvariant.

Import Fetch Tasks.

Lemma present_keys_app (docs : list doc_meta) (m : doc_meta) :
  present_keys (docs ++ [m]) =
  present_keys docs ++ (if truthy (doc_key m) then [doc_key m] else []).
Proof.
  unfold present_keys. rewrite fmap_app, filter_app. f_equal.
  simpl. rewrite filter_cons. destruct (truthy (doc_key m)); by case_decide.
Qed.

Lemma present_keys_elem (docs : list doc_meta) (k : pyval) :
  k ∈ present_keys docs → ∃ e, e ∈ docs ∧ doc_key e = k.
Proof.
  unfold present_keys. intros Hin. apply list_elem_of_filter in Hin as [_ Hin].
  apply list_elem_of_fmap in Hin as (e & -> & He). by exists e.
Qed.

(** Appending a value that [is_duplicate] let through keeps the keys
    distinct. *)
Lemma present_keys_nodup_append (docs : list doc_meta) (m : doc_meta) :
  NoDup (present_keys docs) → is_duplicate docs m = false →
  NoDup (present_keys (docs ++ [m])).
Proof.
  intros Hnd Hdup. rewrite present_keys_app.
  destruct (truthy (doc_key m)) eqn:Ht; [| by rewrite app_nil_r].
  apply NoDup_app. split; [done |]. split; [| apply NoDup_singleton].
  intros k Hk Hm. apply list_elem_of_singleton in Hm as ->.
  apply present_keys_elem in Hk as (e & He & Hke).
  assert (is_duplicate docs m = true) as Hd; [| congruence].
  apply is_duplicate_true. split; [done |]. by exists e.
Qed.

Lemma no_duplicate_keys_empty (self : DataStore) :
  document_metadata_store self = ∅ → no_duplicate_keys self.
Proof. intros He T b st docs Hb. by rewrite He, lookup_empty in Hb. Qed.

Lemma no_duplicate_keys_add_document (self : DataStore) (ticker source_type : string)
    (m : doc_meta) :
  no_duplicate_keys self →
  no_duplicate_keys (add_document_metadata ticker source_type m self).1.
Proof.
  intros Hinv. unfold add_document_metadata.
  set (self' := match document_metadata_store self !! upper ticker with
                | Some _ => self | None => _ end).
  assert (no_duplicate_keys self') as Hinv'.
  { subst self'. destruct (document_metadata_store self !! upper ticker) eqn:Hb; [done |].
    intros T b st docs. simpl. rewrite lookup_insert. case_decide.
    - intros [= <-]. unfold new_bucket. rewrite lookup_insert. case_decide.
      + intros [= <-]. apply NoDup_nil_2.
      + rewrite lookup_insert. case_decide; [intros [= <-]; apply NoDup_nil_2 |].
        by rewrite lookup_empty.
    - apply Hinv. }
  destruct (negb _); [done |].
  destruct (document_metadata_store self' !! upper ticker) as [b |] eqn:Hb; [| done].
  destruct (b !! source_type) as [docs |] eqn:Hd; [| done].
  destruct (is_duplicate docs m) eqn:Hdup; [done |].
  intros T b' st docs'. simpl. rewrite lookup_insert. case_decide.
  - intros [= <-]. rewrite lookup_insert. case_decide.
    + intros [= <-]. apply present_keys_nodup_append; [| done]. by eapply Hinv'.
    + intros Hst. by eapply Hinv'.
  - apply Hinv'.
Qed.

Lemma no_duplicate_keys_store_results (ticker source_type : string)
    (results : list fetch_result) (n : nat) (data_store : DataStore) :
  no_duplicate_keys data_store →
  no_duplicate_keys (store_results ticker source_type results n data_store).1.
Proof.
  revert n data_store. induction results as [| res rest IH]; intros n data_store Hinv; [done |].
  simpl. destruct (stored_by_caller res); [| by apply IH].
  destruct (res_metadata res) as [metadata |]; [| done].
  pose proof (no_duplicate_keys_add_document data_store ticker source_type metadata Hinv) as H1.
  destruct (add_document_metadata ticker source_type metadata data_store) as [s' [e |]];
    [done | by apply IH].
Qed.

Lemma find_identified (ident : string) (docs : list doc_meta) (e : doc_meta) :
  e ∈ docs → identifies ident e = true →
  ∃ d, first_identified ident docs = Some d ∧ d ∈ docs ∧ identifies ident d = true.
Proof.
  intros He Hid. unfold first_identified.
  destruct (List.find (identifies ident) docs) as [d |] eqn:Hf.
  - apply find_some in Hf as [Hin Hd]. exists d. split; [done |].
    split; [by apply list_elem_of_In | done].
  - exfalso. assert (identifies ident e = false) as Hno; [| congruence].
    apply (find_none _ _ Hf e). by apply list_elem_of_In.
Qed.

Lemma doc_key_identifies (e : doc_meta) (k : string) :
  doc_key e = PStr k → identifies k e = true.
Proof.
  unfold doc_key, py_or, identifies. intros Hk.
  destruct (truthy (dict_get e "content_hash_sha256")).
  - rewrite Hk. rewrite (bool_decide_eq_true_2 (PStr k = PStr k)) by done.
    by rewrite orb_true_r.
  - rewrite Hk. rewrite (bool_decide_eq_true_2 (PStr k = PStr k)) by done.
    by rewrite orb_true_r.
Qed.

End DedupInvariant.

(** X2. The store keeps its invariant: when no two entries of any
    (ticker, category) list share a dedup key, the same holds after
    [add_document_metadata], whatever the ticker, the source type and the
    metadata, and after the whole loop by which the callers store the
    outcomes of a pass. *)
Theorem dedup_invariant_kept (self : DataStore) (ticker source_type : string) (m : doc_meta)
    (results : list Fetch.fetch_result) :
  no_duplicate_keys self →
  no_duplicate_keys (add_document_metadata ticker source_type m self).1 ∧
  no_duplicate_keys (Tasks.store_results ticker source_type results 0 self).1.
Proof.
  intros Hinv. split.
  - by apply no_duplicate_keys_add_document.
  - by apply no_duplicate_keys_store_results.
Qed.

Lemma dedup_invariant_kept_witness :
  let m1 := sample_meta (PStr "9f2c") (PStr "https://example.com/10k.pdf") in
  let m2 := sample_meta (PStr "9f2c") (PStr "https://mirror.example.com/annual.pdf") in
  let m3 := sample_meta PNone (PStr "https://example.com/q3.pdf") in
  let after :=
    (Tasks.store_results "aapl" "ir"
       [Fetch.Downloaded "a" m1; Fetch.Downloaded "b" m2; Fetch.Downloaded "c" m3] 0
       sample_store).1 in
  no_duplicate_keys sample_store ∧
  no_duplicate_keys after ∧
  documents "AAPL" "ir" after = [m1; m3].
Proof.
  intros m1 m2 m3 after.
  assert (no_duplicate_keys sample_store) as Hinv by (by apply no_duplicate_keys_empty).
  split; [exact Hinv |]. split.
  - exact (proj2 (dedup_invariant_kept sample_store "aapl" "ir" m1
                    [Fetch.Downloaded "a" m1; Fetch.Downloaded "b" m2; Fetch.Downloaded "c" m3]
                    Hinv)).
  - vm_compute. reflexivity.
Defined.

(** X3. A document can be looked up once it was offered to the store: after
    [add_document_metadata] with a value whose dedup key is the text [key],
    [get_document_metadata] by that key, with the category or without it,
    returns a recorded document that [key] identifies, be it the value
    itself or the earlier entry that made it a duplicate. *)
Theorem added_document_is_found (self : DataStore) (ticker source_type key : string)
    (m : doc_meta) :
  valid_source_type source_type →
  buckets_complete self →
  doc_key m = PStr key →
  key ≠ "" →
  let after := (add_document_metadata ticker source_type m self).1 in
  (∃ d, get_document_metadata ticker (Some source_type) (Some key) after = OneDoc d ∧
        d ∈ documents ticker source_type after ∧ identifies key d = true) ∧
  (∃ d, get_document_metadata ticker None (Some key) after = OneDoc d ∧
        identifies key d = true).
Proof.
  intros Hv Hc Hk Hne. cbv zeta.
  assert (truthy (doc_key m) = true) as Ht.
  { rewrite Hk. simpl. apply String.eqb_neq in Hne. by rewrite Hne. }
  pose proof (add_document_no_raise self ticker source_type m Hv Hc) as Hn.
  pose proof (documents_add_document self ticker source_type m Hv Hn) as Hd.
  pose proof (buckets_complete_add_document self ticker source_type m Hc) as Hc'.
  set (after := (add_document_metadata ticker source_type m self).1) in *.
  assert (∃ e, e ∈ documents ticker source_type after ∧ identifies key e = true)
    as (e & He & Hide).
  { rewrite Hd. destruct (is_duplicate _ m) eqn:Hdup.
    - apply is_duplicate_true in Hdup as (_ & e & He & Hke).
      exists e. split; [done |]. apply doc_key_identifies. by rewrite Hke.
    - exists m. split; [apply elem_of_app; right; by left |].
      by apply doc_key_identifies. }
  rewrite documents_unfold in He by done.
  assert (opt_truthy (Some key) = Some key) as Hok.
  { simpl. apply String.eqb_neq in Hne. by rewrite Hne. }
  assert (opt_truthy (Some source_type) = Some source_type) as Hst
    by (by destruct Hv as [-> | ->]).
  destruct (document_metadata_store after !! upper ticker) as [b |] eqn:Hb;
    [| by apply elem_of_nil in He].
  destruct (Hc' _ _ Hb) as [[ir Hir] [sec Hsec]].
  split.
  - unfold documents, get_document_metadata. rewrite Hb, Hst, Hok.
    destruct (b !! source_type) as [docs |] eqn:Hdocs; [| by apply elem_of_nil in He].
    simpl in He. destruct (find_identified key docs e He Hide) as (d & -> & Hin & Hid).
    exists d. by simpl.
  - unfold get_document_metadata. rewrite Hb, Hok. simpl.
    rewrite Hir, Hsec. simpl.
    destruct (first_identified key ir) as [d |] eqn:Hfi.
    + exists d. split; [done |]. unfold first_identified in Hfi.
      by apply find_some in Hfi as [_ ?].
    + assert (e ∈ sec) as Hes.
      { destruct Hv as [-> | ->].
        - rewrite Hir in He. simpl in He.
          destruct (find_identified key ir e He Hide) as (d & Hd' & _). congruence.
        - by rewrite Hsec in He. }
      destruct (find_identified key sec e Hes Hide) as (d & -> & _ & Hid). by exists d.
Qed.

Lemma added_document_is_found_witness :
  let m1 := sample_meta (PStr "9f2c") (PStr "https://example.com/10k.pdf") in
  let m2 := sample_meta (PStr "9f2c") (PStr "https://mirror.example.com/annual.pdf") in
  let self := (add_document_metadata "AAPL" "sec" m1 sample_store).1 in
  let after := (add_document_metadata "aapl" "sec" m2 self).1 in
  (valid_source_type "sec" ∧ buckets_complete self ∧ doc_key m2 = PStr "9f2c" ∧ "9f2c" ≠ "") ∧
  get_document_metadata "aapl" (Some "sec") (Some "9f2c") after = OneDoc m1 ∧
  ∃ d, get_document_metadata "aapl" None (Some "9f2c") after = OneDoc d ∧
       identifies "9f2c" d = true.
Proof.
  intros m1 m2 self after.
  assert (valid_source_type "sec") as Hv by (by right).
  assert (buckets_complete self) as Hc
    by (by apply buckets_complete_add_document, buckets_complete_empty).
  assert (doc_key m2 = PStr "9f2c") as Hk by reflexivity.
  assert ("9f2c" ≠ "") as Hne by discriminate.
  destruct (added_document_is_found self "aapl" "sec" "9f2c" m2 Hv Hc Hk Hne) as [_ Hany].
  split; [done |]. split; [vm_compute; reflexivity | exact Hany].
Defined.


(** ** The snapshot: round trip and frame *)

(** X4. Save then load is the identity on the store: on storage that
    accepts the write and the read, constructing a store from the snapshot
    that [save_to_json] wrote gives back the three record families (and the
    path) of the store that was saved, whatever was on disk before. *)
Theorem snapshot_round_trip (self : DataStore) (disk : Disk)
    (DATA_DIR storage_file_name now : string) :
  storage_file_path self = path_join DATA_DIR storage_file_name →
  storage_file_path self ∉ unwritable disk →
  storage_file_path self ∉ unreadable disk →
  DataStore_init DATA_DIR storage_file_name (save_to_json now self disk) = self ∧
  _load_from_json self (save_to_json now self disk) = self.
Proof.
  intros Hp Hw Hr. destruct self as [c d s p]. simpl in *. subst p.
  unfold DataStore_init, _load_from_json, save_to_json, write_snapshot, read_snapshot. simpl.
  rewrite (bool_decide_eq_false_2 _ Hw). simpl.
  by rewrite lookup_insert_eq, (bool_decide_eq_false_2 _ Hr).
Qed.

Lemma snapshot_round_trip_witness :
  let m := sample_meta (PStr "9f2c") (PStr "https://example.com/10k.pdf") in
  let self := (add_document_metadata "aapl" "ir" m sample_store).1 in
  let disk :=
    {| files := {[ "/srv/data/data_store.json" := Undecodable "{" ]};
       unreadable := ∅; unwritable := ∅ |} in
  (storage_file_path self = path_join "/srv/data" "data_store.json" ∧
   (storage_file_path self ∉ unwritable disk) ∧ (storage_file_path self ∉ unreadable disk)) ∧
  DataStore_init "/srv/data" "data_store.json" (save_to_json "2024-01-02T03:04:05" self disk) =
    self.
Proof.
  intros m self disk.
  assert (storage_file_path self = path_join "/srv/data" "data_store.json") as Hp
    by reflexivity.
  assert (storage_file_path self ∉ unwritable disk) as Hw by apply not_elem_of_empty.
  assert (storage_file_path self ∉ unreadable disk) as Hr by apply not_elem_of_empty.
  split; [done |].
  exact (proj1 (snapshot_round_trip self disk "/srv/data" "data_store.json"
                  "2024-01-02T03:04:05" Hp Hw Hr)).
Defined.




(** ** The company row and the resolver *)

Section ResolverFacts.

Import Companies SecFetcher CompanyLookup.

Lemma filter_first_match {A} (p : A → bool) (l : list A) :
  match List.filter p l with
  | first :: _ =>
      ∃ before after, l = before ++ first :: after ∧ p first = true ∧
                      Forall (λ x, p x = false) before
  | [] => Forall (λ x, p x = false) l
  end.
Proof.
  induction l as [| x l IH]; simpl; [by constructor |].
  destruct (p x) eqn:Hx.
  - exists [], l. by repeat split.
  - destruct (List.filter p l) as [| first rest].
    + by constructor.
    + destruct IH as (before & after & -> & Hp & Hb).
      exists (x :: before), after. repeat split; [done |]. by constructor.
Qed.

Lemma filing_at_requested (recent : json) (form_types : list string) (i : nat)
    (info : filing_info) :
  filing_at recent form_types i = Returned (Some info) →
  json_in (form info) form_types = true.
Proof.
  unfold filing_at.
  destruct (bind (getitem recent "form") _) as [form_i | e]; simpl; [| done].
  destruct (json_in form_i form_types) eqn:Hin; [| done].
  repeat match goal with
         | |- context [bind (bind ?x ?f) _] => destruct (bind x f); simpl; [| done]
         end.
  by intros [= <-].
Qed.

Lemma filings_loop_bounded (recent : json) (form_types : list string) (count : Z)
    (indices : list nat) (collected result : list filing_info) :
  filings_loop recent form_types count indices collected = Returned result →
  Forall (λ info, json_in (form info) form_types = true) collected →
  (Z.of_nat (length collected) < count)%Z ∨ collected = [] →
  Forall (λ info, json_in (form info) form_types = true) result ∧
  length result ≤ collected_at_most count.
Proof.
  unfold collected_at_most. revert collected.
  induction indices as [| i rest IH]; intros collected; simpl.
  - intros [= <-] Hf Hb. split; [done |]. destruct Hb as [Hb | ->]; simpl; lia.
  - destruct (filing_at recent form_types i) as [[info |] | e] eqn:Hat.
    + pose proof (filing_at_requested _ _ _ _ Hat) as Hreq.
      case_match eqn:Hc.
      * intros [= <-] Hf Hb. split; [apply Forall_app; split; [done | by constructor] |].
        rewrite length_app. simpl. destruct Hb as [Hb | ->]; simpl; lia.
      * intros Hl Hf Hb. apply (IH _ Hl).
        -- apply Forall_app. split; [done | by constructor].
        -- left. apply Z.leb_gt in Hc. done.
    + apply IH.
    + destruct e; try done.
      intros [= <-] Hf Hb. split; [done |]. destruct Hb as [Hb | ->]; simpl; lia.
Qed.

Lemma recent_filings_of_bounded (submissions_data : json) (form_types : list string)
    (count : Z) (result : list filing_info) :
  recent_filings_of submissions_data form_types count = Returned result →
  Forall (λ info, json_in (form info) form_types = true) result ∧
  length result ≤ collected_at_most count.
Proof.
  assert (Forall (λ info, json_in (form info) form_types = true) [] ∧
          length (@nil filing_info) ≤ collected_at_most count) as Hnil.
  { split; [by constructor | simpl; lia]. }
  unfold recent_filings_of.
  destruct (py_in "error" submissions_data) as [[] |]; simpl; [by intros [= <-] | | done].
  destruct (py_in "filings" submissions_data) as [[] |]; simpl; [| by intros [= <-] | done].
  destruct (getitem submissions_data "filings") as [filings |]; simpl; [| done].
  destruct (py_in "recent" filings) as [[] |]; simpl; [| by intros [= <-] | done].
  destruct (getitem filings "recent") as [recent |]; simpl; [| done].
  destruct (py_get recent "accessionNumber" (JArr [])) as [numbers |]; simpl; [| done].
  destruct (py_len numbers) as [num |]; simpl; [| done].
  intros Hl. apply (filings_loop_bounded _ _ _ _ _ _ Hl); [by constructor | by right].
Qed.

(** A reply that is not a JSON body becomes a dictionary with an "error"
    member. *)
Lemma make_request_error (api : string → api_reply) (url : string) :
  (∀ body, api url ≠ ApiJson body) →
  py_in "error" (_make_request api url) = Returned true.
Proof.
  intros Hfail. unfold _make_request.
  destruct (api url) as [body | | | | |]; [by destruct (Hfail body) | | | | |]; reflexivity.
Qed.

End ResolverFacts.

(** X6. [get_company_by_ticker] returns the first row of the table whose
    ticker equals the given one up to case, and [None] exactly when no row
    does; [get_company_cik] answers for the same row, with the text of its
    [cik] cell padded to ten characters; both ignore the case of the ticker
    they are given. *)
Theorem company_lookup_first_match (df : list Companies.row) (ticker_symbol : string) :
  match CompanyLookup.get_company_by_ticker df ticker_symbol with
  | Some r =>
      (∃ before after,
         df = before ++ r :: after ∧
         Forall (λ r', upper (Companies.ticker r') ≠ upper ticker_symbol) before) ∧
      upper (Companies.ticker r) = upper ticker_symbol ∧
      Companies.get_company_cik df ticker_symbol =
        Some (zfill 10 (Companies.cell_str (Companies.cik r)))
  | None =>
      Forall (λ r', upper (Companies.ticker r') ≠ upper ticker_symbol) df ∧
      Companies.get_company_cik df ticker_symbol = None
  end ∧
  CompanyLookup.get_company_by_ticker df (lower ticker_symbol) =
    CompanyLookup.get_company_by_ticker df ticker_symbol ∧
  Companies.get_company_cik df (upper ticker_symbol) =
    Companies.get_company_cik df ticker_symbol.
Proof.
  split.
  - unfold CompanyLookup.get_company_by_ticker, Companies.get_company_cik.
    pose proof (filter_first_match
      (λ r, String.eqb (upper (Companies.ticker r)) (upper ticker_symbol)) df) as Hf.
    destruct (List.filter _ df) as [| first rest].
    + split; [| done]. eapply Forall_impl; [exact Hf |].
      intros r Hr. by apply String.eqb_neq.
    + destruct Hf as (before & after & -> & Hp & Hb). split; [| split].
      * exists before, after. split; [done |]. eapply Forall_impl; [exact Hb |].
        intros r Hr. by apply String.eqb_neq.
      * by apply String.eqb_eq.
      * done.
  - unfold CompanyLookup.get_company_by_ticker, Companies.get_company_cik.
    by rewrite upper_lower, upper_idempotent.
Qed.

(** X7. An upstream failure is an empty answer, not an exception: when the
    ticker resolves and the reply to the submissions request is anything
    but a JSON body (HTTP error status, connection error, timeout, other
    request error, a body that is not JSON), [get_recent_filings_metadata]
    returns the empty list after that one request. *)
Theorem upstream_failure_yields_no_filings (df : list Companies.row)
    (api : string → SecFetcher.api_reply) (ticker_symbol cik_str : string)
    (form_types : option (list string)) (count : Z) :
  Companies.get_company_cik df ticker_symbol = Some cik_str →
  (∀ body, api ("https://data.sec.gov/submissions/CIK" +:+ cik_str +:+ ".json") ≠
           SecFetcher.ApiJson body) →
  SecFetcher.get_recent_filings_metadata df api ticker_symbol form_types count =
    (Returned [], ["https://data.sec.gov/submissions/CIK" +:+ cik_str +:+ ".json"]).
Proof.
  intros Hcik Hfail.
  unfold SecFetcher.get_recent_filings_metadata, SecFetcher.get_company_submissions.
  rewrite Hcik, (get_company_cik_nonempty _ _ _ Hcik). simpl.
  unfold SecFetcher.recent_filings_of. by rewrite (make_request_error _ _ Hfail).
Qed.

Lemma upstream_failure_yields_no_filings_witness :
  let api := λ _ : string, SecFetcher.ApiTimeout "Read timed out. (read timeout=None)" in
  (Companies.get_company_cik sample_universe "wmt" = Some "0000104169" ∧
   ∀ body, api ("https://data.sec.gov/submissions/CIK" +:+ "0000104169" +:+ ".json") ≠
           SecFetcher.ApiJson body) ∧
  SecFetcher.get_recent_filings_metadata sample_universe api "wmt" None 10 =
    (Returned [], ["https://data.sec.gov/submissions/CIK0000104169.json"]).
Proof.
  intros api.
  assert (Companies.get_company_cik sample_universe "wmt" = Some "0000104169") as Hcik
    by (vm_compute; reflexivity).
  assert (∀ body, api ("https://data.sec.gov/submissions/CIK" +:+ "0000104169" +:+ ".json") ≠
                  SecFetcher.ApiJson body) as Hfail by (intros body; discriminate).
  split; [done |].
  exact (upstream_failure_yields_no_filings sample_universe api "wmt" "0000104169" None 10
           Hcik Hfail).
Defined.

(** X8. Whatever the payload, when [get_recent_filings_metadata] returns a
    list, every filing in it has one of the requested forms (the three
    default forms when none are given), the list is no longer than [count],
    or than one when [count] is below one, and at most one request was
    made. *)
Theorem resolver_result_bounded (df : list Companies.row)
    (api : string → SecFetcher.api_reply) (ticker_symbol : string)
    (form_types : option (list string)) (count : Z)
    (result : list SecFetcher.filing_info) (requested : list string) :
  SecFetcher.get_recent_filings_metadata df api ticker_symbol form_types count =
    (Returned result, requested) →
  Forall (λ info,
            SecFetcher.json_in (SecFetcher.form info)
              (default SecFetcher.default_form_types form_types) = true) result ∧
  length result ≤ collected_at_most count ∧
  length requested ≤ 1.
Proof.
  unfold SecFetcher.get_recent_filings_metadata, SecFetcher.get_company_submissions.
  destruct (SecFetcher.cik_missing _); simpl; intros [= Hres <-].
  - subst result. split; [by constructor |]. split; simpl; lia.
  - apply recent_filings_of_bounded in Hres as [Hf Hl]. split; [done |]. split; [done |].
    simpl. lia.
Qed.

Lemma resolver_result_bounded_witness :
  ∃ result requested,
    SecFetcher.get_recent_filings_metadata sample_universe (sample_api sample_recent) "WMT"
      (Some ["10-K"; "4"]) 0 = (Returned result, requested) ∧
    length result ≤ 1 ∧
    Forall (λ info, SecFetcher.json_in (SecFetcher.form info) ["10-K"; "4"] = true) result.
Proof.
  destruct (SecFetcher.get_recent_filings_metadata sample_universe (sample_api sample_recent)
              "WMT" (Some ["10-K"; "4"]) 0) as [[result | e] requested] eqn:Hrun.
  - exists result, requested. split; [reflexivity |].
    destruct (resolver_result_bounded sample_universe (sample_api sample_recent) "WMT"
                (Some ["10-K"; "4"]) 0 result requested Hrun) as (Hf & Hl & _).
    split; [exact Hl | exact Hf].
  - vm_compute in Hrun. discriminate Hrun.
Defined.

(** ** The pass over the recent filings *)

Section FilingPass.

Import Companies SecFetcher Fetch SecDownload SecPass.

Lemma attempt_filing_download_outcome (env : Env) (ticker_symbol cik_str accession_number
    document_filename form_type : string) (fs fs' : FileSystem) (res : fetch_result) :
  attempt_filing_download env ticker_symbol cik_str accession_number document_filename
    form_type fs = (fs', Returned res) →
  ∃ metadata,
    res = Downloaded (filing_path env ticker_symbol accession_number form_type document_filename)
            metadata.
Proof.
  unfold attempt_filing_download, fs_bind, request.
  destruct (http_get env _) as [err | code err | content_type chunks cut]; simpl; [done | done |].
  unfold write_chunks. case_bool_decide; [done |].
  destruct cut; [done |].
  unfold read_bytes. case_bool_decide; [done |].
  destruct (fs_files _ !! _) as [[bytes | metadata] |]; [| | done];
    unfold write_json; (case_bool_decide; [done |]); unfold ret;
    intros [= <- <-]; eauto.
Qed.

Lemma download_filing_document_outcome (env : Env) (df : list row)
    (ticker_symbol accession_number document_filename form_type : string)
    (fs fs' : FileSystem) (res : fetch_result) :
  cik_missing (get_company_cik df ticker_symbol) = false →
  download_filing_document env df ticker_symbol accession_number document_filename form_type fs =
    (fs', Returned res) →
  outcome_at (filing_path env ticker_symbol accession_number form_type document_filename)
             (archive_url (default "" (get_company_cik df ticker_symbol)) accession_number
                document_filename) res.
Proof.
  intros Hcik. unfold download_filing_document. rewrite Hcik.
  unfold fs_bind, makedirs. case_bool_decide; [done |].
  destruct (existing_metadata _ fs) as [fs1 [[metadata |] | e]]; [| | done].
  - unfold ret. by intros [= <- <-].
  - unfold try_except.
    destruct (attempt_filing_download _ _ _ _ _ _ fs1) as [fs2 [res' | e]] eqn:Ha.
    + apply attempt_filing_download_outcome in Ha as [metadata ->]. by intros [= <- <-].
    + destruct e; unfold download_failed, ret; by intros [= <- <-].
Qed.

Lemma download_filing_document_of_outcome (env : Env) (df : list row) (ticker_symbol : string)
    (filing : filing_info) (fs fs' : FileSystem) (res : fetch_result) :
  cik_missing (get_company_cik df ticker_symbol) = false →
  download_filing_document_of env df ticker_symbol (accessionNumber filing)
    (primaryDocument filing) (form filing) fs = (fs', Returned res) →
  outcome_of_filing env (default "" (get_company_cik df ticker_symbol)) ticker_symbol filing res.
Proof.
  intros Hcik. unfold download_filing_document_of, outcome_of_filing. rewrite Hcik.
  destruct (accessionNumber filing) as [| | | acc_no | |]; try done;
    destruct (form filing) as [| | | form_name | |]; try done.
  destruct (primaryDocument filing) as [| | | doc_name | |];
    try (unfold fs_bind, makedirs, raise; case_bool_decide; done).
  intros Hd. exists acc_no, doc_name, form_name. repeat split.
  by eapply download_filing_document_outcome.
Qed.

Lemma filings_pass_primary_only (env : Env) (df : list row) (api : string → api_reply)
    (ticker_symbol : string) (filings : list filing_info) (download_results : list fetch_result)
    (requested : list string) (fs fs' : FileSystem) (results : list fetch_result)
    (requested' : list string) :
  cik_missing (get_company_cik df ticker_symbol) = false →
  filings_pass env df api ticker_symbol false filings download_results requested fs =
    (fs', Returned (results, requested')) →
  ∃ outcomes,
    results = download_results ++ outcomes ∧
    Forall2 (outcome_of_filing env (default "" (get_company_cik df ticker_symbol)) ticker_symbol)
      filings outcomes ∧
    requested' = requested.
Proof.
  intros Hcik. revert download_results fs.
  induction filings as [| filing rest IH]; intros download_results fs; simpl.
  - unfold ret. intros [= <- <- <-]. exists []. by rewrite app_nil_r.
  - unfold fs_bind at 1.
    destruct (download_filing_document_of _ _ _ _ _ _ fs) as [fs1 [res | e]] eqn:Hd; [| done].
    intros Hrest. apply IH in Hrest as (outcomes & -> & Hall & ->).
    exists (res :: outcomes). split; [by rewrite <- app_assoc |]. split; [| done].
    constructor; [| done]. by eapply download_filing_document_of_outcome.
Qed.

End FilingPass.

(** X9. With [download_all_docs_in_filing] off, the pass
    [download_recent_filings_documents] returns one outcome for each filing
    the resolver listed, in the resolver's order: a successful outcome
    names the file <RAW_DATA_DIR>/<TICKER>/sec/<form>/<accession number
    without dashes>/<primary document>, a failed one the archive address
    of that document, and none is the outcome for an unknown company. So
    there are at most [count] outcomes (one when [count] is below one),
    and the only request to the API is the resolver's. *)
Theorem primary_only_pass_one_outcome_per_filing (env : Fetch.Env) (df : list Companies.row)
    (api : string → SecFetcher.api_reply) (ticker_symbol : string)
    (form_types : option (list string)) (count : Z) (fs fs' : Fetch.FileSystem)
    (results : list Fetch.fetch_result) (requested : list string) :
  SecPass.download_recent_filings_documents env df api ticker_symbol form_types count false fs =
    (fs', Returned (results, requested)) →
  ∃ filings,
    SecFetcher.get_recent_filings_metadata df api ticker_symbol
      (Some (default SecFetcher.default_form_types form_types)) count =
      (Returned filings, requested) ∧
    Forall2 (outcome_of_filing env (default "" (Companies.get_company_cik df ticker_symbol))
               ticker_symbol) filings results ∧
    length results ≤ collected_at_most count ∧
    length requested ≤ 1.
Proof.
  unfold SecPass.download_recent_filings_documents.
  destruct (SecFetcher.get_recent_filings_metadata _ _ _ _ _) as [[filings | e] requested0]
    eqn:Hmeta; [| done].
  pose proof (resolver_result_bounded _ _ _ _ _ _ _ Hmeta) as (_ & Hlen & Hreq).
  destruct filings as [| filing rest].
  - intros [= <- <- <-]. exists []. repeat split; [constructor | simpl; lia | done].
  - assert (SecFetcher.cik_missing (Companies.get_company_cik df ticker_symbol) = false) as Hcik.
    { revert Hmeta. unfold SecFetcher.get_recent_filings_metadata,
        SecFetcher.get_company_submissions.
      destruct (SecFetcher.cik_missing _); [| done]. simpl. intros [=]. }
    intros Hpass.
    apply (filings_pass_primary_only _ _ _ _ _ _ _ _ _ _ _ Hcik) in Hpass
      as (outcomes & -> & Hall & ->).
    exists (filing :: rest). simpl. split; [done |]. split; [done |].
    split; [| done]. apply Forall2_length in Hall. simpl in Hall, Hlen. lia.
Qed.

Lemma primary_only_pass_one_outcome_per_filing_witness :
  let env := sample_env (Fetch.Body (Some "text/html") ["<html>"; "10-K</html>"] None) in
  ∃ fs' results requested filings,
    SecPass.download_recent_filings_documents env sample_universe (sample_api sample_recent)
      "WMT" None 2 false empty_storage = (fs', Returned (results, requested)) ∧
    Forall2 (outcome_of_filing env "0000104169" "WMT") filings results ∧
    length results = 1 ∧
    requested = ["https://data.sec.gov/submissions/CIK0000104169.json"].
Proof.
  intros env.
  destruct (SecPass.download_recent_filings_documents env sample_universe
              (sample_api sample_recent) "WMT" None 2 false empty_storage)
    as [fs' [[results requested] | e]] eqn:Hrun.
  - destruct (primary_only_pass_one_outcome_per_filing env sample_universe
                (sample_api sample_recent) "WMT" None 2 empty_storage fs' results requested Hrun)
      as (filings & Hmeta & Hall & _ & _).
    exists fs', results, requested, filings. split; [reflexivity |]. split; [exact Hall |].
    vm_compute in Hrun. injection Hrun as _ Hres Hreq. subst results requested.
    split; reflexivity.
  - vm_compute in Hrun. discriminate Hrun.
Defined.

(** X10. For a ticker that no row of the company table carries, the pass
    over the filings, in either mode, returns no outcome, makes no request
    and leaves the storage as it was. *)
Theorem untracked_ticker_pass_does_nothing (env : Fetch.Env) (df : list Companies.row)
    (api : string → SecFetcher.api_reply) (ticker_symbol : string)
    (form_types : option (list string)) (count : Z) (download_all_docs_in_filing : bool)
    (fs : Fetch.FileSystem) :
  Forall (λ r, upper (Companies.ticker r) ≠ upper ticker_symbol) df →
  SecPass.download_recent_filings_documents env df api ticker_symbol form_types count
    download_all_docs_in_filing fs = (fs, Returned ([], [])).
Proof.
  intros Habsent.
  assert (Companies.get_company_cik df ticker_symbol = None) as Hcik.
  { unfold Companies.get_company_cik.
    replace (List.filter _ df) with (@nil Companies.row); [done |].
    symmetry. induction Habsent as [| r rest Hr _ IH]; simpl; [done |].
    apply String.eqb_neq in Hr. by rewrite Hr. }
  unfold SecPass.download_recent_filings_documents, SecFetcher.get_recent_filings_metadata,
    SecFetcher.get_company_submissions.
  by rewrite Hcik.
Qed.

Lemma untracked_ticker_pass_does_nothing_witness :
  let env := sample_env (Fetch.NoResponse "unreachable") in
  Forall (λ r, upper (Companies.ticker r) ≠ upper "tsla") sample_universe ∧
  SecPass.download_recent_filings_documents env sample_universe (sample_api sample_recent)
    "tsla" (Some ["10-K"]) 5 true empty_storage = (empty_storage, Returned ([], [])).
Proof.
  intros env.
  assert (Forall (λ r, upper (Companies.ticker r) ≠ upper "tsla") sample_universe) as Habsent
    by (repeat constructor; discriminate).
  split; [exact Habsent |].
  exact (untracked_ticker_pass_does_nothing env sample_universe (sample_api sample_recent)
           "tsla" (Some ["10-K"]) 5 true empty_storage Habsent).
Defined.

(** ** What a download leaves on the storage *)

Section DownloadFacts.

Import IrScraper Companies SecFetcher Fetch IrDownload SecDownload.

Lemma existing_metadata_no_sidecar (filepath : string) (fs : FileSystem) :
  fs_files fs !! (filepath +:+ ".meta.json") = None →
  existing_metadata filepath fs = (fs, Returned None).
Proof.
  intros Hside. unfold existing_metadata, fs_bind, path_exists.
  case_bool_decide; [| done]. simpl. rewrite Hside.
  by rewrite (bool_decide_eq_false_2 (is_Some None)) by (by intros [? ?]).
Qed.

Lemma existing_metadata_sidecar (filepath : string) (fs : FileSystem) (document : artifact)
    (metadata : doc_meta) :
  fs_denied fs = ∅ →
  fs_files fs !! filepath = Some document →
  fs_files fs !! (filepath +:+ ".meta.json") = Some (MetaJson metadata) →
  existing_metadata filepath fs = (fs, Returned (Some metadata)).
Proof.
  intros Hden Hdoc Hside. unfold existing_metadata, fs_bind, path_exists.
  rewrite Hdoc, (bool_decide_eq_true_2 (is_Some (Some _))) by eauto. simpl.
  rewrite Hside, (bool_decide_eq_true_2 (is_Some (Some _))) by eauto. simpl.
  unfold read_json. by rewrite nothing_denied, Hside.
Qed.

(** The three storage steps of an attempt whose body came whole: the
    bytes at [filepath], read back for the digest, then the sidecar. *)
Lemma stored_with_sidecar (json_text : doc_meta → string) (filepath : string)
    (chunks : list string) (describe : string → doc_meta) (fs : FileSystem) :
  fs_denied fs = ∅ →
  let content := fold_right String.append "" chunks in
  let fs1 := put_file (filepath +:+ ".meta.json") (MetaJson (describe content))
               (put_file filepath (Blob content) fs) in
  fs_bind (write_chunks filepath chunks None) (λ _,
    fs_bind (read_bytes json_text filepath) (λ content,
      fs_bind (write_json (filepath +:+ ".meta.json") (describe content)) (λ _,
        ret (Downloaded filepath (describe content))))) fs =
  (fs1, Returned (Downloaded filepath (describe content))).
Proof.
  intros Hden. unfold fs_bind, write_chunks, read_bytes, write_json, ret.
  rewrite nothing_denied by done. simpl.
  rewrite nothing_denied by done. rewrite lookup_insert_eq.
  by rewrite nothing_denied by done.
Qed.

Lemma put_twice_lookup (filepath : string) (document sidecar : artifact) (fs : FileSystem) :
  let fs1 := put_file (filepath +:+ ".meta.json") sidecar (put_file filepath document fs) in
  fs_denied fs1 = fs_denied fs ∧
  fs_files fs1 !! filepath = Some document ∧
  fs_files fs1 !! (filepath +:+ ".meta.json") = Some sidecar ∧
  ∀ other, other ≠ filepath → other ≠ filepath +:+ ".meta.json" →
           fs_files fs1 !! other = fs_files fs !! other.
Proof.
  simpl. split; [done |]. split; [| split].
  - rewrite lookup_insert_ne by apply sidecar_path_differs. apply lookup_insert_eq.
  - apply lookup_insert_eq.
  - intros other H1 H2. by rewrite !lookup_insert_ne by done.
Qed.




End DownloadFacts.





(** ** What an investor-relations download leaves on the storage *)

Section IrDownloadFacts.

Import IrScraper Fetch IrDownload.

Lemma existing_metadata_no_file (filepath : string) (fs : FileSystem) :
  fs_files fs !! filepath = None →
  existing_metadata filepath fs = (fs, Returned None).
Proof.
  intros Hdoc. unfold existing_metadata, fs_bind, path_exists. rewrite Hdoc.
  by rewrite (bool_decide_eq_false_2 (is_Some None)) by (by intros [? ?]).
Qed.

(** [download_document] up to the [try], when the directory can be made
    and the skip test finds no file or no sidecar. *)
Lemma download_document_attempts (env : Env) (ticker_symbol : string) (doc_info : link)
    (fs : FileSystem) :
  fs_denied fs = ∅ →
  fs_files fs !! target_path env ticker_symbol doc_info = None ∨
  fs_files fs !! (target_path env ticker_symbol doc_info +:+ ".meta.json") = None →
  download_document env ticker_symbol doc_info fs =
  try_except (attempt_download env ticker_symbol doc_info) (download_failed (link_url doc_info))
    fs.
Proof.
  intros Hden Habsent. unfold download_document.
  unfold fs_bind at 1, makedirs. rewrite nothing_denied by done.
  unfold fs_bind at 1.
  destruct Habsent as [Hdoc | Hside].
  - by rewrite existing_metadata_no_file.
  - by rewrite existing_metadata_no_sidecar.
Qed.

Lemma download_document_whole_body (env : Env) (ticker_symbol : string) (doc_info : link)
    (content_type : option string) (chunks : list string) :
  let filepath := stored_path env ticker_symbol doc_info content_type in
  let content := fold_right String.append "" chunks in
  http_get env (link_url doc_info) = Body content_type chunks None →
  ∃ metadata,
    (fingerprint metadata = PStr (sha256_hexdigest env content) ∧
     source_url metadata = PStr (link_url doc_info) ∧
     dict_get metadata "filename" = PStr (stored_name env doc_info content_type) ∧
     dict_get metadata "content_type_header" = PStr (lower (default "" content_type)) ∧
     dict_get metadata "detected_document_type" = PStr (link_type doc_info)) ∧
    ∀ fs,
      fs_denied fs = ∅ →
      fs_files fs !! target_path env ticker_symbol doc_info = None ∨
      fs_files fs !! (target_path env ticker_symbol doc_info +:+ ".meta.json") = None →
      download_document env ticker_symbol doc_info fs =
        (put_file (filepath +:+ ".meta.json") (MetaJson metadata)
           (put_file filepath (Blob content) fs),
         Returned (Downloaded filepath metadata)).
Proof.
  intros filepath content Hget.
  set (describe := λ content : string,
    (<["url" := PStr (link_url doc_info)]> (
     <["original_link_text" := PStr (link_text doc_info)]> (
     <["detected_document_type" := PStr (link_type doc_info)]> (
     <["content_type_header" := PStr (lower (default "" content_type))]> (
     <["downloaded_at" := PStr (now_isoformat env)]> (
     <["source_page" := PStr (link_source_page doc_info)]> (
     <["content_hash_sha256" := PStr (sha256_hexdigest env content)]> (
     <["filename" := PStr (stored_name env doc_info content_type)]> (
     <["filepath_relative" := PStr (relpath env filepath (BASE_DIR env))]> ∅)))))))) : doc_meta)).
  exists (describe content). split; [repeat split |].
  intros fs Hden Habsent.
  rewrite download_document_attempts by done.
  unfold try_except, attempt_download.
  unfold fs_bind at 1, request. rewrite Hget. simpl.
  fold (stored_name env doc_info content_type).
  fold (stored_path env ticker_symbol doc_info content_type). fold filepath. fold content.
  pose proof (stored_with_sidecar (json_dumps env) filepath chunks describe fs Hden) as Hstored.
  cbv zeta in Hstored. fold content in Hstored. subst describe.
  cbv beta in Hstored |- *. by rewrite Hstored.
Qed.

End IrDownloadFacts.

Section PathFacts.

Import IrScraper Fetch IrDownload.

Lemma append_inj_l (s a b : string) : s +:+ a = s +:+ b → a = b.
Proof. apply (inj (String.append s)). Qed.

Lemma append_assoc (a b c : string) : (a +:+ b) +:+ c = a +:+ (b +:+ c).
Proof.
  induction a as [| x a IH]; [done |].
  change (String x ((a +:+ b) +:+ c) = String x (a +:+ (b +:+ c))). by f_equal.
Qed.

Lemma prefix_empty (s : string) : String.prefix "" s = true.
Proof. by destruct s. Qed.

Lemma startswith_cons (p : ascii) (c : ascii) (r : string) :
  startswith (String p "") (String c r) = bool_decide (p = c).
Proof.
  unfold startswith. cbn [String.prefix].
  destruct (Ascii.ascii_dec p c) as [-> | Hne].
  - by rewrite prefix_empty, bool_decide_eq_true_2.
  - by rewrite bool_decide_eq_false_2.
Qed.

Lemma path_join_inj (d x y : string) :
  startswith "/" x = startswith "/" y → path_join d x = path_join d y → x = y.
Proof.
  unfold path_join. intros <-. destruct (startswith "/" x); [done |].
  destruct (_ || _).
  - apply append_inj_l.
  - intros H. apply append_inj_l in H. by apply append_inj_l in H.
Qed.

Lemma path_join_app (d x s : string) :
  x ≠ "" → path_join d (x +:+ s) = path_join d x +:+ s.
Proof.
  intros Hx. unfold path_join.
  assert (startswith "/" (x +:+ s) = startswith "/" x) as ->.
  { destruct x as [| c r]; [done |].
    change (String c r +:+ s) with (String c (r +:+ s)). by rewrite !startswith_cons. }
  destruct (startswith "/" x); [done |].
  destruct (_ || _); by rewrite ?append_assoc.
Qed.

(** Two names with the same base, whose extensions begin with a dot, are
    joined to a directory in the same way. *)
Lemma startswith_same_base (base e1 e2 : string) :
  startswith "." e1 = true → startswith "." e2 = true →
  startswith "/" (base +:+ e1) = startswith "/" (base +:+ e2).
Proof.
  destruct base as [| c r].
  - change ("" +:+ e1) with e1. change ("" +:+ e2) with e2.
    destruct e1 as [| c1 r1], e2 as [| c2 r2]; try done.
    rewrite !startswith_cons. intros H1 H2.
    apply bool_decide_eq_true_1 in H1 as <-. apply bool_decide_eq_true_1 in H2 as <-. done.
  - change (String c r +:+ e1) with (String c (r +:+ e1)).
    change (String c r +:+ e2) with (String c (r +:+ e2)). by rewrite !startswith_cons.
Qed.

Lemma refined_extension_range (file_extension content_type : string) :
  refined_extension file_extension content_type = file_extension ∨
  file_extension = ".html" ∧
  refined_extension file_extension content_type ∈ [".pdf"; ".xlsx"; ".pptx"; ".docx"; ".txt"].
Proof.
  unfold refined_extension.
  destruct (String.eqb file_extension ".html") eqn:Hhtml; [| by left].
  apply String.eqb_eq in Hhtml.
  repeat match goal with
         | |- context [if ?c then _ else _] => destruct c
         end;
    first [by left | right; split; [done |]; repeat first [by left | right]].
Qed.

(** When the response refines the extension, the stored file and its
    sidecar stand at other paths than the one the skip test looks at. *)
Lemma refined_path_differs (env : Env) (ticker_symbol : string) (doc_info : link)
    (content_type : option string) :
  refined_extension (initial_extension (link_url doc_info)) (lower (default "" content_type)) ≠
    initial_extension (link_url doc_info) →
  stored_path env ticker_symbol doc_info content_type ≠ target_path env ticker_symbol doc_info ∧
  stored_path env ticker_symbol doc_info content_type +:+ ".meta.json" ≠
    target_path env ticker_symbol doc_info.
Proof.
  intros Hrefined.
  destruct (refined_extension_range (initial_extension (link_url doc_info))
              (lower (default "" content_type))) as [Heq | [Hhtml Hin]]; [done |].
  unfold stored_path, stored_name, target_path.
  remember (refined_extension _ _) as ext eqn:Hext. clear Hext.
  rewrite Hhtml in *. clear Hhtml.
  remember (filename_base env doc_info) as base eqn:Hbase. clear Hbase.
  remember (company_dir env ticker_symbol doc_info) as dir eqn:Hdir. clear Hdir.
  split.
  - intros Heq. apply path_join_inj in Heq.
    + apply append_inj_l in Heq. done.
    + apply startswith_same_base; [| done].
      repeat (apply elem_of_cons in Hin as [-> | Hin]; [done |]). by apply elem_of_nil in Hin.
  - rewrite <- path_join_app.
    2: { intros Hempty. repeat (apply elem_of_cons in Hin as [-> | Hin];
           [by destruct base |]). by apply elem_of_nil in Hin. }
    intros Heq. apply path_join_inj in Heq.
    + rewrite append_assoc in Heq. apply append_inj_l in Heq.
      repeat (apply elem_of_cons in Hin as [-> | Hin]; [done |]). by apply elem_of_nil in Hin.
    + rewrite append_assoc. apply startswith_same_base; [| done].
      repeat (apply elem_of_cons in Hin as [-> | Hin]; [done |]). by apply elem_of_nil in Hin.
Qed.

Lemma put_twice_again (filepath : string) (document sidecar : artifact) (fs : FileSystem) :
  let fs1 := put_file (filepath +:+ ".meta.json") sidecar (put_file filepath document fs) in
  put_file (filepath +:+ ".meta.json") sidecar (put_file filepath document fs1) = fs1.
Proof.
  simpl. unfold put_file. simpl. f_equal.
  apply map_eq. intros k.
  destruct (decide (k = filepath +:+ ".meta.json")) as [-> | Hs].
  - by rewrite !lookup_insert_eq.
  - rewrite (lookup_insert_ne _ _ k) by done.
    destruct (decide (k = filepath)) as [-> | Hf].
    + rewrite lookup_insert_eq. rewrite lookup_insert_ne by done. by rewrite lookup_insert_eq.
    + by rewrite !lookup_insert_ne by done.
Qed.

End PathFacts.

(** X13. An investor-relations document that arrives whole is stored under
    the name the response decides. When nothing is denied on the storage
    and the skip test finds no file, or no sidecar, at the name built from
    the URL, [download_document] returns "downloaded" for the path
    <RAW_DATA_DIR>/<TICKER>/ir/<type, spaces as underscores>/<date>_<md5
    of the URL><extension refined by the content type>; afterwards that
    file holds the bytes received and the file beside it the metadata
    returned, every other path is as before, and the metadata carries the
    digest of those bytes, the URL, the stored file name, the lower-cased
    content type and the type tag of the link. *)
Theorem ir_download_stores_document (env : Fetch.Env) (ticker_symbol : string)
    (doc_info : IrScraper.link) (fs : Fetch.FileSystem) (content_type : option string)
    (chunks : list string) :
  let filepath := stored_path env ticker_symbol doc_info content_type in
  let content := fold_right String.append "" chunks in
  Fetch.fs_denied fs = ∅ →
  Fetch.fs_files fs !! IrDownload.target_path env ticker_symbol doc_info = None ∨
  Fetch.fs_files fs !! (IrDownload.target_path env ticker_symbol doc_info +:+ ".meta.json") =
    None →
  Fetch.http_get env (IrScraper.link_url doc_info) = Fetch.Body content_type chunks None →
  ∃ metadata fs1,
    IrDownload.download_document env ticker_symbol doc_info fs =
      (fs1, Returned (Fetch.Downloaded filepath metadata)) ∧
    Fetch.fs_files fs1 !! filepath = Some (Fetch.Blob content) ∧
    Fetch.fs_files fs1 !! (filepath +:+ ".meta.json") = Some (Fetch.MetaJson metadata) ∧
    (∀ other, other ≠ filepath → other ≠ filepath +:+ ".meta.json" →
              Fetch.fs_files fs1 !! other = Fetch.fs_files fs !! other) ∧
    fingerprint metadata = PStr (Fetch.sha256_hexdigest env content) ∧
    source_url metadata = PStr (IrScraper.link_url doc_info) ∧
    dict_get metadata "filename" = PStr (stored_name env doc_info content_type) ∧
    dict_get metadata "content_type_header" = PStr (lower (default "" content_type)) ∧
    dict_get metadata "detected_document_type" = PStr (IrScraper.link_type doc_info).
Proof.
  intros filepath content Hden Habsent Hget.
  destruct (download_document_whole_body env ticker_symbol doc_info content_type chunks Hget)
    as (metadata & Hfacts & Hrun).
  specialize (Hrun fs Hden Habsent).
  pose proof (put_twice_lookup filepath (Fetch.Blob content) (Fetch.MetaJson metadata) fs)
    as (_ & Hdoc1 & Hside1 & Hframe).
  eexists metadata, _. split; [exact Hrun |]. split; [exact Hdoc1 |].
  split; [exact Hside1 |]. split; [exact Hframe | exact Hfacts].
Qed.

Lemma ir_download_stores_document_witness :
  let env := sample_env (Fetch.Body (Some "Application/PDF") ["%PDF-1.7 "; "annual report"] None) in
  let doc_info :=
    {| IrScraper.link_url := "https://example.com/download?id=42";
       IrScraper.link_text := "Annual Report";
       IrScraper.link_type := "Financial Document";
       IrScraper.link_source_page := "https://ir.example.com/" |} in
  let filepath := "/srv/data/raw/AAPL/ir/Financial_Document/20240102_md5x34.pdf" in
  ∃ metadata fs1,
    IrDownload.download_document env "aapl" doc_info empty_storage =
      (fs1, Returned (Fetch.Downloaded filepath metadata)) ∧
    Fetch.fs_files fs1 !! filepath = Some (Fetch.Blob "%PDF-1.7 annual report") ∧
    Fetch.fs_files fs1 !! (filepath +:+ ".meta.json") = Some (Fetch.MetaJson metadata) ∧
    dict_get metadata "filename" = PStr "20240102_md5x34.pdf" ∧
    dict_get metadata "content_type_header" = PStr "application/pdf".
Proof.
  intros env doc_info filepath.
  assert (Fetch.fs_denied empty_storage = ∅) as Hden by reflexivity.
  assert (Fetch.fs_files empty_storage !! IrDownload.target_path env "aapl" doc_info = None ∨
          Fetch.fs_files empty_storage !!
            (IrDownload.target_path env "aapl" doc_info +:+ ".meta.json") = None) as Habsent
    by (left; apply lookup_empty).
  assert (Fetch.http_get env (IrScraper.link_url doc_info) =
          Fetch.Body (Some "Application/PDF") ["%PDF-1.7 "; "annual report"] None) as Hget
    by reflexivity.
  destruct (ir_download_stores_document env "aapl" doc_info empty_storage
              (Some "Application/PDF") ["%PDF-1.7 "; "annual report"] Hden Habsent Hget)
    as (metadata & fs1 & Hrun & Hdoc & Hside & _ & _ & _ & Hname & Htype & _).
  exists metadata, fs1. split; [exact Hrun |]. split; [exact Hdoc |]. split; [exact Hside |].
  split; [exact Hname | exact Htype].
Defined.

(** X14. A document fetched twice on one day is stored once. When the
    first call of [download_document] stores the body under the name built
    from the URL (the response does not refine the extension), a second
    call with the same date, directory and digest of the URL finds the
    file and its sidecar: it returns "skipped_exists" with the metadata of
    the first call, whatever the network would answer, and leaves the
    storage as it is. *)
Theorem same_day_refetch_is_skipped (env env' : Fetch.Env) (ticker_symbol : string)
    (doc_info : IrScraper.link) (fs : Fetch.FileSystem) (content_type : option string)
    (chunks : list string) :
  let filepath := IrDownload.target_path env ticker_symbol doc_info in
  Fetch.fs_denied fs = ∅ →
  Fetch.fs_files fs !! filepath = None ∨
  Fetch.fs_files fs !! (filepath +:+ ".meta.json") = None →
  Fetch.http_get env (IrScraper.link_url doc_info) = Fetch.Body content_type chunks None →
  IrDownload.refined_extension (IrDownload.initial_extension (IrScraper.link_url doc_info))
    (lower (default "" content_type)) =
    IrDownload.initial_extension (IrScraper.link_url doc_info) →
  Fetch.RAW_DATA_DIR env' = Fetch.RAW_DATA_DIR env →
  Fetch.today env' = Fetch.today env →
  Fetch.md5_hexdigest env' (IrScraper.link_url doc_info) =
    Fetch.md5_hexdigest env (IrScraper.link_url doc_info) →
  ∃ metadata fs1,
    IrDownload.download_document env ticker_symbol doc_info fs =
      (fs1, Returned (Fetch.Downloaded filepath metadata)) ∧
    IrDownload.download_document env' ticker_symbol doc_info fs1 =
      (fs1, Returned (Fetch.SkippedExists filepath metadata)).
Proof.
  intros filepath Hden Habsent Hget Hext Hraw Hday Hmd5.
  destruct (download_document_whole_body env ticker_symbol doc_info content_type chunks Hget)
    as (metadata & _ & Hrun).
  specialize (Hrun fs Hden Habsent).
  assert (stored_path env ticker_symbol doc_info content_type = filepath) as Hstored
    by (unfold stored_path, stored_name, filepath, IrDownload.target_path; by rewrite Hext).
  rewrite Hstored in Hrun.
  assert (IrDownload.company_dir env' ticker_symbol doc_info =
          IrDownload.company_dir env ticker_symbol doc_info) as Hdir
    by (unfold IrDownload.company_dir; by rewrite Hraw).
  assert (IrDownload.target_path env' ticker_symbol doc_info = filepath) as Hpath
    by (unfold filepath, IrDownload.target_path, IrDownload.filename_base;
        by rewrite Hdir, Hday, Hmd5).
  pose proof (put_twice_lookup filepath
                (Fetch.Blob (fold_right String.append "" chunks)) (Fetch.MetaJson metadata) fs)
    as (_ & Hdoc1 & Hside1 & _).
  eexists metadata, _. split; [exact Hrun |].
  unfold IrDownload.download_document.
  unfold Fetch.fs_bind at 1, Fetch.makedirs. rewrite nothing_denied by exact Hden.
  unfold Fetch.fs_bind at 1. rewrite Hpath.
  by rewrite (existing_metadata_sidecar filepath _
                (Fetch.Blob (fold_right String.append "" chunks)) metadata)
    by (done || exact Hden).
Qed.

Lemma same_day_refetch_is_skipped_witness :
  let env := sample_env (Fetch.Body (Some "application/pdf") ["%PDF-1.7 "; "annual report"] None) in
  let offline := sample_env (Fetch.NoResponse "Connection refused") in
  let filepath := "/srv/data/raw/AAPL/ir/10-K/20240102_md5x27.pdf" in
  ∃ metadata fs1,
    IrDownload.download_document env "AAPL" annual_report_link empty_storage =
      (fs1, Returned (Fetch.Downloaded filepath metadata)) ∧
    IrDownload.download_document offline "AAPL" annual_report_link fs1 =
      (fs1, Returned (Fetch.SkippedExists filepath metadata)).
Proof.
  intros env offline filepath.
  assert (Fetch.fs_denied empty_storage = ∅) as Hden by reflexivity.
  assert (Fetch.fs_files empty_storage !! IrDownload.target_path env "AAPL" annual_report_link =
            None ∨
          Fetch.fs_files empty_storage !!
            (IrDownload.target_path env "AAPL" annual_report_link +:+ ".meta.json") = None)
    as Habsent by (left; apply lookup_empty).
  assert (Fetch.http_get env (IrScraper.link_url annual_report_link) =
          Fetch.Body (Some "application/pdf") ["%PDF-1.7 "; "annual report"] None) as Hget
    by reflexivity.
  assert (IrDownload.refined_extension
            (IrDownload.initial_extension (IrScraper.link_url annual_report_link))
            (lower (default "" (Some "application/pdf"))) =
          IrDownload.initial_extension (IrScraper.link_url annual_report_link)) as Hext
    by (vm_compute; reflexivity).
  exact (same_day_refetch_is_skipped env offline "AAPL" annual_report_link empty_storage
           (Some "application/pdf") ["%PDF-1.7 "; "annual report"] Hden Habsent Hget Hext
           eq_refl eq_refl eq_refl).
Defined.

(** X15. A refined extension defeats the skip test. When the URL shows no
    usable extension and the content type of the response names one (pdf,
    xlsx, pptx, docx, txt), the body is stored under the refined name,
    while the skip test of [download_document] looks for the ".html" name
    built from the URL alone. So, with no file at that name, the first
    call leaves none there either, and a second call the same day does not
    skip: it requests the document again, writes the same two files and
    returns "downloaded" once more. *)
Theorem refined_extension_is_fetched_again (env : Fetch.Env) (ticker_symbol : string)
    (doc_info : IrScraper.link) (fs : Fetch.FileSystem) (content_type : option string)
    (chunks : list string) :
  let filepath := stored_path env ticker_symbol doc_info content_type in
  Fetch.fs_denied fs = ∅ →
  Fetch.fs_files fs !! IrDownload.target_path env ticker_symbol doc_info = None →
  Fetch.http_get env (IrScraper.link_url doc_info) = Fetch.Body content_type chunks None →
  IrDownload.refined_extension (IrDownload.initial_extension (IrScraper.link_url doc_info))
    (lower (default "" content_type)) ≠
    IrDownload.initial_extension (IrScraper.link_url doc_info) →
  ∃ metadata fs1,
    IrDownload.download_document env ticker_symbol doc_info fs =
      (fs1, Returned (Fetch.Downloaded filepath metadata)) ∧
    filepath ≠ IrDownload.target_path env ticker_symbol doc_info ∧
    Fetch.fs_files fs1 !! IrDownload.target_path env ticker_symbol doc_info = None ∧
    IrDownload.download_document env ticker_symbol doc_info fs1 =
      (fs1, Returned (Fetch.Downloaded filepath metadata)).
Proof.
  intros filepath Hden Hnew Hget Hrefined.
  destruct (refined_path_differs env ticker_symbol doc_info content_type Hrefined)
    as [Hpath Hsidecar].
  destruct (download_document_whole_body env ticker_symbol doc_info content_type chunks Hget)
    as (metadata & _ & Hrun).
  set (fs1 := Fetch.put_file (filepath +:+ ".meta.json") (Fetch.MetaJson metadata)
                (Fetch.put_file filepath
                   (Fetch.Blob (fold_right String.append "" chunks)) fs)).
  assert (Fetch.fs_files fs1 !! IrDownload.target_path env ticker_symbol doc_info = None)
    as Hnew1.
  { subst fs1. simpl. rewrite !lookup_insert_ne by done. exact Hnew. }
  exists metadata, fs1. split; [exact (Hrun fs Hden (or_introl Hnew)) |].
  split; [exact Hpath |]. split; [exact Hnew1 |].
  rewrite (Hrun fs1 Hden (or_introl Hnew1)). f_equal. apply put_twice_again.
Qed.

Lemma refined_extension_is_fetched_again_witness :
  let env := sample_env (Fetch.Body (Some "application/pdf") ["%PDF-1.7 "; "annual report"] None) in
  let doc_info :=
    {| IrScraper.link_url := "https://example.com/download?id=42";
       IrScraper.link_text := "Annual Report";
       IrScraper.link_type := "10-K";
       IrScraper.link_source_page := "https://ir.example.com/" |} in
  let filepath := "/srv/data/raw/AAPL/ir/10-K/20240102_md5x34.pdf" in
  IrDownload.target_path env "AAPL" doc_info =
    "/srv/data/raw/AAPL/ir/10-K/20240102_md5x34.html" ∧
  ∃ metadata fs1,
    IrDownload.download_document env "AAPL" doc_info empty_storage =
      (fs1, Returned (Fetch.Downloaded filepath metadata)) ∧
    IrDownload.download_document env "AAPL" doc_info fs1 =
      (fs1, Returned (Fetch.Downloaded filepath metadata)).
Proof.
  intros env doc_info filepath. split; [vm_compute; reflexivity |].
  assert (Fetch.fs_denied empty_storage = ∅) as Hden by reflexivity.
  assert (Fetch.fs_files empty_storage !! IrDownload.target_path env "AAPL" doc_info = None)
    as Hnew by apply lookup_empty.
  assert (Fetch.http_get env (IrScraper.link_url doc_info) =
          Fetch.Body (Some "application/pdf") ["%PDF-1.7 "; "annual report"] None) as Hget
    by reflexivity.
  assert (IrDownload.refined_extension
            (IrDownload.initial_extension (IrScraper.link_url doc_info))
            (lower (default "" (Some "application/pdf"))) ≠
          IrDownload.initial_extension (IrScraper.link_url doc_info)) as Hrefined
    by (vm_compute; discriminate).
  destruct (refined_extension_is_fetched_again env "AAPL" doc_info empty_storage
              (Some "application/pdf") ["%PDF-1.7 "; "annual report"] Hden Hnew Hget Hrefined)
    as (metadata & fs1 & Hrun & _ & _ & Hagain).
  exists metadata, fs1. split; [exact Hrun | exact Hagain].
Defined.

(** ** The pass over the links of a page *)

Section IrPassFacts.

Import IrScraper Fetch IrDownload.

Lemma attempt_download_outcome (env : Env) (ticker_symbol : string) (doc_info : link)
    (fs fs' : FileSystem) (res : fetch_result) :
  attempt_download env ticker_symbol doc_info fs = (fs', Returned res) →
  ∃ content_type chunks metadata,
    http_get env (link_url doc_info) = Body content_type chunks None ∧
    res = Downloaded (stored_path env ticker_symbol doc_info content_type) metadata ∧
    fingerprint metadata =
      PStr (sha256_hexdigest env (fold_right String.append "" chunks)).
Proof.
  unfold attempt_download, fs_bind, request.
  destruct (http_get env _) as [err | code err | content_type chunks cut]; simpl; [done | done |].
  unfold write_chunks. case_bool_decide; [done |].
  destruct cut; [done |].
  unfold read_bytes. case_bool_decide; [done |].
  cbn [fs_files put_file]. rewrite lookup_insert_eq.
  unfold write_json. case_bool_decide; [done |]. unfold ret.
  intros [= <- <-]. by eexists content_type, chunks, _.
Qed.

Lemma download_document_outcome (env : Env) (ticker_symbol : string) (doc_info : link)
    (fs fs' : FileSystem) (res : fetch_result) :
  download_document env ticker_symbol doc_info fs = (fs', Returned res) →
  ir_outcome_of env ticker_symbol doc_info res.
Proof.
  unfold download_document.
  unfold fs_bind at 1, makedirs. case_bool_decide; [done |].
  unfold fs_bind at 1.
  destruct (existing_metadata _ fs) as [fs1 [[metadata |] | e]]; [| | done].
  - unfold ret. by intros [= <- <-].
  - unfold try_except.
    destruct (attempt_download _ _ _ fs1) as [fs2 [res' | e]] eqn:Ha.
    + apply attempt_download_outcome in Ha as (content_type & chunks & metadata & _ & -> & _).
      intros [= <- <-]. by exists content_type.
    + destruct e; unfold download_failed, ret; by intros [= <- <-].
Qed.

(** A "downloaded" outcome carries the digest of the bytes that came. *)
Lemma downloaded_fingerprint (env : Env) (ticker_symbol : string) (doc_info : link)
    (fs fs' : FileSystem) (filepath : string) (metadata : doc_meta)
    (content_type : option string) (chunks : list string) (cut : option string) :
  download_document env ticker_symbol doc_info fs =
    (fs', Returned (Downloaded filepath metadata)) →
  http_get env (link_url doc_info) = Body content_type chunks cut →
  fingerprint metadata = PStr (sha256_hexdigest env (fold_right String.append "" chunks)).
Proof.
  unfold download_document.
  unfold fs_bind at 1, makedirs. case_bool_decide; [done |].
  unfold fs_bind at 1.
  destruct (existing_metadata _ fs) as [fs1 [[existing |] | e]]; [done | | done].
  unfold try_except.
  destruct (attempt_download _ _ _ fs1) as [fs2 [res' | e]] eqn:Ha.
  - apply attempt_download_outcome in Ha as (ct & chunks0 & metadata0 & Hget & -> & Hfp).
    intros [= <- <- <-] Hget'. rewrite Hget in Hget'. by injection Hget' as _ <- _.
  - destruct e; unfold download_failed, ret; by intros [= <- <-].
Qed.

Lemma fetched_links_cons (link_info : link) (rest : list link) :
  fetched_links (link_info :: rest) =
  if String.eqb (link_type link_info) "SEC Filings Page" &&
     negb (contains "sec.gov" (link_url link_info))
  then fetched_links rest
  else link_info :: fetched_links rest.
Proof.
  unfold fetched_links. rewrite filter_cons.
  destruct (_ && _); by case_decide.
Qed.

Lemma process_links_outcomes (env : Env) (ticker_symbol : string) (ir_links : list link)
    (download_results : list fetch_result) (fs fs' : FileSystem) (results : list fetch_result) :
  process_links env ticker_symbol ir_links download_results fs = (fs', Returned results) →
  ∃ outcomes,
    results = download_results ++ outcomes ∧
    Forall2 (ir_outcome_of env ticker_symbol) (fetched_links ir_links) outcomes.
Proof.
  revert download_results fs.
  induction ir_links as [| link_info rest IH]; intros download_results fs; simpl.
  - unfold ret. intros [= <- <-]. exists []. by rewrite app_nil_r.
  - rewrite fetched_links_cons. destruct (_ && _); [apply IH |].
    unfold fs_bind at 1.
    destruct (download_document _ _ _ fs) as [fs1 [res | e]] eqn:Hd; [| done].
    intros Hrest. apply IH in Hrest as (outcomes & -> & Hall).
    exists (res :: outcomes). split; [by rewrite <- app_assoc |].
    constructor; [| done]. by eapply download_document_outcome.
Qed.

(** No link found on a page carries the tag "SEC Filings Page": the test
    of [process_company] on that tag lets every one of them through. *)
Lemma fetched_links_grab_ir_links (urljoin : string → string → string) (page : string)
    (anchors : list anchor) :
  fetched_links (grab_ir_links urljoin page anchors) = grab_ir_links urljoin page anchors ∧
  Forall (λ l, link_type l ∈ document_type_tags) (grab_ir_links urljoin page anchors).
Proof.
  assert (Forall (λ l, link_type l ∈ document_type_tags) (grab_ir_links urljoin page anchors))
    as Htags.
  { apply Forall_forall. intros l Hl.
    assert (link_type l ∈ map link_type (grab_ir_links urljoin page anchors)) as Ht
      by (by apply (list_elem_of_fmap_2 link_type)).
    rewrite grab_ir_links_types in Ht.
    apply list_elem_of_omap in Ht as (a & _ & Hc). revert Hc. unfold classify.
    destruct (skipped_href _); [done |].
    destruct (matched_doc_type_range (a_text a) (a_href a)) as [Hother | Hin].
    - rewrite Hother. done.
    - destruct (String.eqb _ _); [done |]. by intros [= <-]. }
  split; [| done].
  induction Htags as [| l rest Hl _ IH]; [done |].
  rewrite fetched_links_cons, IH.
  assert (String.eqb (link_type l) "SEC Filings Page" = false) as ->; [| done].
  apply String.eqb_neq. intros Heq. rewrite Heq in Hl.
  unfold document_type_tags in Hl.
  repeat (apply elem_of_cons in Hl as [Hl | Hl]; [discriminate Hl |]).
  by apply elem_of_nil in Hl.
Qed.

Lemma download_document_offline (env : Env) (ticker_symbol : string) (doc_info : link)
    (fs : FileSystem) :
  fs_denied fs = ∅ →
  sidecars_decodable fs →
  request_fails (http_get env (link_url doc_info)) →
  ∃ res, download_document env ticker_symbol doc_info fs = (fs, Returned res) ∧
         nothing_fetched res.
Proof.
  intros Hden Hside Hfail. unfold download_document.
  unfold fs_bind at 1, makedirs. rewrite nothing_denied by done.
  unfold fs_bind at 1, existing_metadata, fs_bind, path_exists.
  assert (try_except (attempt_download env ticker_symbol doc_info)
            (download_failed (link_url doc_info)) fs =
          (fs, Returned (FailedDownload
                           match http_get env (link_url doc_info) with
                           | NoResponse err | ErrorStatus _ err => err
                           | Body _ _ _ => ""
                           end (link_url doc_info)))) as Hattempt.
  { unfold try_except, attempt_download, fs_bind, request.
    by destruct (http_get env (link_url doc_info)). }
  case_bool_decide; simpl; [| by eexists].
  case_bool_decide as Hthere; simpl; [| by eexists].
  unfold read_json. rewrite nothing_denied by done.
  destruct (fs_files fs !! (target_path env ticker_symbol doc_info +:+ ".meta.json"))
    as [[junk | metadata] |] eqn:Hmeta.
  - by destruct (Hside _ _ Hmeta).
  - by eexists.
  - by destruct Hthere.
Qed.

Lemma process_links_offline (env : Env) (ticker_symbol : string) (ir_links : list link)
    (download_results : list fetch_result) (fs : FileSystem) :
  fs_denied fs = ∅ →
  sidecars_decodable fs →
  (∀ url, request_fails (http_get env url)) →
  ∃ outcomes,
    process_links env ticker_symbol ir_links download_results fs =
      (fs, Returned (download_results ++ outcomes)) ∧
    Forall nothing_fetched outcomes.
Proof.
  intros Hden Hside Hfail. revert download_results.
  induction ir_links as [| link_info rest IH]; intros download_results; simpl.
  - exists []. by rewrite app_nil_r.
  - destruct (_ && _); [apply IH |].
    destruct (download_document_offline env ticker_symbol link_info fs Hden Hside (Hfail _))
      as (res & Hd & Hres).
    unfold fs_bind at 1. rewrite Hd.
    destruct (IH (download_results ++ [res])) as (outcomes & -> & Hall).
    exists (res :: outcomes). split; [by rewrite <- app_assoc | by constructor].
Qed.

End IrPassFacts.

(** X16. Every link found on a page gets its outcome. When
    [process_company] returns for the links [grab_ir_links] found, the
    outcomes are one for each link, in the order of discovery: the tag
    "SEC Filings Page", which the loop would leave out, is none that the
    classification gives. Each outcome belongs to its link: a stored file
    stands under <RAW_DATA_DIR>/<TICKER>/ir/<tag> at a name of that link,
    a skipped one at the name the skip test looks at, a failed one names
    the URL of the link. *)
Theorem every_found_link_gets_outcome (env : Fetch.Env) (ticker_symbol : string)
    (urljoin : string → string → string) (actual_page_url : string)
    (anchors : list IrScraper.anchor) (fs fs' : Fetch.FileSystem)
    (results : list Fetch.fetch_result) :
  let ir_links := IrScraper.grab_ir_links urljoin actual_page_url anchors in
  IrDownload.process_company env ticker_symbol ir_links fs = (fs', Returned results) →
  Forall2 (ir_outcome_of env ticker_symbol) ir_links results ∧
  length results = length ir_links ∧
  Forall (λ l, IrScraper.link_type l ∈ document_type_tags) ir_links.
Proof.
  intros ir_links Hrun. unfold IrDownload.process_company in Hrun.
  apply process_links_outcomes in Hrun as (outcomes & -> & Hall).
  destruct (fetched_links_grab_ir_links urljoin actual_page_url anchors) as [Hfetched Htags].
  fold ir_links in Hfetched, Htags. rewrite Hfetched in Hall. simpl.
  split; [done |]. split; [| done]. symmetry. by eapply Forall2_length.
Qed.

Lemma every_found_link_gets_outcome_witness :
  let env := sample_env (Fetch.ErrorStatus 404 "404 Client Error: Not Found") in
  let anchors :=
    [ {| IrScraper.a_text := " Annual Report (10-K) "; IrScraper.a_href := "/files/10k.pdf" |};
      {| IrScraper.a_text := "Careers"; IrScraper.a_href := "/careers" |};
      {| IrScraper.a_text := "SEC Filings"; IrScraper.a_href := "/sec-filings" |} ] in
  let ir_links := IrScraper.grab_ir_links (λ page href, "https://ir.example.com" +:+ href)
                    "https://ir.example.com/" anchors in
  ∃ fs' results,
    IrDownload.process_company env "AAPL" ir_links empty_storage = (fs', Returned results) ∧
    Forall2 (ir_outcome_of env "AAPL") ir_links results ∧
    length results = 2.
Proof.
  intros env anchors ir_links.
  destruct (IrDownload.process_company env "AAPL" ir_links empty_storage)
    as [fs' [results | e]] eqn:Hrun.
  - destruct (every_found_link_gets_outcome env "AAPL"
                (λ page href, "https://ir.example.com" +:+ href) "https://ir.example.com/"
                anchors empty_storage fs' results Hrun) as (Hall & Hlen & _).
    exists fs', results. split; [reflexivity |]. split; [exact Hall |].
    rewrite Hlen. vm_compute. reflexivity.
  - vm_compute in Hrun. discriminate Hrun.
Defined.

(** X17. A pass without network writes nothing. When nothing is denied on
    the storage, every sidecar on it is decodable and every request fails
    (no response, or an error status), [process_company] returns for any
    list of links, leaves the storage exactly as it was, and every outcome
    is "skipped_exists" or "failed_download": none is "downloaded". *)
Theorem offline_pass_writes_nothing (env : Fetch.Env) (ticker_symbol : string)
    (ir_links : list IrScraper.link) (fs : Fetch.FileSystem) :
  Fetch.fs_denied fs = ∅ →
  sidecars_decodable fs →
  (∀ url, request_fails (Fetch.http_get env url)) →
  ∃ results,
    IrDownload.process_company env ticker_symbol ir_links fs = (fs, Returned results) ∧
    Forall nothing_fetched results ∧
    Forall2 (ir_outcome_of env ticker_symbol) (fetched_links ir_links) results ∧
    downloaded_metadata results = [].
Proof.
  intros Hden Hside Hfail. unfold IrDownload.process_company.
  destruct (process_links_offline env ticker_symbol ir_links [] fs Hden Hside Hfail)
    as (outcomes & Hrun & Hall).
  exists outcomes. split; [exact Hrun |]. split; [exact Hall |]. split.
  - apply process_links_outcomes in Hrun as (outcomes' & Heq & Hall'). simpl in Heq.
    by subst outcomes'.
  - clear Hrun. induction Hall as [| res rest Hres _ IH]; [done |].
    unfold downloaded_metadata in *. simpl. by destruct res.
Qed.

Lemma offline_pass_writes_nothing_witness :
  let env := sample_env (Fetch.NoResponse "Connection refused") in
  (Fetch.fs_denied empty_storage = ∅ ∧ sidecars_decodable empty_storage ∧
   ∀ url, request_fails (Fetch.http_get env url)) ∧
  ∃ results,
    IrDownload.process_company env "AAPL" [annual_report_link; slides_link] empty_storage =
      (empty_storage, Returned results) ∧
    Forall nothing_fetched results ∧ length results = 2.
Proof.
  intros env.
  assert (Fetch.fs_denied empty_storage = ∅) as Hden by reflexivity.
  assert (sidecars_decodable empty_storage) as Hside.
  { intros filepath junk. unfold empty_storage. simpl. by rewrite lookup_empty. }
  assert (∀ url, request_fails (Fetch.http_get env url)) as Hfail by (intros url; exact I).
  split; [done |].
  destruct (offline_pass_writes_nothing env "AAPL" [annual_report_link; slides_link]
              empty_storage Hden Hside Hfail) as (results & Hrun & Hall & Hout & _).
  exists results. split; [exact Hrun |]. split; [exact Hall |].
  apply Forall2_length in Hout. rewrite <- Hout. vm_compute. reflexivity.
Defined.

(** X18. Documents are recorded once per content, not once per address.
    When two calls of [download_document], for any links, companies, days
    and storages, both return "downloaded" and the bodies that came were
    the same bytes (under one digest function, whose digest of them is not
    empty), the loop of the callers that stores the two outcomes records
    what it records for the first alone: the second outcome adds no entry. *)
Theorem same_content_recorded_once (env env' : Fetch.Env) (ticker_symbol ticker_symbol' : string)
    (doc_info doc_info' : IrScraper.link) (fs fs1 fs' fs1' : Fetch.FileSystem)
    (filepath filepath' : string) (metadata metadata' : doc_meta)
    (content_type content_type' : option string) (chunks chunks' : list string)
    (cut cut' : option string) (store_ticker source_type : string) (data_store : DataStore) :
  IrDownload.download_document env ticker_symbol doc_info fs =
    (fs1, Returned (Fetch.Downloaded filepath metadata)) →
  IrDownload.download_document env' ticker_symbol' doc_info' fs' =
    (fs1', Returned (Fetch.Downloaded filepath' metadata')) →
  Fetch.http_get env (IrScraper.link_url doc_info) = Fetch.Body content_type chunks cut →
  Fetch.http_get env' (IrScraper.link_url doc_info') = Fetch.Body content_type' chunks' cut' →
  fold_right String.append "" chunks' = fold_right String.append "" chunks →
  Fetch.sha256_hexdigest env' = Fetch.sha256_hexdigest env →
  Fetch.sha256_hexdigest env (fold_right String.append "" chunks) ≠ "" →
  valid_source_type source_type →
  buckets_complete data_store →
  fingerprint metadata' = fingerprint metadata ∧
  documents store_ticker source_type
    (Tasks.store_results store_ticker source_type
       [Fetch.Downloaded filepath metadata; Fetch.Downloaded filepath' metadata'] 0
       data_store).1 =
  documents store_ticker source_type
    (Tasks.store_results store_ticker source_type [Fetch.Downloaded filepath metadata] 0
       data_store).1.
Proof.
  intros Hfirst Hsecond Hget Hget' Hsame Hsha Hdigest Hv Hc.
  pose proof (downloaded_fingerprint _ _ _ _ _ _ _ _ _ _ Hfirst Hget) as Hfp.
  pose proof (downloaded_fingerprint _ _ _ _ _ _ _ _ _ _ Hsecond Hget') as Hfp'.
  rewrite Hsame, Hsha in Hfp'.
  split; [by rewrite Hfp, Hfp' |].
  assert (doc_key metadata = PStr (Fetch.sha256_hexdigest env
                                     (fold_right String.append "" chunks))) as Hkey.
  { unfold doc_key, py_or. unfold fingerprint in Hfp. rewrite Hfp. simpl.
    apply String.eqb_neq in Hdigest. by rewrite Hdigest. }
  assert (doc_key metadata' = doc_key metadata) as Hkey'.
  { rewrite Hkey. unfold doc_key, py_or. unfold fingerprint in Hfp'. rewrite Hfp'. simpl.
    apply String.eqb_neq in Hdigest. by rewrite Hdigest. }
  assert (truthy (doc_key metadata) = true) as Htruthy.
  { rewrite Hkey. simpl. apply String.eqb_neq in Hdigest. by rewrite Hdigest. }
  rewrite !store_results_downloaded by done. simpl.
  set (first := (add_document_metadata store_ticker source_type metadata data_store).1).
  assert (buckets_complete first) as Hc1 by (by apply buckets_complete_add_document).
  rewrite (documents_add_document first) by (done || by apply add_document_no_raise).
  assert (is_duplicate (documents store_ticker source_type first) metadata' = true) as ->;
    [| done].
  apply is_duplicate_true. split; [by rewrite Hkey' |].
  subst first. rewrite documents_add_document by (done || by apply add_document_no_raise).
  destruct (is_duplicate _ metadata) eqn:Hdup.
  - apply is_duplicate_true in Hdup as (_ & e & He & Hk). exists e. by rewrite Hkey'.
  - exists metadata. split; [| done]. apply elem_of_app. right. by left.
Qed.

Lemma same_content_recorded_once_witness :
  let env := sample_env (Fetch.Body (Some "application/pdf") ["%PDF-1.7 "; "annual report"] None) in
  let mirror :=
    {| IrScraper.link_url := "https://mirror.example.org/files/annual-10k.pdf";
       IrScraper.link_text := "Form 10-K";
       IrScraper.link_type := "10-K";
       IrScraper.link_source_page := "https://mirror.example.org/" |} in
  ∃ fs1 fs1' filepath filepath' metadata metadata',
    IrDownload.download_document env "AAPL" annual_report_link empty_storage =
      (fs1, Returned (Fetch.Downloaded filepath metadata)) ∧
    IrDownload.download_document env "AAPL" mirror empty_storage =
      (fs1', Returned (Fetch.Downloaded filepath' metadata')) ∧
    filepath ≠ filepath' ∧
    source_url metadata ≠ source_url metadata' ∧
    fingerprint metadata' = fingerprint metadata ∧
    documents "AAPL" "ir"
      (Tasks.store_results "AAPL" "ir"
         [Fetch.Downloaded filepath metadata; Fetch.Downloaded filepath' metadata'] 0
         sample_store).1 =
    documents "AAPL" "ir"
      (Tasks.store_results "AAPL" "ir" [Fetch.Downloaded filepath metadata] 0 sample_store).1.
Proof.
  intros env mirror.
  destruct (download_document_whole_body env "AAPL" annual_report_link
              (Some "application/pdf") ["%PDF-1.7 "; "annual report"] eq_refl)
    as (metadata & (_ & Hurl & _) & Hrun).
  destruct (download_document_whole_body env "AAPL" mirror
              (Some "application/pdf") ["%PDF-1.7 "; "annual report"] eq_refl)
    as (metadata' & (_ & Hurl' & _) & Hrun').
  assert (Fetch.fs_denied empty_storage = ∅) as Hden by reflexivity.
  specialize (Hrun empty_storage Hden (or_introl (lookup_empty _))).
  specialize (Hrun' empty_storage Hden (or_introl (lookup_empty _))).
  assert (valid_source_type "ir") as Hv by (by left).
  assert (buckets_complete sample_store) as Hc by (by apply buckets_complete_empty).
  assert (Fetch.sha256_hexdigest env
            (fold_right String.append "" ["%PDF-1.7 "; "annual report"]) ≠ "") as Hdigest
    by (vm_compute; discriminate).
  destruct (same_content_recorded_once env env "AAPL" "AAPL" annual_report_link mirror
              empty_storage _ empty_storage _ _ _ metadata metadata'
              (Some "application/pdf") (Some "application/pdf")
              ["%PDF-1.7 "; "annual report"] ["%PDF-1.7 "; "annual report"] None None
              "AAPL" "ir" sample_store Hrun Hrun' eq_refl eq_refl eq_refl eq_refl Hdigest Hv Hc)
    as [Hfp Hdocs].
  eexists _, _, _, _, metadata, metadata'.
  split; [exact Hrun |]. split; [exact Hrun' |].
  split; [vm_compute; discriminate |].
  split; [rewrite Hurl, Hurl'; vm_compute; discriminate |].
  split; [exact Hfp | exact Hdocs].
Defined.

(** ** The address of the investor-relations page *)

Section IrPageFacts.

Import IrPage.

Lemma first_found_spec (head : string → option Z) (urls : list string) :
  match first_found head urls with
  | Some url =>
      head url = Some 200%Z ∧
      ∃ before after, urls = before ++ url :: after ∧
                      Forall (λ u, head u ≠ Some 200%Z) before
  | None => Forall (λ u, head u ≠ Some 200%Z) urls
  end.
Proof.
  induction urls as [| url rest IH]; simpl; [by constructor |].
  destruct (head url) as [status_code |] eqn:Hhead.
  - destruct (status_code =? 200)%Z eqn:Hok.
    + apply Z.eqb_eq in Hok as ->. split; [done |]. by exists [], rest.
    + apply Z.eqb_neq in Hok.
      assert (head url ≠ Some 200%Z) as Hne by (rewrite Hhead; congruence).
      destruct (first_found head rest) as [found |].
      * destruct IH as (Hfound & before & after & -> & Hbefore). split; [done |].
        exists (url :: before), after. split; [done | by constructor].
      * by constructor.
  - assert (head url ≠ Some 200%Z) as Hne by (by rewrite Hhead).
    destruct (first_found head rest) as [found |].
    + destruct IH as (Hfound & before & after & -> & Hbefore). split; [done |].
      exists (url :: before), after. split; [done | by constructor].
    + by constructor.
Qed.

Lemma startswith_app (p s : string) : startswith p (p +:+ s) = true.
Proof.
  unfold startswith. induction p as [| c p IH]; [apply prefix_empty |].
  change (String c p +:+ s) with (String c (p +:+ s)). cbn [String.prefix].
  by destruct (Ascii.ascii_dec c c).
Qed.

End IrPageFacts.

(** X19. [get_ir_page_url] always answers with an address. For a ticker
    without a row, or whose row has no company name, it is
    https://www.<ticker in lower case>.com. Otherwise it is the first of the twelve candidate addresses whose HEAD
    request answers 200, every candidate before it having failed or
    answered otherwise; and when none answers 200, the candidate before
    the last, https://www.<ticker>.com/investor-relations. *)
Theorem ir_page_url_choice (df : list Companies.row) (head : string → option Z)
    (ticker_symbol : string) :
  let url := IrPage.get_ir_page_url df head ticker_symbol in
  let fallback := "https://www." +:+ lower ticker_symbol +:+ ".com" in
  startswith "https://" url = true ∧
  match CompanyLookup.get_company_by_ticker df ticker_symbol with
  | Some {| Companies.company := Some company_name_raw |} =>
      let candidates :=
        IrPage.potential_urls (IrPage.url_company_name company_name_raw) ticker_symbol in
      (head url = Some 200%Z ∧
       ∃ before after, candidates = before ++ url :: after ∧
                       Forall (λ u, head u ≠ Some 200%Z) before) ∨
      (Forall (λ u, head u ≠ Some 200%Z) candidates ∧
       url = fallback +:+ "/investor-relations")
  | _ => url = fallback
  end.
Proof.
  intros url fallback. subst url. unfold IrPage.get_ir_page_url.
  destruct (CompanyLookup.get_company_by_ticker df ticker_symbol) as [[rk [name |] tk ck] |];
    cbn [Companies.company]; [| by split | by split].
  pose proof (first_found_spec head
                (IrPage.potential_urls (IrPage.url_company_name name) ticker_symbol)) as Hspec.
  destruct (IrPage.first_found head _) as [found |].
  - destruct Hspec as (Hok & before & after & Heq & Hbefore). split.
    + assert (found ∈ IrPage.potential_urls (IrPage.url_company_name name) ticker_symbol)
        as Hin by (rewrite Heq; apply elem_of_app; right; by left).
      unfold IrPage.potential_urls in Hin.
      repeat (apply elem_of_cons in Hin as [-> | Hin];
              [exact (startswith_app "https://" _) |]).
      by apply elem_of_nil in Hin.
    + left. split; [done |]. by exists before, after.
  - split; [exact (startswith_app "https://" _) |]. right. split; [done |].
    unfold IrPage.second_to_last, IrPage.potential_urls, fallback.
    change (default "" (Some ("https://www." +:+ lower ticker_symbol +:+
                              ".com" +:+ "/investor-relations")) =
            ("https://www." +:+ lower ticker_symbol +:+ ".com") +:+ "/investor-relations").
    cbn [default from_option id]. by rewrite !append_assoc.
Qed.

(** ** The schedule and the daily job *)

Section SchedulerFacts.

Import Companies SecFetcher Fetch IrScraper IrDownload SecPass Tasks Scheduler.

Lemma entries_kept_refl (self : DataStore) : entries_kept self self.
Proof. split; [| done]. intros T b st docs Hb Hd. by exists b, docs. Qed.

Lemma entries_kept_trans (s1 s2 s3 : DataStore) :
  entries_kept s1 s2 → entries_kept s2 s3 → entries_kept s1 s3.
Proof.
  intros (H12 & Hc12 & Hs12 & Hp12) (H23 & Hc23 & Hs23 & Hp23).
  split; [| by rewrite Hc23, Hs23, Hp23].
  intros T b st docs Hb Hd.
  destruct (H12 _ _ _ _ Hb Hd) as (b2 & docs2 & Hb2 & Hd2 & Hpre2).
  destruct (H23 _ _ _ _ Hb2 Hd2) as (b3 & docs3 & Hb3 & Hd3 & Hpre3).
  exists b3, docs3. split; [done |]. split; [done |]. by etrans.
Qed.

Lemma entries_kept_add_document (self : DataStore) (ticker_symbol source_type : string)
    (m : doc_meta) :
  entries_kept self (add_document_metadata ticker_symbol source_type m self).1.
Proof.
  unfold add_document_metadata.
  set (self' := match document_metadata_store self !! upper ticker_symbol with
                | Some _ => self | None => _ end).
  assert (entries_kept self self') as Hfirst.
  { subst self'.
    destruct (document_metadata_store self !! upper ticker_symbol) eqn:Hb;
      [apply entries_kept_refl |].
    split; [| done]. intros T b st docs HT Hd. exists b, docs. simpl.
    rewrite lookup_insert_ne by congruence. done. }
  destruct (negb _); [done |].
  destruct (document_metadata_store self' !! upper ticker_symbol) as [b |] eqn:Hb; [| done].
  destruct (b !! source_type) as [existing_docs |] eqn:Hd; [| done].
  destruct (is_duplicate existing_docs m); [done |]. simpl.
  apply (entries_kept_trans _ self'); [done |].
  split; [| done]. intros T b0 st docs HT Hst. simpl.
  destruct (decide (T = upper ticker_symbol)) as [-> | HneT].
  - rewrite lookup_insert_eq. rewrite Hb in HT. injection HT as <-.
    destruct (decide (st = source_type)) as [-> | Hne].
    + eexists _, _. split; [done |]. rewrite lookup_insert_eq. split; [done |].
      rewrite Hd in Hst. injection Hst as <-. by apply prefix_app_r.
    + eexists _, docs. split; [done |]. by rewrite lookup_insert_ne by done.
  - rewrite lookup_insert_ne by done. by exists b0, docs.
Qed.

Lemma entries_kept_store_results (ticker_symbol source_type : string)
    (results : list fetch_result) (n : nat) (data_store : DataStore) :
  entries_kept data_store (store_results ticker_symbol source_type results n data_store).1.
Proof.
  revert n data_store.
  induction results as [| res rest IH]; intros n data_store; [apply entries_kept_refl |].
  simpl. destruct (stored_by_caller res); [| apply IH].
  destruct (res_metadata res) as [metadata |]; [| apply entries_kept_refl].
  pose proof (entries_kept_add_document data_store ticker_symbol source_type metadata) as H1.
  destruct (add_document_metadata ticker_symbol source_type metadata data_store)
    as [s' [e |]]; [done |].
  eapply entries_kept_trans; [exact H1 | apply IH].
Qed.

Lemma buckets_complete_store_results (ticker_symbol source_type : string)
    (results : list fetch_result) (n : nat) (data_store : DataStore) :
  buckets_complete data_store →
  buckets_complete (store_results ticker_symbol source_type results n data_store).1.
Proof.
  revert n data_store.
  induction results as [| res rest IH]; intros n data_store Hc; [done |].
  simpl. destruct (stored_by_caller res); [| by apply IH].
  destruct (res_metadata res) as [metadata |]; [| done].
  pose proof (buckets_complete_add_document data_store ticker_symbol source_type metadata Hc)
    as H1.
  destruct (add_document_metadata ticker_symbol source_type metadata data_store)
    as [s' [e |]]; [done | by apply IH].
Qed.

Lemma store_kept_trans (s1 s2 s3 : DataStore) :
  store_kept s1 s2 → store_kept s2 s3 → store_kept s1 s3.
Proof.
  intros (Hc12 & Hn12 & He12) (Hc23 & Hn23 & He23).
  split; [auto |]. split; [auto |]. by eapply entries_kept_trans.
Qed.

Lemma store_kept_store_results (ticker_symbol source_type : string)
    (results : list fetch_result) (n : nat) (data_store : DataStore) :
  store_kept data_store (store_results ticker_symbol source_type results n data_store).1.
Proof.
  split; [apply buckets_complete_store_results |].
  split; [apply no_duplicate_keys_store_results | apply entries_kept_store_results].
Qed.

Lemma store_kept_refl (self : DataStore) : store_kept self self.
Proof. split; [done |]. split; [done | apply entries_kept_refl]. Qed.

Lemma store_kept_collect_ir (env : Env) (ticker_symbol : string) (ir_links : list link)
    (fs : FileSystem) (data_store : DataStore) :
  store_kept data_store (_collect_ir_for_company env ticker_symbol ir_links fs data_store).1.2.
Proof.
  unfold _collect_ir_for_company.
  destruct (process_company env ticker_symbol ir_links fs) as [fs' [results | e]];
    [| apply store_kept_refl].
  pose proof (store_kept_store_results ticker_symbol "ir" results 0 data_store) as H.
  by destruct (store_results ticker_symbol "ir" results 0 data_store).
Qed.

Lemma store_kept_collect_sec (env : Env) (df : list row) (api : string → api_reply)
    (ticker_symbol : string) (fs : FileSystem) (data_store : DataStore) :
  store_kept data_store (collect_sec_for_company env df api ticker_symbol fs data_store).1.2.
Proof.
  unfold collect_sec_for_company, _collect_sec_for_company.
  destruct (download_recent_filings_documents _ _ _ _ _ _ _ fs)
    as [fs' [[results requested] | e]]; [| apply store_kept_refl].
  pose proof (store_kept_store_results ticker_symbol "sec" results 0 data_store) as H.
  by destruct (store_results ticker_symbol "sec" results 0 data_store).
Qed.

Lemma companies_loop_kept (env_at : string → Env) (df : list row) (api : string → api_reply)
    (discover : string → list link) (companies : list row) (fs : FileSystem)
    (data_store : DataStore) (processed_count : nat) :
  let '(_, data_store', processed_count') :=
    companies_loop env_at df api discover companies fs data_store processed_count in
  store_kept data_store data_store' ∧
  processed_count' = processed_count + length companies.
Proof.
  revert fs data_store processed_count.
  induction companies as [| company rest IH]; intros fs data_store processed_count; simpl.
  - split; [apply store_kept_refl | lia].
  - pose proof (store_kept_collect_ir (env_at (ticker company)) (ticker company)
                  (discover (ticker company)) fs data_store) as Hir.
    destruct (_collect_ir_for_company _ _ _ fs data_store) as [[fs1 ds1] o1]. simpl in Hir.
    pose proof (store_kept_collect_sec (env_at (ticker company)) df api (ticker company)
                  fs1 ds1) as Hsec.
    destruct (collect_sec_for_company _ _ _ _ fs1 ds1) as [[fs2 ds2] o2]. simpl in Hsec.
    specialize (IH fs2 ds2 (S processed_count)).
    destruct (companies_loop _ _ _ _ rest fs2 ds2 _) as [[fs3 ds3] n3].
    destruct IH as [Hrest ->]. split; [| lia].
    eapply store_kept_trans; [exact Hir |]. by eapply store_kept_trans.
Qed.

End SchedulerFacts.

(** X20. The schedule is always a valid time of day. Whatever the
    configured text and whatever [int] makes of its pieces,
    [_parse_daily_time] returns an hour between 0 and 23 and a minute
    between 0 and 59; the pair is 02:00 unless the text splits at its
    colons into exactly two pieces that [int] reads as the hour and the
    minute returned. *)
Theorem parse_daily_time_valid (py_int : string → option Z) (daily_time_str : string) :
  let '(hour, minute) := Scheduler._parse_daily_time py_int daily_time_str in
  (0 ≤ hour ≤ 23)%Z ∧ (0 ≤ minute ≤ 59)%Z ∧
  ((hour, minute) = (2, 0)%Z ∨
   ∃ hour_text minute_text,
     Scheduler.split_on ":" daily_time_str = [hour_text; minute_text] ∧
     py_int hour_text = Some hour ∧ py_int minute_text = Some minute).
Proof.
  unfold Scheduler._parse_daily_time.
  destruct (_ || _); [repeat split; (lia || by left) |].
  destruct (Scheduler.split_on ":" daily_time_str) as [| hour_text [| minute_text [| ? ?]]];
    try (repeat split; (lia || by left)).
  destruct (py_int hour_text) as [hour |] eqn:Hh; [| repeat split; (lia || by left)].
  destruct (py_int minute_text) as [minute |] eqn:Hm; [| repeat split; (lia || by left)].
  destruct (_ || _) eqn:Hrange; [repeat split; (lia || by left) |].
  apply orb_false_elim in Hrange as [Hrange H4].
  apply orb_false_elim in Hrange as [Hrange H3].
  apply orb_false_elim in Hrange as [H1 H2].
  apply Z.ltb_ge in H1, H2, H3, H4.
  split; [lia |]. split; [lia |]. right. by exists hour_text, minute_text.
Qed.

(** X21. The daily job only adds to the store. Whatever the table, the
    network, the pages and the storage do, [daily_collection_job] goes
    through every row of the table and ends with a save of the store it
    arrived at; in that store every list recorded before is a prefix of
    the list now at its place, the company records and summaries are
    untouched, buckets that had both lists still have them, and no two
    entries of a list share a dedup key if none did before. *)
Theorem daily_job_only_adds (env_at : string → Fetch.Env) (df : list Companies.row)
    (api : string → SecFetcher.api_reply) (discover : string → list IrScraper.link)
    (now : string) (fs : Fetch.FileSystem) (data_store : DataStore) (disk : Disk) :
  buckets_complete data_store →
  no_duplicate_keys data_store →
  let '(_, data_store', disk', processed_count) :=
    Scheduler.daily_collection_job env_at df api discover now fs data_store disk in
  processed_count = length df ∧
  disk' = save_to_json now data_store' disk ∧
  entries_kept data_store data_store' ∧
  buckets_complete data_store' ∧
  no_duplicate_keys data_store'.
Proof.
  intros Hc Hn. unfold Scheduler.daily_collection_job.
  pose proof (companies_loop_kept env_at df api discover df fs data_store 0) as Hloop.
  destruct (Scheduler.companies_loop _ _ _ _ df fs data_store 0) as [[fs' ds'] n].
  destruct Hloop as [(Hc' & Hn' & He') ->].
  split; [done |]. split; [done |]. split; [done |]. split; [by apply Hc' | by apply Hn'].
Qed.

Lemma daily_job_only_adds_witness :
  let env_at := λ _ : string,
    sample_env (Fetch.Body (Some "text/html") ["<html>"; "10-K</html>"] None) in
  let disk := {| files := ∅; unreadable := ∅; unwritable := ∅ |} in
  (buckets_complete sample_store ∧ no_duplicate_keys sample_store) ∧
  let '(_, data_store', disk', processed_count) :=
    Scheduler.daily_collection_job env_at sample_universe (sample_api sample_recent)
      (λ _, [annual_report_link; slides_link]) "2024-01-02T04:00:00" empty_storage
      sample_store disk in
  processed_count = 1 ∧
  disk' = save_to_json "2024-01-02T04:00:00" data_store' disk ∧
  entries_kept sample_store data_store' ∧
  buckets_complete data_store' ∧
  no_duplicate_keys data_store'.
Proof.
  intros env_at disk.
  assert (buckets_complete sample_store) as Hc by (by apply buckets_complete_empty).
  assert (no_duplicate_keys sample_store) as Hn by (by apply no_duplicate_keys_empty).
  split; [done |].
  exact (daily_job_only_adds env_at sample_universe (sample_api sample_recent)
           (λ _, [annual_report_link; slides_link]) "2024-01-02T04:00:00" empty_storage
           sample_store disk Hc Hn).
Defined.

(** ** The status and the collection routes *)

Section RouteFacts.

Import Fetch Tasks StatusRoute.

Lemma status_total_insert_new (self : DataStore) (T : string) (b : bucket) :
  document_metadata_store self !! T = None →
  total_document_metadata_count
    (get_status_route (with_documents self (<[T := b]> (document_metadata_store self)))) =
  total_document_metadata_count (get_status_route self) + counted b.
Proof.
  intros HT. simpl. rewrite map_fold_insert_L; [unfold counted; lia | intros; lia | done].
Qed.

Lemma status_total_insert_known (self : DataStore) (T : string) (b b' : bucket) :
  document_metadata_store self !! T = Some b →
  total_document_metadata_count
    (get_status_route (with_documents self (<[T := b']> (document_metadata_store self)))) +
    counted b =
  total_document_metadata_count (get_status_route self) + counted b'.
Proof.
  intros HT. simpl. rewrite <- insert_delete_eq.
  rewrite map_fold_insert_L; [| intros; lia | apply lookup_delete_eq].
  rewrite (map_fold_delete_L _ _ T b (document_metadata_store self)); [| intros; lia | done].
  unfold counted. lia.
Qed.

Lemma counted_append (b : bucket) (source_type : string) (docs : list doc_meta) (m : doc_meta) :
  valid_source_type source_type →
  b !! source_type = Some docs →
  counted (<[source_type := docs ++ [m]]> b) = counted b + 1.
Proof.
  intros [-> | ->] Hd; unfold counted.
  - rewrite lookup_insert_eq, lookup_insert_ne by done. rewrite Hd. simpl.
    rewrite length_app. simpl. lia.
  - rewrite lookup_insert_eq, lookup_insert_ne by done. rewrite Hd. simpl.
    rewrite length_app. simpl. lia.
Qed.

End RouteFacts.

(** X22. The status counts what was recorded. On a store whose buckets
    have both lists, a call of [add_document_metadata] raises the
    "total_document_metadata_count" of [get_status_route] by one when the
    source type is "ir" or "sec" and the value is no duplicate in its
    list, and leaves it as it was otherwise; the other three figures of
    the status do not move. *)
Theorem status_counts_recorded_documents (self : DataStore) (ticker source_type : string)
    (m : doc_meta) :
  buckets_complete self →
  let after := (add_document_metadata ticker source_type m self).1 in
  StatusRoute.total_document_metadata_count (StatusRoute.get_status_route after) =
    StatusRoute.total_document_metadata_count (StatusRoute.get_status_route self) +
    (if str_in source_type ["ir"; "sec"] &&
        negb (is_duplicate (documents ticker source_type self) m)
     then 1 else 0) ∧
  StatusRoute.tracked_companies_count (StatusRoute.get_status_route after) =
    StatusRoute.tracked_companies_count (StatusRoute.get_status_route self) ∧
  StatusRoute.total_summary_metadata_count (StatusRoute.get_status_route after) =
    StatusRoute.total_summary_metadata_count (StatusRoute.get_status_route self) ∧
  StatusRoute.data_store_file (StatusRoute.get_status_route after) =
    StatusRoute.data_store_file (StatusRoute.get_status_route self).
Proof.
  intros Hc after. subst after.
  destruct (str_in source_type ["ir"; "sec"]) eqn:Hvalid.
  - assert (valid_source_type source_type) as Hv.
    { unfold str_in in Hvalid. simpl in Hvalid.
      destruct (String.eqb source_type "ir") eqn:H1; [left; by apply String.eqb_eq |].
      destruct (String.eqb source_type "sec") eqn:H2; [right; by apply String.eqb_eq | done]. }
    rewrite documents_unfold by done.
    destruct (document_metadata_store self !! upper ticker) as [b |] eqn:Hb.
    + rewrite (add_document_known_ticker _ _ _ _ b) by done.
      destruct (Hc _ _ Hb) as [Hir Hsec].
      assert (is_Some (b !! source_type)) as [docs Hd] by (by destruct Hv as [-> | ->]).
      rewrite Hd. simpl. destruct (is_duplicate docs m); simpl; [repeat split; lia |].
      split; [| done].
      pose proof (status_total_insert_known self (upper ticker) b
                    (<[source_type := docs ++ [m]]> b) Hb) as Hins.
      rewrite (counted_append b source_type docs m Hv Hd) in Hins. simpl in Hins. lia.
    + rewrite add_document_new_ticker by done. simpl fst.
      assert (is_duplicate [] m = false) as -> by (unfold is_duplicate; by destruct (truthy _)).
      split; [| done].
      assert (new_bucket !! source_type = Some []) as Hd by (by destruct Hv as [-> | ->]).
      pose proof (status_total_insert_new self (upper ticker)
                    (<[source_type := [m]]> new_bucket) Hb) as Hins.
      change [m] with ([] ++ [m]) in Hins.
      rewrite (counted_append new_bucket source_type [] m Hv Hd) in Hins.
      simpl in Hins |- *. exact Hins.
  - unfold add_document_metadata. rewrite Hvalid. simpl.
    destruct (document_metadata_store self !! upper ticker) as [b |] eqn:Hb;
      [repeat split; lia |].
    split; [| done].
    pose proof (status_total_insert_new self (upper ticker) new_bucket Hb) as Hins.
    simpl in Hins |- *. exact Hins.
Qed.

Lemma status_counts_recorded_documents_witness :
  let m := sample_meta (PStr "9f2c") (PStr "https://example.com/10k.pdf") in
  let once := (add_document_metadata "aapl" "ir" m sample_store).1 in
  let twice := (add_document_metadata "AAPL" "ir" m once).1 in
  let other := (add_document_metadata "AAPL" "press" m twice).1 in
  buckets_complete sample_store ∧
  StatusRoute.total_document_metadata_count (StatusRoute.get_status_route sample_store) = 0 ∧
  StatusRoute.total_document_metadata_count (StatusRoute.get_status_route once) = 1 ∧
  StatusRoute.total_document_metadata_count (StatusRoute.get_status_route twice) = 1 ∧
  StatusRoute.total_document_metadata_count (StatusRoute.get_status_route other) = 1.
Proof.
  intros m once twice other.
  assert (buckets_complete sample_store) as Hc by (by apply buckets_complete_empty).
  assert (buckets_complete once) as Hc1 by (by apply buckets_complete_add_document).
  assert (buckets_complete twice) as Hc2 by (by apply buckets_complete_add_document).
  destruct (status_counts_recorded_documents sample_store "aapl" "ir" m Hc) as [H1 _].
  destruct (status_counts_recorded_documents once "AAPL" "ir" m Hc1) as [H2 _].
  destruct (status_counts_recorded_documents twice "AAPL" "press" m Hc2) as [H3 _].
  split; [exact Hc |]. split; [reflexivity |].
  fold once in H1. fold twice in H2. fold other in H3.
  assert (StatusRoute.total_document_metadata_count (StatusRoute.get_status_route once) = 1)
    as Honce by (rewrite H1; reflexivity).
  assert (StatusRoute.total_document_metadata_count (StatusRoute.get_status_route twice) = 1)
    as Htwice by (rewrite H2, Honce; reflexivity).
  split; [exact Honce |]. split; [exact Htwice |]. rewrite H3, Htwice. reflexivity.
Defined.



(** ** Chunking a text for the summarizer *)

Section ChunkFacts.

Import Summarizer.





End ChunkFacts.

Example py_split_cases :
  Summarizer.py_split "  net  sales rose 5% " = ["net"; "sales"; "rose"; "5%"] ∧
  Summarizer.py_split "   " = [] ∧
  Summarizer.py_split "" = [].
Proof. repeat split; reflexivity. Qed.

Example chunk_text_cases :
  Summarizer._chunk_text "aaaa bbbb cc" 3 = ["aaaa bbbb"; "cc"] ∧
  Summarizer._chunk_text "extraordinarily long" 1 = ["extraordinarily"; "long"] ∧
  Summarizer._chunk_text "a b" 0 = ["a"; "b"] ∧
  Summarizer._chunk_text "   " 3000 = ["   "] ∧
  Summarizer._chunk_text "" 3000 = [].
Proof. repeat split; reflexivity. Qed.


(** ** The exhibits of a filing *)

(** X25. The exhibits fetched for a filing are the other documents of its
    index. When the loop over the items of a filing index returns, it has
    added one outcome, in order, for each item whose "name" is a non-empty
    text other than the primary document's and not ending in .xml, .xsd,
    .jpg or .gif, and none for any other item; the outcome of an exhibit
    names the file <RAW_DATA_DIR>/<TICKER>/sec/<form>_Exhibit/<accession
    without dashes>/<name>, or, when it failed, the archive address of
    that name. An index reply that is not a JSON body gives no item at
    all. *)
Theorem exhibits_are_the_other_documents (env : Fetch.Env) (df : list Companies.row)
    (api : string → SecFetcher.api_reply) (index_url : string)
    (ticker_symbol accession_number primary_doc_name form_name : string) (items : list json)
    (download_results results : list Fetch.fetch_result) (fs fs' : Fetch.FileSystem) :
  SecFetcher.cik_missing (Companies.get_company_cik df ticker_symbol) = false →
  SecPass.exhibits_loop env df ticker_symbol (JStr accession_number) primary_doc_name form_name
    items download_results fs = (fs', Returned results) →
  (∃ outcomes,
     results = download_results ++ outcomes ∧
     Forall2
       (λ name res,
          outcome_at
            (SecDownload.filing_path env ticker_symbol accession_number
               (form_name +:+ "_Exhibit") name)
            (SecDownload.archive_url (default "" (Companies.get_company_cik df ticker_symbol))
               accession_number name) res)
       (omap (exhibit_name primary_doc_name) items) outcomes) ∧
  (primary_doc_name ∉ omap (exhibit_name primary_doc_name) items) ∧
  ((∀ body, api index_url ≠ SecFetcher.ApiJson body) →
   SecPass.index_items (SecFetcher._make_request api index_url) = Returned []).
Proof.
  intros Hcik Hrun. split; [| split].
  - revert download_results fs Hrun. unfold exhibit_name.
    induction items as [| item rest IH]; intros download_results fs; simpl.
    + unfold Fetch.ret. intros [= <- <-]. exists []. by rewrite app_nil_r.
    + destruct item as [| flag | n | s | elements | members];
        try (unfold Fetch.raise; intros [=]; fail).
      unfold SecFetcher.py_get.
      destruct (SecFetcher.member "name" members) as [doc_name |]; simpl; [| apply IH].
      destruct doc_name as [| flag | n | name | elements | names]; simpl;
        try apply IH;
        try (match goal with
             | |- context [if ?c then _ else _] => destruct c
             end; [unfold Fetch.raise; intros [=] | apply IH]; fail).
      unfold SecPass.json_is_str.
      destruct (String.eqb name "") eqn:Hempty; simpl.
      { apply String.eqb_eq in Hempty.
        rewrite bool_decide_eq_false_2 by (intros [? _]; done). simpl. apply IH. }
      apply String.eqb_neq in Hempty.
      destruct (String.eqb name primary_doc_name) eqn:Hprimary; simpl.
      { apply String.eqb_eq in Hprimary.
        rewrite bool_decide_eq_false_2 by (intros [_ ?]; done). simpl. apply IH. }
      apply String.eqb_neq in Hprimary.
      rewrite bool_decide_eq_true_2 by done. simpl.
      destruct (SecPass.downloadable_name name); [| apply IH].
      unfold Fetch.fs_bind at 1.
      destruct (SecPass.download_filing_document_of _ _ _ _ _ _ fs) as [fs1 [res | e]] eqn:Hd;
        [| done].
      intros Hrest. apply IH in Hrest as (outcomes & -> & Hall).
      exists (res :: outcomes). split; [by rewrite <- app_assoc |].
      constructor; [| done].
      unfold SecPass.download_filing_document_of in Hd. rewrite Hcik in Hd.
      by eapply download_filing_document_outcome.
  - intros Hin. apply list_elem_of_omap in Hin as (item & _ & Hname).
    unfold exhibit_name in Hname.
    destruct item as [| | | | | members]; try done.
    destruct (SecFetcher.member "name" members) as [[| | | name | |] |]; try done.
    case_bool_decide as Hne; simpl in Hname; [| done].
    destruct (SecPass.downloadable_name name); [| done].
    injection Hname as ->. by destruct Hne.
  - intros Hfail. unfold SecPass.index_items. by rewrite (make_request_error _ _ Hfail).
Qed.

Lemma exhibits_are_the_other_documents_witness :
  let env := sample_env (Fetch.Body (Some "text/html") ["<html>"; "exhibit</html>"] None) in
  let items :=
    [ JObj [("name", JStr "wmt-20240131.htm"); ("type", JStr "text.gif")];
      JObj [("name", JStr "ex-21.htm")];
      JObj [("name", JStr "Financial_Report.xml")];
      JObj [("type", JStr "folder")];
      JObj [("name", JStr "ex-23.htm")] ] in
  omap (exhibit_name "wmt-20240131.htm") items = ["ex-21.htm"; "ex-23.htm"] ∧
  ∃ fs' results,
    SecPass.exhibits_loop env sample_universe "WMT" (JStr "0000104169-24-000056")
      "wmt-20240131.htm" "10-K" items [] empty_storage = (fs', Returned results) ∧
    length results = 2.
Proof.
  intros env items. split; [vm_compute; reflexivity |].
  assert (SecFetcher.cik_missing (Companies.get_company_cik sample_universe "WMT") = false)
    as Hcik by (vm_compute; reflexivity).
  destruct (SecPass.exhibits_loop env sample_universe "WMT" (JStr "0000104169-24-000056")
              "wmt-20240131.htm" "10-K" items [] empty_storage)
    as [fs' [results | e]] eqn:Hrun.
  - destruct (exhibits_are_the_other_documents env sample_universe (sample_api sample_recent)
                "https://www.sec.gov/Archives/edgar/data/104169/000010416924000056/index.json"
                "WMT" "0000104169-24-000056" "wmt-20240131.htm" "10-K" items [] results
                empty_storage fs' Hcik Hrun) as ((outcomes & -> & Hall) & _ & _).
    exists fs', ([] ++ outcomes). split; [reflexivity |].
    apply Forall2_length in Hall. simpl. rewrite <- Hall. vm_compute. reflexivity.
  - vm_compute in Hrun. discriminate Hrun.
Defined.
